(** * The YouTube mind-map demo ([main.py]) and the image Q&A page ([vision.py])

    A shallow embedding of the functions of the two Streamlit scripts, and
    the properties of the specification stated against them.

    Python strings are modelled by [string]; a character is an [ascii].
    The functions below only ever compare characters with ASCII constants
    ([{], [}], [v], [=], [/], the members of the video-id alphabet), so the
    choice of character type does not influence any result. *)

From Stdlib Require Import String Ascii List ZArith Lia Bool.
From Stdlib Require Import Floats.SpecFloat DecimalString.
Import ListNotations.

Local Open Scope string_scope.
Local Open Scope Z_scope.

(** ** Python built-ins used by the scripts *)

Module Py.

(** [s.find(c)] for a one-character needle: index of the first occurrence,
    [-1] when there is none. *)
Fixpoint find_from (i : Z) (s : string) (c : ascii) : Z :=
  match s with
  | EmptyString => -1
  | String a s' => if Ascii.eqb a c then i else find_from (i + 1) s' c
  end.

Definition find (s : string) (c : ascii) : Z := find_from 0 s c.

(** [s.rfind(c)]: index of the last occurrence, [-1] when there is none. *)
Fixpoint rfind_from (i last : Z) (s : string) (c : ascii) : Z :=
  match s with
  | EmptyString => last
  | String a s' => rfind_from (i + 1) (if Ascii.eqb a c then i else last) s' c
  end.

Definition rfind (s : string) (c : ascii) : Z := rfind_from 0 (-1) s c.

Definition len (s : string) : Z := Z.of_nat (String.length s).

(** A slice bound is clipped to [0 .. len s]; a negative bound counts from
    the end. *)
Definition clip (s : string) (i : Z) : Z :=
  if i <? 0 then Z.max 0 (i + len s) else Z.min i (len s).

(** [s[a:b]]. *)
Definition slice (s : string) (a b : Z) : string :=
  let lo := clip s a in
  let hi := clip s b in
  substring (Z.to_nat lo) (Z.to_nat (hi - lo)) s.

(** [sep.join(items)]. *)
Definition join (sep : string) (items : list string) : string :=
  String.concat sep items.

(** Truthiness of a string: [bool(s)]. *)
Definition truthy (s : string) : bool :=
  match s with EmptyString => false | _ => true end.

End Py.

(** ** A backtracking matcher for the fragment of [re] that [main.py] uses *)

Module Re.

Inductive regex : Type :=
| Lit (c : ascii)                 (* one literal character *)
| Set_ (p : ascii -> bool)        (* a character class *)
| Cat (r1 r2 : regex)             (* r1 r2 *)
| Alt (r1 r2 : regex)             (* r1|r2, r1 tried first *)
| Rep (n : nat) (r : regex)       (* r{n} *)
| StarSet (p : ascii -> bool)     (* [class]*, greedy *)
| Group (r : regex).              (* ( r ), capturing group 1 *)

(** The continuation receives the text still to be matched and the content
    of group 1 so far, and answers with the final content of group 1. *)
Definition cont : Type := string -> option string -> option (option string).

Fixpoint rep (m : string -> option string -> cont -> option (option string))
    (n : nat) (s : string) (g : option string) (k : cont) :=
  match n with
  | O => k s g
  | S n' => m s g (fun s' g' => rep m n' s' g' k)
  end.

Fixpoint star (p : ascii -> bool) (s : string) (g : option string) (k : cont) :=
  match s with
  | String a s' =>
      if p a then
        match star p s' g k with
        | Some m => Some m
        | None => k s g
        end
      else k s g
  | EmptyString => k s g
  end.

Fixpoint run (r : regex) (s : string) (g : option string) (k : cont)
    : option (option string) :=
  match r with
  | Lit c =>
      match s with
      | String a s' => if Ascii.eqb a c then k s' g else None
      | EmptyString => None
      end
  | Set_ p =>
      match s with
      | String a s' => if p a then k s' g else None
      | EmptyString => None
      end
  | Cat r1 r2 => run r1 s g (fun s' g' => run r2 s' g' k)
  | Alt r1 r2 =>
      match run r1 s g k with
      | Some m => Some m
      | None => run r2 s g k
      end
  | Rep n r1 => rep (run r1) n s g k
  | StarSet p => star p s g k
  | Group r1 =>
      run r1 s g
        (fun s' _ =>
           k s' (Some (substring 0 (String.length s - String.length s') s)))
  end.

(** [re.match]: a match anchored at the start of [s]; the result is the
    content of group 1 of the match object. *)
Definition match_ (r : regex) (s : string) : option (option string) :=
  run r s None (fun _ g => Some g).

(** [re.search]: the leftmost position at which the pattern matches. *)
Fixpoint search (r : regex) (s : string) : option (option string) :=
  match match_ r s with
  | Some m => Some m
  | None =>
      match s with
      | EmptyString => None
      | String _ s' => search r s'
      end
  end.

End Re.

(** ** [main.py]: the video id *)

Definition in_range (lo hi c : ascii) : bool :=
  (Ascii.leb lo c && Ascii.leb c hi)%bool.

(** The class [[0-9A-Za-z_-]]. *)
Definition id_char (c : ascii) : bool :=
  (in_range "0" "9" c || in_range "A" "Z" c || in_range "a" "z" c
   || Ascii.eqb c "_" || Ascii.eqb c "-")%bool.

(** [.] without DOTALL: anything but a line feed. *)
Definition dot (c : ascii) : bool := negb (Ascii.eqb c "010").

(** [r"(?:v=|\/)([0-9A-Za-z_-]{11}).*"] *)
Definition VIDEO_ID_RE : Re.regex :=
  Re.Cat (Re.Alt (Re.Cat (Re.Lit "v") (Re.Lit "=")) (Re.Lit "/"))
    (Re.Cat (Re.Group (Re.Rep 11 (Re.Set_ id_char))) (Re.StarSet dot)).

Definition get_video_id (url : string) : option string :=
  match Re.search VIDEO_ID_RE url with
  | Some video_id_match =>
      match video_id_match with
      | Some g => Some g
      | None => None
      end
  | None => None
  end.

(** ** Values, exceptions and results *)

(** What [json.loads] can return.  A float is kept as a [spec_float]; an
    object keeps its members in insertion order, each key once. *)
#[warnings="-register-all"]
Inductive json : Type :=
| JNull
| JBool (b : bool)
| JInt (n : Z)
| JFloat (f : spec_float)
| JStr (s : string)
| JArr (items : list json)
| JObj (members : list (string * json)).

(** The exceptions that occur, all of them subclasses of [Exception];
    [OtherError] stands for any further class, by name. *)
Inductive exn : Type :=
| KeyError (key : json)
| TypeError (msg : string)
| AssertionError (msg : string)
| ValueError (msg : string)
| JSONDecodeError (msg : string)
| OtherError (cls msg : string).

(** A call returns a value or raises. *)
Inductive result (A : Type) : Type :=
| Ok (a : A)
| Raise (e : exn).

Arguments Ok {A} a.
Arguments Raise {A} e.

Definition rbind {A B : Type} (r : result A) (f : A -> result B) : result B :=
  match r with
  | Ok a => f a
  | Raise e => Raise e
  end.

Module PyVal.

Fixpoint assoc (k : string) (ms : list (string * json)) : option json :=
  match ms with
  | [] => None
  | (k', v) :: ms' => if String.eqb k' k then Some v else assoc k ms'
  end.

(** [v[k]] for a string key [k]. *)
Definition subscript (v : json) (k : string) : result json :=
  match v with
  | JObj ms =>
      match assoc k ms with
      | Some x => Ok x
      | None => Raise (KeyError (JStr k))
      end
  | JArr _ => Raise (TypeError "list indices must be integers or slices, not str")
  | JStr _ => Raise (TypeError "string indices must be integers, not 'str'")
  | JNull => Raise (TypeError "'NoneType' object is not subscriptable")
  | JBool _ => Raise (TypeError "'bool' object is not subscriptable")
  | JInt _ => Raise (TypeError "'int' object is not subscriptable")
  | JFloat _ => Raise (TypeError "'float' object is not subscriptable")
  end.

(** The items that [for x in v] visits: the elements of a list, the keys
    of a dict, the characters of a string. *)
Definition iter (v : json) : result (list json) :=
  match v with
  | JArr l => Ok l
  | JObj ms => Ok (map (fun kv => JStr (fst kv)) ms)
  | JStr s => Ok (map (fun c => JStr (String c EmptyString)) (list_ascii_of_string s))
  | JNull => Raise (TypeError "'NoneType' object is not iterable")
  | JBool _ => Raise (TypeError "'bool' object is not iterable")
  | JInt _ => Raise (TypeError "'int' object is not iterable")
  | JFloat _ => Raise (TypeError "'float' object is not iterable")
  end.

(** [bool(v)]. *)
Definition truthy (v : json) : bool :=
  match v with
  | JNull => false
  | JBool b => b
  | JInt n => negb (n =? 0)
  | JFloat f => match f with S754_zero _ => false | _ => true end
  | JStr s => Py.truthy s
  | JArr l => match l with [] => false | _ => true end
  | JObj ms => match ms with [] => false | _ => true end
  end.

(** [isinstance(v, str) or isinstance(v, int)]; [bool] is a subclass of
    [int]. *)
Definition is_str_or_int (v : json) : bool :=
  match v with
  | JStr _ | JInt _ | JBool _ => true
  | _ => false
  end.

Definition int_of_bool (b : bool) : Z := if b then 1 else 0.

(** [a == b] on the values that pass [is_str_or_int]. *)
Definition eqb (a b : json) : bool :=
  match a, b with
  | JStr s, JStr t => String.eqb s t
  | JInt n, JInt m => n =? m
  | JInt n, JBool c => n =? int_of_bool c
  | JBool c, JInt m => int_of_bool c =? m
  | JBool c, JBool d => Bool.eqb c d
  | _, _ => false
  end.

(** [str(v)] on the values that pass [is_str_or_int]. *)
Definition str (v : json) : string :=
  match v with
  | JStr s => s
  | JInt n => NilZero.string_of_int (Z.to_int n)
  | JBool true => "True"
  | JBool false => "False"
  | _ => ""
  end.

End PyVal.

(** ** The part of [pyvis.network.Network] that the renderer drives

    A node is the option dict pyvis stores for it, an edge likewise.
    [add_node] ignores an id that is already present; [add_edge] asserts
    that both end points are present and, on a directed network, never
    looks for an existing edge. *)

Record Node : Type := mkNode {
  node_id : json;
  node_label : json;
  node_color : string;
  node_shape : string;
  node_size : Z;
  node_font_color : string
}.

Record Edge : Type := mkEdge {
  edge_from : json;
  edge_to : json;
  edge_color : string;
  edge_arrows : option string
}.

Record Network : Type := mkNetwork {
  height : string;
  width : string;
  bgcolor : string;
  font_color : string;
  directed : bool;
  nodes : list Node;
  edges : list Edge
}.

Module Pyvis.

Definition new (height width bgcolor font_color : string) (directed : bool)
    : Network :=
  mkNetwork height width bgcolor font_color directed [] [].

Definition node_ids (net : Network) : list json := map node_id (nodes net).

Definition has_node (net : Network) (n_id : json) : bool :=
  existsb (PyVal.eqb n_id) (node_ids net).

Definition with_nodes (net : Network) (ns : list Node) : Network :=
  mkNetwork (height net) (width net) (bgcolor net) (font_color net)
    (directed net) ns (edges net).

Definition with_edges (net : Network) (es : list Edge) : Network :=
  mkNetwork (height net) (width net) (bgcolor net) (font_color net)
    (directed net) (nodes net) es.

Definition add_node (net : Network) (n_id label : json)
    (color shape : string) (size : Z) : result Network :=
  if PyVal.is_str_or_int n_id then
    let node_label := if PyVal.truthy label then label else n_id in
    if has_node net n_id then Ok net
    else
      Ok (with_nodes net
            (nodes net ++
               [mkNode n_id node_label color shape size (font_color net)]))
  else Raise (AssertionError "").

Definition same_ends (source to : json) (e : Edge) : bool :=
  ((PyVal.eqb source (edge_to e) && PyVal.eqb to (edge_from e))
   || (PyVal.eqb source (edge_from e) && PyVal.eqb to (edge_to e)))%bool.

Definition add_edge (net : Network) (source to : json) (color : string)
    : result Network :=
  if negb (has_node net source) then
    Raise (AssertionError ("non existent node '" ++ PyVal.str source ++ "'"))
  else if negb (has_node net to) then
    Raise (AssertionError ("non existent node '" ++ PyVal.str to ++ "'"))
  else
    let edge_exists :=
      if directed net then false else existsb (same_ends source to) (edges net) in
    if edge_exists then Ok net
    else
      Ok (with_edges net
            (edges net ++
               [mkEdge source to color
                  (if directed net then Some "to" else None)])).

End Pyvis.

(** ** A reference decoder for [json.loads]

    The theorems below hold for every decoder (it is a field of [World]);
    this one follows the scanner of CPython's [json] module and serves to
    run the pipeline on concrete responses.  Text is UTF-8: a [\u] escape
    is stored as the bytes of its code point.  The interpreter's limit on
    nesting depth is replaced by a bound that grows with the input; its
    limit on the digits of an [int] is the default of CPython 3.11. *)

Module Json.

Definition dq : ascii := "034"%char.
Definition backslash : ascii := "092"%char.

Definition is_ws (c : ascii) : bool :=
  (Ascii.eqb c " " || Ascii.eqb c "009" || Ascii.eqb c "010" || Ascii.eqb c "013")%bool.

Fixpoint skip_ws (s : string) : string :=
  match s with
  | String c s' => if is_ws c then skip_ws s' else s
  | EmptyString => s
  end.

Definition is_digit (c : ascii) : bool := in_range "0" "9" c.

Definition digit_val (c : ascii) : Z := Z.of_N (N_of_ascii c) - 48.

(** The longest prefix of digits, and what follows it. *)
Fixpoint span_digits (s : string) : string * string :=
  match s with
  | String c s' =>
      if is_digit c then
        let (ds, rest) := span_digits s' in (String c ds, rest)
      else (EmptyString, s)
  | EmptyString => (EmptyString, s)
  end.

Fixpoint decimal_from (acc : Z) (ds : string) : Z :=
  match ds with
  | String c ds' => decimal_from (10 * acc + digit_val c) ds'
  | EmptyString => acc
  end.

Definition decimal (ds : string) : Z := decimal_from 0 ds.

(** The binary64 value nearest to [m * 10^e] (ties to even), for [0 <= m]. *)
Definition float_of_decimal (neg : bool) (m e : Z) : spec_float :=
  match m with
  | Zpos _ =>
      if 0 <=? e then
        binary_round 53 1024 neg (Z.to_pos (m * 10 ^ e)) 0
      else
        let '(q, e', loc) := SFdiv_core_binary 53 1024 m 0 (10 ^ (- e)) 0 in
        binary_round_aux 53 1024 neg q e' loc
  | _ => S754_zero neg
  end.

(** [NUMBER_RE]: an optional minus sign, then [0] or a digit string that
    does not start with [0]; an optional fraction (a point and at least one
    digit); an optional exponent ([e] or [E], an optional sign, at least one
    digit).  Without fraction and exponent the number is an [int]. *)
Definition scan_number (s : string) : option (json * string) :=
  let (neg, s1) :=
    match s with
    | String "-" s' => (true, s')
    | _ => (false, s)
    end in
  let int_part :=
    match s1 with
    | String "0" s' => Some ("0", s')
    | String c _ =>
        if is_digit c then Some (span_digits s1) else None
    | EmptyString => None
    end in
  match int_part with
  | None => None
  | Some (ds, s2) =>
      let (frac, s3) :=
        match s2 with
        | String "." s' =>
            match span_digits s' with
            | (EmptyString, _) => (None, s2)
            | (fs, rest) => (Some fs, rest)
            end
        | _ => (None, s2)
        end in
      let exponent_digits (eneg : bool) (t : string) :=
        match span_digits t with
        | (EmptyString, _) => (None, s3)
        | (es, rest) => (Some (if eneg then - decimal es else decimal es), rest)
        end in
      let (exp, s4) :=
        match s3 with
        | String c s' =>
            if (Ascii.eqb c "e" || Ascii.eqb c "E")%bool then
              match s' with
              | String "-" s'' => exponent_digits true s''
              | String "+" s'' => exponent_digits false s''
              | _ => exponent_digits false s'
              end
            else (None, s3)
        | EmptyString => (None, s3)
        end in
      match frac, exp with
      | None, None => Some (JInt (if neg then - decimal ds else decimal ds), s4)
      | _, _ =>
          let fs := match frac with Some fs => fs | None => EmptyString end in
          let e := match exp with Some e => e | None => 0 end in
          Some (JFloat (float_of_decimal neg (decimal (ds ++ fs))
                          (e - Z.of_nat (String.length fs))), s4)
      end
  end.

(** [sys.get_int_max_str_digits()]. *)
Definition INT_MAX_STR_DIGITS : nat := 4300.

(** The number of digits of the [int] that [scan_number] reads at the
    head of [s]. *)
Definition int_digits (s : string) : nat :=
  let s1 := match s with String "-" s' => s' | _ => s end in
  match s1 with
  | String "0" _ => 1
  | _ => String.length (fst (span_digits s1))
  end.

(** What [int] raises for a literal of [n] digits, [n] over the limit. *)
Definition int_limit_error (n : nat) : exn :=
  ValueError
    ("Exceeds the limit (4300 digits) for integer string conversion: value has "
       ++ NilZero.string_of_uint (Nat.to_uint n)
       ++ " digits; use sys.set_int_max_str_digits() to increase the limit").

Definition hex_val (c : ascii) : option Z :=
  if is_digit c then Some (digit_val c)
  else if in_range "a" "f" c then Some (Z.of_N (N_of_ascii c) - 87)
  else if in_range "A" "F" c then Some (Z.of_N (N_of_ascii c) - 55)
  else None.

(** The four hex digits of a [\uXXXX] escape. *)
Definition decode_uXXXX (s : string) : option (Z * string) :=
  match s with
  | String a (String b (String c (String d rest))) =>
      match hex_val a, hex_val b, hex_val c, hex_val d with
      | Some x, Some y, Some z, Some t =>
          Some (((x * 16 + y) * 16 + z) * 16 + t, rest)
      | _, _, _, _ => None
      end
  | _ => None
  end.

Definition byte (n : Z) : ascii := ascii_of_N (Z.to_N n).

Definition utf8 (cp : Z) : string :=
  if cp <? 128 then String (byte cp) EmptyString
  else if cp <? 2048 then
    String (byte (192 + cp / 64)) (String (byte (128 + cp mod 64)) EmptyString)
  else if cp <? 65536 then
    String (byte (224 + cp / 4096))
      (String (byte (128 + (cp / 64) mod 64))
         (String (byte (128 + cp mod 64)) EmptyString))
  else
    String (byte (240 + cp / 262144))
      (String (byte (128 + (cp / 4096) mod 64))
         (String (byte (128 + (cp / 64) mod 64))
            (String (byte (128 + cp mod 64)) EmptyString))).

Definition simple_escape (c : ascii) : option ascii :=
  if Ascii.eqb c dq then Some dq
  else if Ascii.eqb c backslash then Some backslash
  else if Ascii.eqb c "/" then Some "/"%char
  else if Ascii.eqb c "b" then Some "008"%char
  else if Ascii.eqb c "f" then Some "012"%char
  else if Ascii.eqb c "n" then Some "010"%char
  else if Ascii.eqb c "r" then Some "013"%char
  else if Ascii.eqb c "t" then Some "009"%char
  else None.

(** [scanstring] in strict mode; [s] starts just after the opening quote. *)
Fixpoint scan_string (fuel : nat) (s : string) : result (string * string) :=
  match fuel with
  | O => Raise (JSONDecodeError "Unterminated string")
  | S fuel' =>
      match s with
      | EmptyString => Raise (JSONDecodeError "Unterminated string starting at")
      | String c s' =>
          if Ascii.eqb c dq then Ok (EmptyString, s')
          else if Ascii.eqb c backslash then
            match s' with
            | EmptyString => Raise (JSONDecodeError "Unterminated string starting at")
            | String "u" s'' =>
                match decode_uXXXX s'' with
                | None => Raise (JSONDecodeError "Invalid \uXXXX escape")
                | Some (uni, rest) =>
                    let low :=
                      match rest with
                      | String b (String "u" rest') =>
                          if (Ascii.eqb b backslash && (55296 <=? uni) && (uni <=? 56319))%bool
                          then Some (decode_uXXXX rest')
                          else None
                      | _ => None
                      end in
                    match low with
                    | Some None => Raise (JSONDecodeError "Invalid \uXXXX escape")
                    | Some (Some (uni2, rest2)) =>
                        if ((56320 <=? uni2) && (uni2 <=? 57343))%bool then
                          rbind (scan_string fuel' rest2)
                            (fun '(t, r) =>
                               Ok (utf8 (65536 + ((uni - 55296) * 1024 + (uni2 - 56320))) ++ t, r))
                        else
                          rbind (scan_string fuel' rest)
                            (fun '(t, r) => Ok (utf8 uni ++ t, r))
                    | None =>
                        rbind (scan_string fuel' rest)
                          (fun '(t, r) => Ok (utf8 uni ++ t, r))
                    end
                end
            | String e s'' =>
                match simple_escape e with
                | Some a =>
                    rbind (scan_string fuel' s'')
                      (fun '(t, r) => Ok (String a t, r))
                | None => Raise (JSONDecodeError "Invalid \escape")
                end
            end
          else if (N_of_ascii c <? 32)%N then
            Raise (JSONDecodeError "Invalid control character at")
          else
            rbind (scan_string fuel' s') (fun '(t, r) => Ok (String c t, r))
      end
  end.

(** [d[k] = v]: a key already present keeps its place. *)
Fixpoint set_member (k : string) (v : json) (ms : list (string * json))
    : list (string * json) :=
  match ms with
  | [] => [(k, v)]
  | (k', v') :: ms' =>
      if String.eqb k' k then (k, v) :: ms' else (k', v') :: set_member k v ms'
  end.

(** [s] starts with [lit]: what follows it. *)
Fixpoint after (lit s : string) : option string :=
  match lit, s with
  | EmptyString, _ => Some s
  | String a lit', String b s' => if Ascii.eqb a b then after lit' s' else None
  | String _ _, EmptyString => None
  end.

Definition scan_literal (s : string) : option (json * string) :=
  match after "null" s with
  | Some r => Some (JNull, r)
  | None =>
  match after "true" s with
  | Some r => Some (JBool true, r)
  | None =>
  match after "false" s with
  | Some r => Some (JBool false, r)
  | None =>
  match scan_number s with
  | Some x => Some x
  | None =>
  match after "NaN" s with
  | Some r => Some (JFloat S754_nan, r)
  | None =>
  match after "Infinity" s with
  | Some r => Some (JFloat (S754_infinity false), r)
  | None =>
  match after "-Infinity" s with
  | Some r => Some (JFloat (S754_infinity true), r)
  | None => None
  end end end end end end end.

Fixpoint scan_value (fuel : nat) (s : string) : result (json * string) :=
  match fuel with
  | O => Raise (OtherError "RecursionError" "maximum recursion depth exceeded")
  | S fuel' =>
      match s with
      | EmptyString => Raise (JSONDecodeError "Expecting value")
      | String c s' =>
          if Ascii.eqb c dq then
            rbind (scan_string (String.length s) s') (fun '(t, r) => Ok (JStr t, r))
          else if Ascii.eqb c "{" then
            match skip_ws s' with
            | String "}" r => Ok (JObj [], r)
            | r => scan_members fuel' [] r
            end
          else if Ascii.eqb c "[" then
            match skip_ws s' with
            | String "]" r => Ok (JArr [], r)
            | r => scan_items fuel' [] r
            end
          else
            match scan_literal s with
            | Some (JInt n, r) =>
                if (INT_MAX_STR_DIGITS <? int_digits s)%nat
                then Raise (int_limit_error (int_digits s))
                else Ok (JInt n, r)
            | Some x => Ok x
            | None => Raise (JSONDecodeError "Expecting value")
            end
      end
  end

with scan_items (fuel : nat) (acc : list json) (s : string)
    : result (json * string) :=
  match fuel with
  | O => Raise (OtherError "RecursionError" "maximum recursion depth exceeded")
  | S fuel' =>
      match scan_value fuel' s with
      | Raise e => Raise e
      | Ok (v, r) =>
          match skip_ws r with
          | String "]" r' => Ok (JArr (acc ++ [v]), r')
          | String "," r' => scan_items fuel' (acc ++ [v]) (skip_ws r')
          | _ => Raise (JSONDecodeError "Expecting ',' delimiter")
          end
      end
  end

with scan_members (fuel : nat) (acc : list (string * json)) (s : string)
    : result (json * string) :=
  match fuel with
  | O => Raise (OtherError "RecursionError" "maximum recursion depth exceeded")
  | S fuel' =>
      match s with
      | String c s' =>
          if Ascii.eqb c dq then
            match scan_string (String.length s) s' with
            | Raise e => Raise e
            | Ok (k, r) =>
                match skip_ws r with
                | String ":" r' =>
                    match scan_value fuel' (skip_ws r') with
                    | Raise e => Raise e
                    | Ok (v, r'') =>
                        match skip_ws r'' with
                        | String "}" t => Ok (JObj (set_member k v acc), t)
                        | String "," t =>
                            scan_members fuel' (set_member k v acc) (skip_ws t)
                        | _ => Raise (JSONDecodeError "Expecting ',' delimiter")
                        end
                    end
                | _ => Raise (JSONDecodeError "Expecting ':' delimiter")
                end
            end
          else
            Raise (JSONDecodeError
                     "Expecting property name enclosed in double quotes")
      | EmptyString =>
          Raise (JSONDecodeError
                   "Expecting property name enclosed in double quotes")
      end
  end.

(** The byte order mark U+FEFF, as UTF-8. *)
Definition BOM : string := utf8 65279.

Definition loads (s : string) : result json :=
  match after BOM s with
  | Some _ =>
      Raise (JSONDecodeError "Unexpected UTF-8 BOM (decode using utf-8-sig)")
  | None =>
      match scan_value (2 * String.length s + 2) (skip_ws s) with
      | Raise e => Raise e
      | Ok (v, r) =>
          match skip_ws r with
          | EmptyString => Ok v
          | _ => Raise (JSONDecodeError "Extra data")
          end
      end
  end.

End Json.

(** ** The outside world and the state of the Streamlit session *)

(** One caption fragment of the transcript service. *)
Record fragment : Type := mkFragment {
  text : string;
  start : spec_float;
  duration : spec_float
}.

(** The response object of the generative model; [resp_text] is its
    [.text] field ([None] when the field holds no string). *)
Record response : Type := mkResponse {
  resp_text : option string
}.

(** The external collaborators: [json.loads],
    [GenerativeModel(model).generate_content(prompt)] and
    [YouTubeTranscriptApi.get_transcript(video_id)].  Each may raise. *)
Record World : Type := mkWorld {
  json_loads : string -> result json;
  generate_content : string -> string -> result response;
  get_transcript : string -> result (list fragment)
}.

(** A message shown to the user: a literal, or an f-string that
    interpolates an exception. *)
Inductive message : Type :=
| Msg (s : string)
| MsgExn (s : string) (e : exn).

Inductive event : Type :=
| st_error (m : message)
| st_warning (m : message)
| st_markdown (m : message)
| st_write (m : message)
| st_success (m : message)
| st_switch_page (page : string)
| model_request (model prompt : string)
| transcript_request (video_id : string)
| save_graph (net : Network) (file : string).

(** [st.session_state] and everything the script has done so far. *)
Record session : Type := mkSession {
  summary : string;
  mind_map_data : option json;
  trace : list event
}.

(** A piece of the script: it returns or raises, and leaves a session. *)
Definition M (A : Type) : Type := session -> result A * session.

Definition ret {A : Type} (a : A) : M A := fun st => (Ok a, st).

Definition bind {A B : Type} (m : M A) (f : A -> M B) : M B :=
  fun st =>
    match m st with
    | (Ok a, st') => f a st'
    | (Raise e, st') => (Raise e, st')
    end.

Definition lift {A : Type} (r : result A) : M A := fun st => (r, st).

Definition emit (ev : event) : M unit :=
  fun st => (Ok tt, mkSession (summary st) (mind_map_data st) (trace st ++ [ev])).

Definition set_summary (s : string) : M unit :=
  fun st => (Ok tt, mkSession s (mind_map_data st) (trace st)).

Definition set_mind_map_data (d : json) : M unit :=
  fun st => (Ok tt, mkSession (summary st) (Some d) (trace st)).

(** [try: body  except Exception as e: handler(e)]. *)
Definition try_except {A : Type} (body : M A) (handler : exn -> M A) : M A :=
  fun st =>
    match body st with
    | (Ok a, st') => (Ok a, st')
    | (Raise e, st') => handler e st'
    end.

Declare Scope app_scope.
Delimit Scope app_scope with app.
Notation "x <- m ;; k" := (bind m (fun x => k))
  (at level 61, m at next level, right associativity) : app_scope.
Notation "m ;;; k" := (bind m (fun _ => k))
  (at level 61, right associativity) : app_scope.

Declare Scope result_scope.
Delimit Scope result_scope with result.
Notation "x <- m ;; k" := (rbind m (fun x => k))
  (at level 61, m at next level, right associativity) : result_scope.

(** [for x in l: s = f(s, x)], stopping at the first exception. *)
Fixpoint for_each {A S : Type} (f : S -> A -> result S) (s : S) (l : list A)
    : result S :=
  match l with
  | [] => Ok s
  | x :: l' => rbind (f s x) (fun s' => for_each f s' l')
  end.

(** ** [main.py]: prompts *)

Module Fmt.

(** [template.format(summary=value)] for templates made of literal text,
    doubled braces and plain field names (no conversions or format
    specifications, which the prompt template does not use). *)
Inductive mode : Type :=
| Text
| Open
| Field (name : string)
| Close.

Fixpoint go (m : mode) (t : string) (value : string) : result string :=
  match t with
  | EmptyString =>
      match m with
      | Text => Ok EmptyString
      | Open => Raise (ValueError "Single '{' encountered in format string")
      | Field _ => Raise (ValueError "expected '}' before end of string")
      | Close => Raise (ValueError "Single '}' encountered in format string")
      end
  | String c t' =>
      match m with
      | Text =>
          if Ascii.eqb c "{" then go Open t' value
          else if Ascii.eqb c "}" then go Close t' value
          else rbind (go Text t' value) (fun r => Ok (String c r))
      | Open =>
          if Ascii.eqb c "{" then
            rbind (go Text t' value) (fun r => Ok (String "{" r))
          else if Ascii.eqb c "}" then
            Raise (OtherError "IndexError"
                     "Replacement index 0 out of range for positional args tuple")
          else go (Field (String c EmptyString)) t' value
      | Field name =>
          if Ascii.eqb c "}" then
            if String.eqb name "summary" then
              rbind (go Text t' value) (fun r => Ok (value ++ r))
            else Raise (KeyError (JStr name))
          else go (Field (name ++ String c EmptyString)) t' value
      | Close =>
          if Ascii.eqb c "}" then
            rbind (go Text t' value) (fun r => Ok (String "}" r))
          else Raise (ValueError "Single '}' encountered in format string")
      end
  end.

Definition format (template value : string) : result string :=
  go Text template value.

(** The prompts of [main.py] are written below with an apostrophe where
    the source has a double quote; [dquote] puts the double quotes back. *)
Fixpoint dquote (s : string) : string :=
  match s with
  | EmptyString => EmptyString
  | String c s' => String (if Ascii.eqb c "'" then "034"%char else c) (dquote s')
  end.

End Fmt.

Definition PROMPT_SUMMARY : string := "
You are a YouTube video summarizer. You will take the transcript text
and provide a concise summary in bullet points. Please summarize the following text:
".

Definition PROMPT_MIND_MAP : string := Fmt.dquote "
You are an expert in creating structured mind maps.
Input: {summary}

Task: Generate a structured JSON for a mind map with parent nodes, child nodes, and relevant key points.
Please ensure the output is strictly formatted as valid JSON without any extra text or comments.

Format:
{{
  'title': 'Main Topic',
  'nodes': [
    {{'name': 'Subtopic 1', 'children': [{{'name': 'Key Point 1'}}, {{'name': 'Key Point 2'}}]}},
    {{'name': 'Subtopic 2', 'children': [{{'name': 'Key Point 1'}}, {{'name': 'Key Point 2'}}]}}
  ]
}}
".

Definition MODEL : string := "gemini-1.5-flash".

(** ** [main.py]: the pipeline stages *)

Section Main.

Variable w : World.

Local Open Scope app_scope.

(** [model.generate_content(prompt)], recorded in the trace. *)
Definition ask_model (prompt : string) : M response :=
  emit (model_request MODEL prompt) ;;;
  lift (generate_content w MODEL prompt).

Definition extract_transcript (video_id : string) : M (option string) :=
  try_except
    (emit (transcript_request video_id) ;;;
     transcript_data <- lift (get_transcript w video_id) ;;
     let transcript := Py.join " " (map text transcript_data) in
     ret (Some transcript))
    (fun e =>
       emit (st_error (MsgExn "❗ Error fetching transcript: " e)) ;;;
       ret None).

Definition text_truthy (t : option string) : bool :=
  match t with
  | Some s => Py.truthy s
  | None => false
  end.

Definition SUMMARY_WARNING : string := "⚠️ Error generating summary!".

Definition generate_summary (transcript : string) : M string :=
  response <- ask_model (PROMPT_SUMMARY ++ transcript) ;;
  ret (match resp_text response with
       | Some s => if Py.truthy s then s else SUMMARY_WARNING
       | None => SUMMARY_WARNING
       end).

Definition extract_json (response_text : string) : M (option json) :=
  try_except
    (let start_index := Py.find response_text "{" in
     let end_index := Py.rfind response_text "}" in
     if (negb (start_index =? -1) && negb (end_index =? -1))%bool then
       let json_str := Py.slice response_text start_index (end_index + 1) in
       v <- lift (json_loads w json_str) ;;
       ret (Some v)
     else lift (Raise (ValueError "No valid JSON found in the response.")))
    (fun e =>
       emit (st_error (MsgExn "❗ Error parsing mind map: " e)) ;;;
       ret None).

Definition generate_mind_map (summary : string) : M (option json) :=
  prompt <- lift (Fmt.format PROMPT_MIND_MAP summary) ;;
  response <- ask_model prompt ;;
  match resp_text response with
  | Some s =>
      if Py.truthy s then extract_json s
      else
        emit (st_error (Msg "❗ Error: Empty response from the Gemini API.")) ;;;
        ret None
  | None =>
      emit (st_error (Msg "❗ Error: Empty response from the Gemini API.")) ;;;
      ret None
  end.

(** *** The renderer *)

Local Open Scope result_scope.

(** The body of the inner loop: one key point of [subtopic]. *)
Definition add_child (subtopic : json) (net : Network) (child : json)
    : result Network :=
  n_id <- PyVal.subscript child "name" ;;
  label <- PyVal.subscript child "name" ;;
  net <- Pyvis.add_node net n_id label "lightblue" "ellipse" 20 ;;
  source <- PyVal.subscript subtopic "name" ;;
  to <- PyVal.subscript child "name" ;;
  Pyvis.add_edge net source to "purple".

(** The body of the outer loop: one subtopic and its key points. *)
Definition add_subtopic (root_name : json) (net : Network) (subtopic : json)
    : result Network :=
  n_id <- PyVal.subscript subtopic "name" ;;
  label <- PyVal.subscript subtopic "name" ;;
  net <- Pyvis.add_node net n_id label "green" "box" 30 ;;
  to <- PyVal.subscript subtopic "name" ;;
  net <- Pyvis.add_edge net root_name to "blue" ;;
  children <- PyVal.subscript subtopic "children" ;;
  children <- PyVal.iter children ;;
  for_each (add_child subtopic) net children.

(** The network as it stands when [save_graph] is reached. *)
Definition build_network (mind_map_data : json) : result Network :=
  let net := Pyvis.new "100vh" "100%" "#f9f9f9" "black" true in
  root_name <- PyVal.subscript mind_map_data "title" ;;
  net <- Pyvis.add_node net root_name root_name "orange" "circle" 40 ;;
  subtopics <- PyVal.subscript mind_map_data "nodes" ;;
  subtopics <- PyVal.iter subtopics ;;
  for_each (add_subtopic root_name) net subtopics.

Local Close Scope result_scope.

Definition create_mind_map_visual (mind_map_data : json) : M unit :=
  net <- lift (build_network mind_map_data) ;;
  emit (save_graph net "mind_map.html").

(** *** The button handler

    The body of [if st.button("Generate Friendly Mind Map"):], with
    [video_id] as the script computed it from [youtube_url] just before;
    [view_clicked] is what the nested [st.button] returns.  The nested
    blocks are named, innermost first.  They say what the handler does
    to the session and to the services; the widget that the nested
    [st.button] draws belongs to the page and is drawn by
    [show_mind_map_page] below, which runs these same lines. *)

(** The block under [mind_map_data = generate_mind_map(summary)]. *)
Definition show_mind_map (view_clicked : bool) (mind_map_data : option json)
    : M unit :=
  match mind_map_data with
  | Some mind_map_data =>
      if PyVal.truthy mind_map_data then
        set_mind_map_data mind_map_data ;;;
        create_mind_map_visual mind_map_data ;;;
        emit (st_success (Msg "✅ Mind map generated successfully!")) ;;;
        if view_clicked then emit (st_switch_page "pages/mind_map.py")
        else ret tt
      else emit (st_error (Msg "❗ Error generating mind map."))
  | None => emit (st_error (Msg "❗ Error generating mind map."))
  end.

(** The block under [summary = generate_summary(transcript)]. *)
Definition show_summary (view_clicked : bool) (summary : string) : M unit :=
  if Py.truthy summary then
    set_summary summary ;;;
    emit (st_markdown (Msg "## ✨ Summary:")) ;;;
    emit (st_write (Msg summary)) ;;;
    mind_map_data <- generate_mind_map summary ;;
    show_mind_map view_clicked mind_map_data
  else emit (st_error (Msg "❗ Error generating summary.")).

(** The block under [transcript = extract_transcript(video_id)]. *)
Definition use_transcript (view_clicked : bool) (transcript : option string)
    : M unit :=
  match transcript with
  | Some transcript =>
      if Py.truthy transcript then
        summary <- generate_summary transcript ;;
        show_summary view_clicked summary
      else ret tt
  | None => ret tt
  end.

Definition on_generate (youtube_url : string) (view_clicked : bool) : M unit :=
  if negb (Py.truthy youtube_url) then
    emit (st_warning (Msg "⚠️ Please enter a YouTube URL."))
  else
    match get_video_id youtube_url with
    | None => emit (st_error (Msg "❗ Invalid YouTube URL."))
    | Some video_id =>
        if negb (Py.truthy video_id) then
          emit (st_error (Msg "❗ Invalid YouTube URL."))
        else
          transcript <- extract_transcript video_id ;;
          use_transcript view_clicked transcript
    end.

End Main.

(** ** [vision.py] *)

Module Vision.

Section Vision.

(** A decoded image ([PIL.Image]); the script only passes it on. *)
Variable Image : Type.

(** What [generate_content] is given: one image, or a list of parts. *)
Inductive part : Type :=
| PText (s : string)
| PImage (i : Image).

Inductive content : Type :=
| Single (p : part)
| Parts (ps : list part).

(** The multimodal model: the request it receives and its response. *)
Variable generate_content : string -> content -> result response.

(** The value returned (or the exception that escapes) and the requests
    made, in order. *)
Definition get_gemini_response (input : string) (image : Image)
    : result (option string) * list (string * content) :=
  let model := "gemini-1.5-flash" in
  if negb (String.eqb input "") then
    let request := Parts [PText input; PImage image] in
    (rbind (generate_content model request) (fun response => Ok (resp_text response)),
     [(model, request)])
  else
    let request := Single (PImage image) in
    (rbind (generate_content model request) (fun response => Ok (resp_text response)),
     [(model, request)]).

End Vision.

End Vision.

(** ** Vocabulary of the specification *)

(** *** Tokens in a URL *)

Fixpoint all_chars (p : ascii -> bool) (s : string) : bool :=
  match s with
  | EmptyString => true
  | String c s' => (p c && all_chars p s')%bool
  end.

Fixpoint has_char (c : ascii) (s : string) : bool :=
  match s with
  | EmptyString => false
  | String a s' => (Ascii.eqb a c || has_char c s')%bool
  end.

(** An 11-character token of the video-id alphabet. *)
Definition id_token (tok : string) : Prop :=
  String.length tok = 11%nat /\ all_chars id_char tok = true.

(** [url] holds the token [tok] right after a [v=] or a [/] that starts at
    offset [i]. *)
Definition token_at (url : string) (i : nat) (tok : string) : Prop :=
  id_token tok /\
  exists pre sep rest,
    url = pre ++ sep ++ tok ++ rest /\ String.length pre = i /\
    (sep = "v=" \/ sep = "/").

(** [url] holds, right after a [v=] or a [/] that starts at offset [i], the
    run [run] of more than 11 characters of the alphabet (the run ends
    where the alphabet does). *)
Definition long_run_at (url : string) (i : nat) (run : string) : Prop :=
  (11 < String.length run)%nat /\ all_chars id_char run = true /\
  exists pre sep rest,
    url = pre ++ sep ++ run ++ rest /\ String.length pre = i /\
    (sep = "v=" \/ sep = "/") /\
    match rest with
    | EmptyString => True
    | String c _ => id_char c = false
    end.

(** The first [n] characters of [s] when they all satisfy [p], and the
    remainder. *)
Fixpoint take_class (p : ascii -> bool) (n : nat) (s : string)
    : option (string * string) :=
  match n with
  | O => Some (EmptyString, s)
  | S n' =>
      match s with
      | String a s' =>
          if p a then
            match take_class p n' s' with
            | Some (t, r) => Some (String a t, r)
            | None => None
            end
          else None
      | EmptyString => None
      end
  end.

(** The token that a match anchored at the start of [s] captures. *)
Definition id_prefix (s : string) : option string :=
  match s with
  | String a s1 =>
      if Ascii.eqb a "v" then
        match s1 with
        | String b s2 =>
            if Ascii.eqb b "=" then option_map fst (take_class id_char 11 s2)
            else None
        | EmptyString => None
        end
      else if Ascii.eqb a "/" then option_map fst (take_class id_char 11 s1)
      else None
  | EmptyString => None
  end.

(** *** Transcripts, sessions and stub worlds *)

(** The [text] fields in order, a single space between neighbours. *)
Definition spaced_texts (data : list fragment) : string :=
  match data with
  | [] => ""
  | d :: ds => fold_left (fun acc f => acc ++ " " ++ text f) ds (text d)
  end.

(** [st] after the events [evs]. *)
Definition log (st : session) (evs : list event) : session :=
  mkSession (summary st) (mind_map_data st) (trace st ++ evs).

(** A world for running the pipeline: the reference decoder, a model
    that answers every prompt with [answer] and a transcript service that
    answers every request with [captions]. *)
Definition stub_world (answer : option string) (captions : list fragment)
    : World :=
  mkWorld Json.loads
    (fun _ _ => Ok (mkResponse answer))
    (fun _ => Ok captions).

(** [n] seconds, as a float. *)
Definition second (n : positive) : spec_float := S754_finite false n 0.

Definition cats_captions : list fragment :=
  [mkFragment "Cats are mammals." (S754_zero false) (second 2);
   mkFragment "Cats are popular pets." (second 2) (second 3)].

(** The session at the start of a run. *)
Definition fresh : session := mkSession "" None [].

(** The substring from the first [{] to the last [}] inclusive, as
    [extract_json] cuts it. *)
Definition brace_span (response_text : string) : string :=
  Py.slice response_text (Py.find response_text "{")
    (Py.rfind response_text "}" + 1).

(** *** The mind map of the data model and the graph it stands for *)

Record Subtopic : Type := mkSubtopic {
  sub_name : string;
  sub_children : list string
}.

Record MindMap : Type := mkMindMap {
  title : string;
  subtopics : list Subtopic
}.

(** How a decoded JSON value carries a mind map: the keys the renderer
    reads hold strings and lists; other keys and the order of keys are
    free. *)
Definition is_child (c : json) (name : string) : Prop :=
  PyVal.subscript c "name" = Ok (JStr name).

Definition is_subtopic (j : json) (s : Subtopic) : Prop :=
  PyVal.subscript j "name" = Ok (JStr (sub_name s)) /\
  exists cs,
    PyVal.subscript j "children" = Ok (JArr cs) /\
    Forall2 is_child cs (sub_children s).

Definition is_mind_map (data : json) (m : MindMap) : Prop :=
  PyVal.subscript data "title" = Ok (JStr (title m)) /\
  exists subs,
    PyVal.subscript data "nodes" = Ok (JArr subs) /\
    Forall2 is_subtopic subs (subtopics m).

(** The JSON text of the prompt's format, decoded. *)
Definition child_json (name : string) : json := JObj [("name", JStr name)].

Definition subtopic_json (s : Subtopic) : json :=
  JObj [("name", JStr (sub_name s));
        ("children", JArr (map child_json (sub_children s)))].

Definition mind_map_json (m : MindMap) : json :=
  JObj [("title", JStr (title m));
        ("nodes", JArr (map subtopic_json (subtopics m)))].

(** The three kinds of node and the two kinds of edge. *)
Definition root_node (name : string) : Node :=
  mkNode (JStr name) (JStr name) "orange" "circle" 40 "black".

Definition sub_node (name : string) : Node :=
  mkNode (JStr name) (JStr name) "green" "box" 30 "black".

Definition leaf_node (name : string) : Node :=
  mkNode (JStr name) (JStr name) "lightblue" "ellipse" 20 "black".

Definition root_edge (root name : string) : Edge :=
  mkEdge (JStr root) (JStr name) "blue" (Some "to").

Definition leaf_edge (sub name : string) : Edge :=
  mkEdge (JStr sub) (JStr name) "purple" (Some "to").

(** A node joins the graph unless its id is already there. *)
Definition has_id (ns : list Node) (n_id : json) : bool :=
  existsb (PyVal.eqb n_id) (map node_id ns).

Definition insert_node (ns : list Node) (n : Node) : list Node :=
  if has_id ns (node_id n) then ns else ns ++ [n].

Definition sub_nodes (s : Subtopic) : list Node :=
  sub_node (sub_name s) :: map leaf_node (sub_children s).

Definition sub_edges (root : string) (s : Subtopic) : list Edge :=
  root_edge root (sub_name s) :: map (leaf_edge (sub_name s)) (sub_children s).

Definition net_of (ns : list Node) (es : list Edge) : Network :=
  mkNetwork "100vh" "100%" "#f9f9f9" "black" true ns es.

(** The graph of the specification: the root, then per subtopic its node,
    its edge from the root, and per key point a node and an edge from the
    subtopic; one node per name. *)
Definition graph_of (m : MindMap) : Network :=
  net_of
    (fold_left insert_node (flat_map sub_nodes (subtopics m))
       [root_node (title m)])
    (flat_map (sub_edges (title m)) (subtopics m)).

(** *** Counting nodes and edges *)

Definition nodes_named (net : Network) (name : string) : list Node :=
  filter (fun n => PyVal.eqb (JStr name) (node_id n)) (nodes net).

Definition edges_into (net : Network) (name : string) : list Edge :=
  filter (fun e => PyVal.eqb (JStr name) (edge_to e)) (edges net).

Definition edges_from (net : Network) (name : string) : list Edge :=
  filter (fun e => PyVal.eqb (JStr name) (edge_from e)) (edges net).

(** [name] is the title, the name of a subtopic or the name of a key
    point of [m]. *)
Definition occurs_in (m : MindMap) (name : string) : Prop :=
  name = title m \/
  exists s, In s (subtopics m) /\ (name = sub_name s \/ In name (sub_children s)).

Definition count_id (ns : list Node) (x : json) : nat :=
  List.length (filter (fun n => PyVal.eqb x (node_id n)) ns).

Definition str_id (n : Node) : Prop := exists y, node_id n = JStr y.

(** How often [name] is the name of a subtopic or of a key point. *)
Definition mentions (m : MindMap) (name : string) : nat :=
  List.length
    (filter (String.eqb name)
       (flat_map (fun s => sub_name s :: sub_children s) (subtopics m))).

(** *** Mind maps with a missing key *)

(** [v] is a dict without the key [k]. *)
Definition lacks (v : json) (k : string) : Prop :=
  exists ms, v = JObj ms /\ PyVal.assoc k ms = None.

(** The input lacks [title] or [nodes], or one of the subtopics in its
    [nodes] list lacks [name] or [children]. *)
Definition lacks_required_field (data : json) : Prop :=
  lacks data "title" \/ lacks data "nodes" \/
  exists subs sub,
    PyVal.subscript data "nodes" = Ok (JArr subs) /\ In sub subs /\
    (lacks sub "name" \/ lacks sub "children").

(** The keys that are present hold what the data model says: names are
    strings, [nodes] and [children] are lists of dicts. *)
Definition holds_str (ms : list (string * json)) (k : string) : Prop :=
  forall v, PyVal.assoc k ms = Some v -> exists s, v = JStr s.

Definition typed_child (c : json) : Prop :=
  exists ms, c = JObj ms /\ holds_str ms "name".

Definition typed_subtopic (j : json) : Prop :=
  exists ms, j = JObj ms /\ holds_str ms "name" /\
    forall v, PyVal.assoc "children" ms = Some v ->
      exists cs, v = JArr cs /\ Forall typed_child cs.

Definition typed_mind_map (data : json) : Prop :=
  exists ms, data = JObj ms /\ holds_str ms "title" /\
    forall v, PyVal.assoc "nodes" ms = Some v ->
      exists subs, v = JArr subs /\ Forall typed_subtopic subs.

Definition REQUIRED_KEYS : list string := ["title"; "nodes"; "name"; "children"].

(** The run went through and left a network that still has the nodes
    [keep], or it stopped at a missing key. *)
Definition ok_or_key_error (keep : list Node) (r : result Network) : Prop :=
  match r with
  | Ok net =>
      exists ns es, net = net_of ns es /\
        forall x, has_id keep x = true -> has_id ns x = true
  | Raise (KeyError (JStr k)) => In k REQUIRED_KEYS
  | Raise _ => False
  end.

(** *** Mind maps with an empty [children] list *)

(** [v] is a dict with the key [k]. *)
Definition has_key (v : json) (k : string) : Prop :=
  exists ms x, v = JObj ms /\ PyVal.assoc k ms = Some x.

(** [title] and [nodes] are present, every subtopic of [nodes] has its
    [name], and the subtopic [sub] holds an empty [children] list.
    Nothing is said of the [children] of the other subtopics, nor of the
    [name] of a key point. *)
Definition names_present (data sub : json) : Prop :=
  has_key data "title" /\
  exists subs,
    PyVal.subscript data "nodes" = Ok (JArr subs) /\
    Forall (fun j => has_key j "name") subs /\
    In sub subs /\
    PyVal.subscript sub "children" = Ok (JArr []).

Definition empty_biology : json :=
  JObj [("name", JStr "Biology"); ("children", JArr [])].

(** A second subtopic without [children]. *)
Definition pets_without_children : json :=
  JObj [("title", JStr "Cats");
        ("nodes", JArr [empty_biology; JObj [("name", JStr "Pets")]])].

(** A second subtopic with a key point without [name]. *)
Definition pets_with_nameless_point : json :=
  JObj [("title", JStr "Cats");
        ("nodes",
         JArr [empty_biology;
               JObj [("name", JStr "Pets"); ("children", JArr [JObj []])]])].

(** *** Runs of the handler *)

(** A computation that only ever adds to the trace. *)
Definition growing {A : Type} (m : M A) : Prop :=
  forall st, exists evs, trace (snd (m st)) = (trace st ++ evs)%list.

(** The model answers every request with an empty [text]. *)
Definition empty_summary_world : World :=
  stub_world (Some "") cats_captions.

(** A model that answers the summary prompt with [summary_text] and any
    other prompt with [mind_map_text]. *)
Definition scripted_world (summary_text mind_map_text : string)
    (captions : list fragment) : World :=
  mkWorld Json.loads
    (fun _ prompt =>
       if String.prefix PROMPT_SUMMARY prompt
       then Ok (mkResponse (Some summary_text))
       else Ok (mkResponse (Some mind_map_text)))
    (fun _ => Ok captions).

(** The scenario of the specification: transcript, summary and mind map
    of the cats video. *)
Definition cats_world : World :=
  scripted_world
    "- Cats are mammals
- Cats are popular pets"
    (Fmt.dquote
       "{'title':'Cats','nodes':[{'name':'Biology','children':[{'name':'Mammal'}]}]}")
    cats_captions.

(** *** The mind-map prompt, formatted *)

(** What [PROMPT_MIND_MAP.format] puts before and after the summary. *)
Definition MIND_MAP_HEAD : string := "
You are an expert in creating structured mind maps.
Input: ".

Definition MIND_MAP_TAIL : string := Fmt.dquote "

Task: Generate a structured JSON for a mind map with parent nodes, child nodes, and relevant key points.
Please ensure the output is strictly formatted as valid JSON without any extra text or comments.

Format:
{
  'title': 'Main Topic',
  'nodes': [
    {'name': 'Subtopic 1', 'children': [{'name': 'Key Point 1'}, {'name': 'Key Point 2'}]},
    {'name': 'Subtopic 2', 'children': [{'name': 'Key Point 1'}, {'name': 'Key Point 2'}]}
  ]
}
".

Definition mind_map_prompt (summary : string) : string :=
  MIND_MAP_HEAD ++ summary ++ MIND_MAP_TAIL.

(** A decoder in the manner of [json.loads]: it rejects the empty text
    and decodes a text that starts with [{] to an object or not at all. *)
Definition decodes_objects (w : World) : Prop :=
  (forall v, json_loads w "" <> Ok v) /\
  forall s v, json_loads w (String "{" s) = Ok v -> exists ms, v = JObj ms.

(** *** Networks *)

(** No two nodes with equal ids, every id a string or an integer, and
    every edge between two nodes of the network. *)
Definition well_formed (net : Network) : Prop :=
  (forall x, (count_id (nodes net) x <= 1)%nat)
  /\ (forall n, In n (nodes net) -> PyVal.is_str_or_int (node_id n) = true)
  /\ (forall e, In e (edges net) ->
        has_id (nodes net) (edge_from e) = true /\
        has_id (nodes net) (edge_to e) = true).

(** All names of a mind map, the title first. *)
Definition names (m : MindMap) : list string :=
  title m :: flat_map (fun s => sub_name s :: sub_children s) (subtopics m).

(** An edge of [net] from [a] to [b]. *)
Definition has_edge (net : Network) (a b : json) : Prop :=
  exists e, In e (edges net) /\ edge_from e = a /\ edge_to e = b.

(** [x] is [root], or one or two edges away from it. *)
Definition near_root (net : Network) (root x : json) : Prop :=
  x = root \/ has_edge net root x \/
  exists y, has_edge net root y /\ has_edge net y x.

(** *** What a computation adds to the trace *)

(** Every event that [m] adds to the trace satisfies [P]. *)
Definition traces (P : event -> Prop) {A : Type} (m : M A) : Prop :=
  forall st, exists evs,
    trace (snd (m st)) = (trace st ++ evs)%list /\ Forall P evs.

Definition SUMMARY_ERROR : event :=
  st_error (Msg "❗ Error generating summary.").

(** A graph is saved only under the fixed name, and only well formed. *)
Definition saves_well (ev : event) : Prop :=
  match ev with
  | save_graph net file => file = "mind_map.html" /\ well_formed net
  | _ => True
  end.

(** Neither a request to a service nor a file. *)
Definition local_event (ev : event) : Prop :=
  match ev with
  | model_request _ _ | transcript_request _ | save_graph _ _ => False
  | _ => True
  end.

(** *** Worlds that fail *)

(** The transcript service refuses every video. *)
Definition no_captions_world : World :=
  mkWorld Json.loads
    (fun _ _ => Ok (mkResponse None))
    (fun _ => Raise (OtherError "TranscriptsDisabled"
                       "Subtitles are disabled for this video")).

(** The model cannot be reached. *)
Definition offline_model_world : World :=
  mkWorld Json.loads
    (fun _ _ => Raise (OtherError "ServiceUnavailable" "503 Service Unavailable"))
    (fun _ => Ok cats_captions).

(** The model answers the mind-map prompt with prose. *)
Definition prose_world : World :=
  scripted_world "- Cats are mammals" "Sorry, I cannot draw that." cats_captions.

(** *** A run of the handler that gets a summary *)

(** The address holds an id, the transcript is not empty and the model
    answers the summary prompt with the text [summary_text]. *)
Definition summarised (w : World) (youtube_url video_id : string)
    (captions : list fragment) (summary_text : string) : Prop :=
  youtube_url <> "" /\
  get_video_id youtube_url = Some video_id /\
  get_transcript w video_id = Ok captions /\
  spaced_texts captions <> "" /\
  generate_content w MODEL (PROMPT_SUMMARY ++ spaced_texts captions)
    = Ok (mkResponse (Some summary_text)) /\
  summary_text <> "".

(** The events of such a run up to the mind-map request. *)
Definition summary_events (video_id : string) (captions : list fragment)
    (summary_text : string) : list event :=
  [transcript_request video_id;
   model_request MODEL (PROMPT_SUMMARY ++ spaced_texts captions);
   st_markdown (Msg "## ✨ Summary:");
   st_write (Msg summary_text);
   model_request MODEL (mind_map_prompt summary_text)].

(** The answer to the mind-map request yields no value, and [report] is
    what is shown for it: the text is empty or missing, or it lacks a
    brace, or the decoder rejects the span. *)
Definition no_mind_map (w : World) (answer : response) (report : message)
    : Prop :=
  (text_truthy (resp_text answer) = false /\
   report = Msg "❗ Error: Empty response from the Gemini API.")
  \/ exists t,
       resp_text answer = Some t /\ t <> "" /\
       (((has_char "{" t = false \/ has_char "}" t = false) /\
         report = MsgExn "❗ Error parsing mind map: "
                    (ValueError "No valid JSON found in the response."))
        \/ (has_char "{" t = true /\ has_char "}" t = true /\
            exists e,
              json_loads w (brace_span t) = Raise e /\
              report = MsgExn "❗ Error parsing mind map: " e)).

(** No report of a failed summary, and graphs saved well. *)
Definition handler_event (ev : event) : Prop :=
  ev <> SUMMARY_ERROR /\ saves_well ev.

(** *** A run of the handler that goes through *)

(** The address holds an id, the transcript is not empty, the model
    answers the summary prompt with [summary_text] and the mind-map prompt
    with a text whose span from [{] to [}] decodes to [data], and [data]
    carries the mind map [m]. *)
Definition goes_through (w : World) (youtube_url video_id : string)
    (captions : list fragment) (summary_text : string) (data : json)
    (m : MindMap) : Prop :=
  youtube_url <> "" /\
  get_video_id youtube_url = Some video_id /\
  get_transcript w video_id = Ok captions /\
  spaced_texts captions <> "" /\
  generate_content w MODEL (PROMPT_SUMMARY ++ spaced_texts captions)
    = Ok (mkResponse (Some summary_text)) /\
  summary_text <> "" /\
  (exists t,
      generate_content w MODEL (mind_map_prompt summary_text)
        = Ok (mkResponse (Some t)) /\
      has_char "{" t = true /\ has_char "}" t = true /\
      json_loads w (brace_span t) = Ok data) /\
  is_mind_map data m.

(** The events of such a run, in order. *)
Definition run_events (video_id : string) (captions : list fragment)
    (summary_text : string) (m : MindMap) (view_clicked : bool) : list event :=
  [transcript_request video_id;
   model_request MODEL (PROMPT_SUMMARY ++ spaced_texts captions);
   st_markdown (Msg "## ✨ Summary:");
   st_write (Msg summary_text);
   model_request MODEL (mind_map_prompt summary_text);
   save_graph (graph_of m) "mind_map.html";
   st_success (Msg "✅ Mind map generated successfully!")]
  ++ (if view_clicked then [st_switch_page "pages/mind_map.py"] else []).

(** ** [main.py]: the script from top to bottom

    A run of the script draws widgets and shows messages.  The widgets
    that are not events of the session are recorded beside them, in the
    order of the page.  The two keys of [st.session_state] exist from the
    first run on, with the values of [fresh].  The handler draws one
    widget of its own, the nested button: [on_generate] and its blocks
    say what the handler does to the session and to the services, with
    the button present through its return value; [on_generate_page] and
    its blocks are the same lines with the button drawn. *)

Inductive widget : Type :=
| st_title (body : string)
| st_text_input (label : string)
| st_image (image : string) (use_container_width : bool)
| st_button (label : string).

Definition output : Type := (widget + event)%type.

Definition Page (A : Type) : Type :=
  session -> list output -> result A * session * list output.

Definition pret {A : Type} (a : A) : Page A := fun st out => (Ok a, st, out).

Definition pbind {A B : Type} (m : Page A) (f : A -> Page B) : Page B :=
  fun st out =>
    match m st out with
    | (Ok a, st', out') => f a st' out'
    | (Raise e, st', out') => (Raise e, st', out')
    end.

Definition draw (wd : widget) : Page unit :=
  fun st out => (Ok tt, st, (out ++ [inl wd])%list).

(** The events that the trace of [st'] has beyond that of [st]. *)
Definition new_events (st st' : session) : list event :=
  skipn (List.length (trace st)) (trace st').

(** A piece of the script that only deals in events. *)
Definition run {A : Type} (m : M A) : Page A :=
  fun st out =>
    let (r, st') := m st in
    (r, st', (out ++ map inr (new_events st st'))%list).

(** [if youtube_url: ...], the thumbnail. *)
Definition thumbnail (youtube_url : string) : Page unit :=
  if Py.truthy youtube_url then
    match get_video_id youtube_url with
    | Some video_id =>
        if Py.truthy video_id then
          draw (st_image ("http://img.youtube.com/vi/" ++ video_id ++ "/0.jpg") true)
        else run (emit (st_error (Msg "❗ Invalid YouTube URL!")))
    | None => run (emit (st_error (Msg "❗ Invalid YouTube URL!")))
    end
  else pret tt.

(** [if st.session_state.summary: ...], at the end of the script. *)
Definition saved_summary : Page unit :=
  fun st out =>
    if Py.truthy (summary st) then
      run (bind (emit (st_markdown (Msg "## 📚 Saved Summary:")))
             (fun _ => emit (st_write (Msg (summary st))))) st out
    else (Ok tt, st, out).

(** The block under [mind_map_data = generate_mind_map(summary)], on the
    page. *)
Definition show_mind_map_page (view_clicked : bool)
    (mind_map_data : option json) : Page unit :=
  match mind_map_data with
  | Some mind_map_data =>
      if PyVal.truthy mind_map_data then
        pbind (run (set_mind_map_data mind_map_data)) (fun _ =>
        pbind (run (create_mind_map_visual mind_map_data)) (fun _ =>
        pbind (run (emit (st_success (Msg "✅ Mind map generated successfully!"))))
          (fun _ =>
        pbind (draw (st_button "🔍 View Full Mind Map")) (fun _ =>
        if view_clicked then run (emit (st_switch_page "pages/mind_map.py"))
        else pret tt))))
      else run (emit (st_error (Msg "❗ Error generating mind map.")))
  | None => run (emit (st_error (Msg "❗ Error generating mind map.")))
  end.

(** The block under [summary = generate_summary(transcript)], on the
    page. *)
Definition show_summary_page (w : World) (view_clicked : bool)
    (summary : string) : Page unit :=
  if Py.truthy summary then
    pbind (run (set_summary summary)) (fun _ =>
    pbind (run (emit (st_markdown (Msg "## ✨ Summary:")))) (fun _ =>
    pbind (run (emit (st_write (Msg summary)))) (fun _ =>
    pbind (run (generate_mind_map w summary)) (fun mind_map_data =>
    show_mind_map_page view_clicked mind_map_data))))
  else run (emit (st_error (Msg "❗ Error generating summary."))).

(** The block under [transcript = extract_transcript(video_id)], on the
    page. *)
Definition use_transcript_page (w : World) (view_clicked : bool)
    (transcript : option string) : Page unit :=
  match transcript with
  | Some transcript =>
      if Py.truthy transcript then
        pbind (run (generate_summary w transcript)) (fun summary =>
        show_summary_page w view_clicked summary)
      else pret tt
  | None => pret tt
  end.

(** The handler of the button, on the page. *)
Definition on_generate_page (w : World) (youtube_url : string)
    (view_clicked : bool) : Page unit :=
  if negb (Py.truthy youtube_url) then
    run (emit (st_warning (Msg "⚠️ Please enter a YouTube URL.")))
  else
    match get_video_id youtube_url with
    | None => run (emit (st_error (Msg "❗ Invalid YouTube URL.")))
    | Some video_id =>
        if negb (Py.truthy video_id) then
          run (emit (st_error (Msg "❗ Invalid YouTube URL.")))
        else
          pbind (run (extract_transcript w video_id)) (fun transcript =>
          use_transcript_page w view_clicked transcript)
    end.

Definition script (w : World) (youtube_url : string)
    (generate_clicked view_clicked : bool) : Page unit :=
  pbind (draw (st_title "🎯 YouTube Video Mind Map (Google Gemini)")) (fun _ =>
  pbind (draw (st_text_input "Enter YouTube Video URL:")) (fun _ =>
  pbind (thumbnail youtube_url) (fun _ =>
  pbind (draw (st_button "Generate Friendly Mind Map")) (fun _ =>
  pbind (if generate_clicked then on_generate_page w youtube_url view_clicked
         else pret tt) (fun _ =>
  saved_summary))))).

(** The head of every page. *)
Definition page_head : list output :=
  [inl (st_title "🎯 YouTube Video Mind Map (Google Gemini)");
   inl (st_text_input "Enter YouTube Video URL:")].

Definition generate_button : output := inl (st_button "Generate Friendly Mind Map").

(** The button that the handler draws after the success message. *)
Definition view_button : output := inl (st_button "🔍 View Full Mind Map").

(** What [saved_summary] shows for the stored summary [s]. *)
Definition saved_outputs (s : string) : list output :=
  if Py.truthy s then
    [inr (st_markdown (Msg "## 📚 Saved Summary:")); inr (st_write (Msg s))]
  else [].

(** What [thumbnail] puts on the page. *)
Definition thumbnail_outputs (youtube_url : string) : list output :=
  if Py.truthy youtube_url then
    match get_video_id youtube_url with
    | Some video_id =>
        [inl (st_image ("http://img.youtube.com/vi/" ++ video_id ++ "/0.jpg") true)]
    | None => [inr (st_error (Msg "❗ Invalid YouTube URL!"))]
    end
  else [].

(** The events among the outputs of a page. *)
Definition events_of (outs : list output) : list event :=
  flat_map (fun o => match o with inr ev => [ev] | inl _ => [] end) outs.

(** The page of a run in which the button is not pressed. *)
Definition idle_page (youtube_url : string) (st : session) : list output :=
  page_head ++ thumbnail_outputs youtube_url
    ++ generate_button :: saved_outputs (summary st).

(** ** Strings *)

Lemma app_assoc_s (a b c : string) : (a ++ b) ++ c = a ++ (b ++ c).
Proof. induction a as [|x a IH]; simpl; [reflexivity | now rewrite IH]. Qed.

Lemma app_nil_r_s (a : string) : a ++ "" = a.
Proof. induction a as [|x a IH]; simpl; [reflexivity | now rewrite IH]. Qed.

Lemma length_app_s (a b : string) :
  String.length (a ++ b) = (String.length a + String.length b)%nat.
Proof. induction a as [|x a IH]; simpl; [reflexivity | now rewrite IH]. Qed.

Lemma substring_0_all (a : string) : substring 0 (String.length a) a = a.
Proof. induction a as [|x a IH]; simpl; [reflexivity | now rewrite IH]. Qed.

Lemma substring_0_app (a b : string) :
  substring 0 (String.length a) (a ++ b) = a.
Proof.
  induction a as [|x a IH]; simpl.
  - destruct b; reflexivity.
  - now rewrite IH.
Qed.

Lemma substring_skip_app (a b : string) (n : nat) :
  substring (String.length a) n (a ++ b) = substring 0 n b.
Proof. induction a as [|x a IH]; simpl; [reflexivity | exact IH]. Qed.

Lemma all_chars_app (p : ascii -> bool) (a b : string) :
  all_chars p (a ++ b) = (all_chars p a && all_chars p b)%bool.
Proof.
  induction a as [|x a IH]; simpl; [reflexivity|].
  now rewrite IH, andb_assoc.
Qed.

Lemma app_inv_length (a b c d : string) :
  a ++ b = c ++ d -> String.length a = String.length c -> a = c /\ b = d.
Proof.
  revert c; induction a as [|x a IH]; intros [|y c] H L; simpl in *;
    try discriminate.
  - now split.
  - injection H as -> H. injection L as L.
    destruct (IH _ H L) as [-> ->]. now split.
Qed.

(** ** The matcher on the video-id pattern *)

Lemma star_always (p : ascii -> bool) (s : string) (g : option string) :
  Re.star p s g (fun _ g' => Some g') = Some g.
Proof.
  induction s as [|a s IH]; simpl; [reflexivity|].
  destruct (p a); [now rewrite IH | reflexivity].
Qed.

Lemma rep_set (p : ascii -> bool) (n : nat) :
  forall s g k,
    Re.rep (Re.run (Re.Set_ p)) n s g k =
    match take_class p n s with
    | Some (_, r) => k r g
    | None => None
    end.
Proof.
  induction n as [|n IH]; intros s g k; simpl; [reflexivity|].
  destruct s as [|a s]; [reflexivity|].
  destruct (p a); [|reflexivity].
  rewrite IH. now destruct (take_class p n s) as [[t r]|].
Qed.

Lemma take_class_spec (p : ascii -> bool) (n : nat) :
  forall s t r,
    take_class p n s = Some (t, r) <->
    s = t ++ r /\ String.length t = n /\ all_chars p t = true.
Proof.
  induction n as [|n IH]; intros s t r; simpl.
  - split.
    + intros [= <- <-]. now repeat split.
    + intros (-> & L & _). destruct t; [reflexivity | discriminate].
  - destruct s as [|a s].
    + split; [discriminate|].
      intros (E & L & _). destruct t; discriminate.
    + split.
      * destruct (p a) eqn:Pa; [|discriminate].
        destruct (take_class p n s) as [[t' r']|] eqn:T; [|discriminate].
        intros [= <- <-]. apply IH in T as (-> & <- & A).
        simpl. now rewrite Pa, A.
      * intros (E & L & A). destruct t as [|b t]; [discriminate|].
        simpl in E, L, A. injection E as <- ->. injection L as L.
        apply andb_true_iff in A as [Pa A]. rewrite Pa.
        assert (T : take_class p n (t ++ r) = Some (t, r)) by now apply IH.
        now rewrite T.
Qed.

Lemma run_cat (r1 r2 : Re.regex) s g k :
  Re.run (Re.Cat r1 r2) s g k = Re.run r1 s g (fun s' g' => Re.run r2 s' g' k).
Proof. reflexivity. Qed.

Lemma run_alt (r1 r2 : Re.regex) s g k :
  Re.run (Re.Alt r1 r2) s g k =
  match Re.run r1 s g k with
  | Some m => Some m
  | None => Re.run r2 s g k
  end.
Proof. reflexivity. Qed.

Lemma run_lit (c : ascii) s g k :
  Re.run (Re.Lit c) s g k =
  match s with
  | String a s' => if Ascii.eqb a c then k s' g else None
  | EmptyString => None
  end.
Proof. destruct s; reflexivity. Qed.

Lemma run_group_rep_set (p : ascii -> bool) (n : nat) s g k :
  Re.run (Re.Group (Re.Rep n (Re.Set_ p))) s g k =
  match take_class p n s with
  | Some (t, r) => k r (Some t)
  | None => None
  end.
Proof.
  change (Re.run (Re.Group (Re.Rep n (Re.Set_ p))) s g k)
    with (Re.rep (Re.run (Re.Set_ p)) n s g
            (fun s' _ =>
               k s' (Some (substring 0 (String.length s - String.length s') s)))).
  rewrite rep_set.
  destruct (take_class p n s) as [[t r]|] eqn:T; [|reflexivity].
  apply take_class_spec in T as (-> & <- & _).
  now rewrite length_app_s, Nat.add_sub, substring_0_app.
Qed.

Lemma run_id_group (s : string) (g : option string) :
  Re.run (Re.Cat (Re.Group (Re.Rep 11 (Re.Set_ id_char))) (Re.StarSet dot)) s g
    (fun _ g' => Some g') =
  match take_class id_char 11 s with
  | Some (t, _) => Some (Some t)
  | None => None
  end.
Proof.
  rewrite run_cat, run_group_rep_set.
  destruct (take_class id_char 11 s) as [[t r]|]; [|reflexivity].
  change (Re.run (Re.StarSet dot) r (Some t) (fun _ g' => Some g'))
    with (Re.star dot r (Some t) (fun _ g' => Some g')).
  apply star_always.
Qed.

Lemma match_video_id (s : string) :
  Re.match_ VIDEO_ID_RE s =
  match id_prefix s with
  | Some tok => Some (Some tok)
  | None => None
  end.
Proof.
  unfold Re.match_, VIDEO_ID_RE, id_prefix.
  rewrite run_cat, run_alt, run_cat, !run_lit.
  destruct s as [|a s1]; [reflexivity|].
  destruct (Ascii.eqb a "v") eqn:Ev.
  - apply Ascii.eqb_eq in Ev as ->. cbn [Ascii.eqb Bool.eqb].
    rewrite run_lit.
    destruct s1 as [|b s2]; [reflexivity|].
    destruct (Ascii.eqb b "=") eqn:Eb; [|reflexivity].
    rewrite run_id_group.
    now destruct (take_class id_char 11 s2) as [[t r]|].
  - destruct (Ascii.eqb a "/") eqn:Es; [|reflexivity].
    rewrite run_id_group.
    now destruct (take_class id_char 11 s1) as [[t r]|].
Qed.

Lemma id_prefix_spec (s tok : string) :
  id_prefix s = Some tok <-> token_at s 0 tok.
Proof.
  unfold token_at, id_token. split.
  - unfold id_prefix. destruct s as [|a s1]; [discriminate|].
    destruct (Ascii.eqb a "v") eqn:Ev.
    + apply Ascii.eqb_eq in Ev as ->.
      destruct s1 as [|b s2]; [discriminate|].
      destruct (Ascii.eqb b "=") eqn:Eb; [|discriminate].
      apply Ascii.eqb_eq in Eb as ->.
      destruct (take_class id_char 11 s2) as [[t r]|] eqn:T; [|discriminate].
      intros [= <-]. apply take_class_spec in T as (-> & L & A).
      split; [now split|]. exists "", "v=", r. now repeat split; auto.
    + destruct (Ascii.eqb a "/") eqn:Es; [|discriminate].
      apply Ascii.eqb_eq in Es as ->.
      destruct (take_class id_char 11 s1) as [[t r]|] eqn:T; [|discriminate].
      intros [= <-]. apply take_class_spec in T as (-> & L & A).
      split; [now split|]. exists "", "/", r. now repeat split; auto.
  - intros ([L A] & pre & sep & rest & -> & Lp & Hsep).
    destruct pre; [|discriminate].
    assert (T : take_class id_char 11 (tok ++ rest) = Some (tok, rest))
      by now apply take_class_spec.
    destruct Hsep as [-> | ->].
    + change ("" ++ "v=" ++ tok ++ rest)
        with (String "v" (String "=" (tok ++ rest))).
      unfold id_prefix. now rewrite !Ascii.eqb_refl, T.
    + change ("" ++ "/" ++ tok ++ rest) with (String "/" (tok ++ rest)).
      unfold id_prefix. change (Ascii.eqb "/" "v") with false.
      now rewrite Ascii.eqb_refl, T.
Qed.

Lemma token_at_tail (a : ascii) (s : string) (j : nat) (tok : string) :
  token_at (String a s) (S j) tok <-> token_at s j tok.
Proof.
  unfold token_at. split; intros (I & pre & sep & rest & E & L & Hsep);
    (split; [exact I|]).
  - destruct pre as [|b pre]; [discriminate|].
    simpl in E, L. injection E as <- ->. injection L as L.
    now exists pre, sep, rest.
  - exists (String a pre), sep, rest. subst. now repeat split.
Qed.

Lemma get_video_id_step (a : ascii) (s : string) :
  get_video_id (String a s) =
  match id_prefix (String a s) with
  | Some tok => Some tok
  | None => get_video_id s
  end.
Proof.
  unfold get_video_id. cbn [Re.search]. rewrite match_video_id.
  now destruct (id_prefix (String a s)).
Qed.

Lemma get_video_id_none (url : string) :
  get_video_id url = None <-> forall i tok, ~ token_at url i tok.
Proof.
  induction url as [|a s IH].
  - split; [|reflexivity].
    intros _ i tok ([L _] & pre & sep & rest & E & _ & Hsep).
    destruct pre; [|discriminate]. destruct Hsep as [-> | ->]; discriminate.
  - rewrite get_video_id_step.
    destruct (id_prefix (String a s)) as [t|] eqn:P.
    + split; [discriminate|]. intros H.
      exfalso. exact (H _ _ (proj1 (id_prefix_spec _ _) P)).
    + rewrite IH. split; intros H i tok T.
      * destruct i as [|j].
        -- pose proof (proj2 (id_prefix_spec _ _) T). congruence.
        -- exact (H _ _ (proj1 (token_at_tail _ _ _ _) T)).
      * exact (H _ _ (proj2 (token_at_tail a _ _ _) T)).
Qed.

Lemma get_video_id_some (url tok : string) :
  get_video_id url = Some tok <->
  exists i, token_at url i tok /\
            forall j tok', token_at url j tok' -> (i <= j)%nat.
Proof.
  revert tok. induction url as [|a s IH]; intros tok.
  - split; [discriminate|].
    intros (i & T & _). exfalso.
    exact (proj1 (get_video_id_none "") eq_refl _ _ T).
  - rewrite get_video_id_step.
    destruct (id_prefix (String a s)) as [t|] eqn:P.
    + split.
      * intros [= ->]. exists 0%nat.
        split; [exact (proj1 (id_prefix_spec _ _) P) | lia].
      * intros (i & T & Hmin).
        pose proof (Hmin _ _ (proj1 (id_prefix_spec _ _) P)) as Hi.
        assert (i = 0%nat) as -> by lia.
        pose proof (proj2 (id_prefix_spec _ _) T). congruence.
    + rewrite IH. split; intros (i & T & Hmin).
      * exists (S i). split; [exact (proj2 (token_at_tail a _ _ _) T)|].
        intros [|j] tok' T'.
        -- pose proof (proj2 (id_prefix_spec _ _) T'). congruence.
        -- pose proof (Hmin _ _ (proj1 (token_at_tail _ _ _ _) T')). lia.
      * destruct i as [|i].
        -- pose proof (proj2 (id_prefix_spec _ _) T). congruence.
        -- exists i. split; [exact (proj1 (token_at_tail _ _ _ _) T)|].
           intros j tok' T'.
           pose proof (Hmin _ _ (proj2 (token_at_tail a _ _ _) T')). lia.
Qed.

Lemma substring_0_split (n : nat) :
  forall s, (n <= String.length s)%nat ->
    exists r, s = substring 0 n s ++ r /\ String.length (substring 0 n s) = n.
Proof.
  induction n as [|n IH]; intros s L.
  - exists s. now destruct s.
  - destruct s as [|a s]; simpl in L; [lia|].
    destruct (IH s) as (r & E & Ln); [lia|].
    exists r. simpl. split; [now rewrite <- E | now rewrite Ln].
Qed.

Lemma long_run_token (url : string) (i : nat) (run : string) :
  long_run_at url i run -> token_at url i (substring 0 11 run).
Proof.
  intros (L & A & pre & sep & rest & E & Lp & Hsep & _).
  destruct (substring_0_split 11 run) as (r & Er & Lt); [lia|].
  split.
  - split; [exact Lt|].
    rewrite Er, all_chars_app in A. now apply andb_true_iff in A.
  - exists pre, sep, (r ++ rest). repeat split; auto.
    rewrite E. do 2 f_equal.
    rewrite <- (app_assoc_s (substring 0 11 run) r rest). now rewrite <- Er.
Qed.

(** ** [get_video_id] *)

(** C4. When [url] holds an 11-character token of the alphabet right after
    [v=] or [/], [get_video_id] returns the token of the first such place;
    when it holds none, [get_video_id] returns [None]. *)
Theorem get_video_id_first_token (url : string) :
  (forall i tok,
      token_at url i tok ->
      (forall j tok', token_at url j tok' -> (i <= j)%nat) ->
      get_video_id url = Some tok)
  /\ ((exists i tok, token_at url i tok) ->
      exists i tok,
        token_at url i tok /\
        (forall j tok', token_at url j tok' -> (i <= j)%nat) /\
        get_video_id url = Some tok)
  /\ ((forall i tok, ~ token_at url i tok) -> get_video_id url = None).
Proof.
  split; [|split].
  - intros i tok T Hmin. apply get_video_id_some. now exists i.
  - intros (i & tok & T).
    destruct (get_video_id url) as [t|] eqn:G.
    + destruct (proj1 (get_video_id_some url t) G) as (k & Tk & Hk).
      now exists k, t.
    + exfalso. exact (proj1 (get_video_id_none url) G _ _ T).
  - apply get_video_id_none.
Qed.

Lemma get_video_id_first_token_witness :
  get_video_id "v=dQw4w9WgXcQ&t=42" = Some "dQw4w9WgXcQ"
  /\ get_video_id "not a video address" = None.
Proof.
  split.
  - apply (proj1 (get_video_id_first_token "v=dQw4w9WgXcQ&t=42") 0%nat).
    + split; [split; reflexivity|].
      exists "", "v=", "&t=42". repeat split. now left.
    + intros j tok' _. lia.
  - apply (proj2 (proj2 (get_video_id_first_token "not a video address"))).
    apply get_video_id_none. reflexivity.
Defined.

(** C9, as stated, fails: the only run of more than 11 characters of
    ["/abcdefghijk/ABCDEFGHIJKLM"] follows the second [/], and the result
    is the token after the first one. *)
Lemma long_run_not_always_returned :
  long_run_at "/abcdefghijk/ABCDEFGHIJKLM" 12 "ABCDEFGHIJKLM"
  /\ get_video_id "/abcdefghijk/ABCDEFGHIJKLM" = Some "abcdefghijk"
  /\ get_video_id "/abcdefghijk/ABCDEFGHIJKLM"
     <> Some (substring 0 11 "ABCDEFGHIJKLM").
Proof.
  split; [|split].
  - split; [simpl; lia|]. split; [reflexivity|].
    exists "/abcdefghijk", "/", "". repeat split. now right.
  - reflexivity.
  - discriminate.
Qed.

(** C9, amended. When [v=] or [/] at offset [i] is followed by a run of
    more than 11 characters of the alphabet, [get_video_id] does not return
    [None]; when moreover no token starts before offset [i], it returns
    the first 11 characters of that run. *)
Theorem get_video_id_truncates (url : string) (i : nat) (run : string) :
  long_run_at url i run ->
  get_video_id url <> None
  /\ ((forall j tok, token_at url j tok -> (i <= j)%nat) ->
      get_video_id url = Some (substring 0 11 run)).
Proof.
  intros R. pose proof (long_run_token url i run R) as T. split.
  - intros G. exact (proj1 (get_video_id_none url) G _ _ T).
  - intros Hmin. apply get_video_id_some. now exists i.
Qed.

Lemma get_video_id_truncates_witness :
  get_video_id "https://youtu.be/dQw4w9WgXcQXYZ" <> None
  /\ get_video_id "/dQw4w9WgXcQXYZ" = Some "dQw4w9WgXcQ".
Proof.
  split.
  - apply (get_video_id_truncates "https://youtu.be/dQw4w9WgXcQXYZ" 16
             "dQw4w9WgXcQXYZ").
    split; [simpl; lia|]. split; [reflexivity|].
    exists "https://youtu.be", "/", "". repeat split. now right.
  - apply (get_video_id_truncates "/dQw4w9WgXcQXYZ" 0 "dQw4w9WgXcQXYZ").
    + split; [simpl; lia|]. split; [reflexivity|].
      exists "", "/", "". repeat split. now right.
    + intros j tok _. lia.
Defined.

(** ** [extract_transcript] *)

Lemma join_fold_left (sep : string) (ds : list string) :
  forall acc,
    acc ++ match ds with [] => "" | _ => sep ++ Py.join sep ds end =
    fold_left (fun a x => a ++ sep ++ x) ds acc.
Proof.
  induction ds as [|d ds IH]; intros acc; simpl.
  - apply app_nil_r_s.
  - rewrite <- IH. destruct ds as [|d' ds].
    + now rewrite app_nil_r_s.
    + now rewrite !app_assoc_s.
Qed.

Lemma fold_left_texts (ds : list fragment) :
  forall acc,
    fold_left (fun a x => a ++ " " ++ x) (map text ds) acc =
    fold_left (fun a f => a ++ " " ++ text f) ds acc.
Proof. induction ds as [|d ds IH]; intros acc; simpl; [reflexivity | apply IH]. Qed.

Lemma join_spaced_texts (data : list fragment) :
  Py.join " " (map text data) = spaced_texts data.
Proof.
  destruct data as [|d ds]; [reflexivity|].
  unfold spaced_texts. rewrite <- fold_left_texts, <- join_fold_left.
  simpl. destruct (map text ds); [now rewrite app_nil_r_s | reflexivity].
Qed.

Lemma extract_transcript_run
    (w : World) (video_id : string) (data : list fragment) (st : session) :
  get_transcript w video_id = Ok data ->
  extract_transcript w video_id st =
    (Ok (Some (spaced_texts data)), log st [transcript_request video_id]).
Proof.
  intros G. unfold extract_transcript, try_except, bind, emit, lift, ret.
  cbn. rewrite G. cbn. now rewrite join_spaced_texts.
Qed.

(** C5. When the transcript service answers with the list [data],
    [extract_transcript] returns the [text] fields of [data] in order, one
    space between neighbours, and reports no error; for the empty list
    that is the empty string, not [None]. *)
Theorem extract_transcript_joins_texts
    (w : World) (video_id : string) (data : list fragment) (st : session) :
  get_transcript w video_id = Ok data ->
  extract_transcript w video_id st =
    (Ok (Some (spaced_texts data)), log st [transcript_request video_id])
  /\ (data = [] ->
      fst (extract_transcript w video_id st) = Ok (Some "")).
Proof.
  intros G. pose proof (extract_transcript_run w video_id data st G) as E.
  split; [exact E|]. intros ->. now rewrite E.
Qed.

Lemma extract_transcript_joins_texts_witness :
  extract_transcript (stub_world None cats_captions) "dQw4w9WgXcQ" fresh =
    (Ok (Some "Cats are mammals. Cats are popular pets."),
     log fresh [transcript_request "dQw4w9WgXcQ"]).
Proof.
  apply (extract_transcript_joins_texts
           (stub_world None cats_captions) "dQw4w9WgXcQ" cats_captions fresh).
  reflexivity.
Defined.

(** ** [get_gemini_response] *)

(** C8. With a non-empty prompt [get_gemini_response] makes one request,
    the list [[input, image]]; with the empty prompt it makes one request,
    the image alone; the value returned is the [text] of the response,
    unchanged. *)
Theorem get_gemini_response_request
    (Image : Type)
    (generate : string -> Vision.content Image -> result response)
    (input : string) (image : Image) (answer : response) :
  (input <> "" ->
   generate "gemini-1.5-flash"
     (Vision.Parts Image [Vision.PText Image input; Vision.PImage Image image])
     = Ok answer ->
   Vision.get_gemini_response Image generate input image =
     (Ok (resp_text answer),
      [("gemini-1.5-flash",
        Vision.Parts Image [Vision.PText Image input; Vision.PImage Image image])]))
  /\ (input = "" ->
      generate "gemini-1.5-flash" (Vision.Single Image (Vision.PImage Image image))
        = Ok answer ->
      Vision.get_gemini_response Image generate input image =
        (Ok (resp_text answer),
         [("gemini-1.5-flash", Vision.Single Image (Vision.PImage Image image))])).
Proof.
  unfold Vision.get_gemini_response. split.
  - intros N G. apply String.eqb_neq in N. rewrite N. cbn. now rewrite G.
  - intros -> G. cbn. now rewrite G.
Qed.

Lemma get_gemini_response_request_witness :
  Vision.get_gemini_response nat
    (fun _ _ => Ok (mkResponse (Some "A cat on a sofa."))) "What is this?" 7%nat
  = (Ok (Some "A cat on a sofa."),
     [("gemini-1.5-flash",
       Vision.Parts nat [Vision.PText nat "What is this?"; Vision.PImage nat 7%nat])])
  /\ Vision.get_gemini_response nat
       (fun _ _ => Ok (mkResponse (Some "A cat on a sofa."))) "" 7%nat
     = (Ok (Some "A cat on a sofa."),
        [("gemini-1.5-flash", Vision.Single nat (Vision.PImage nat 7%nat))]).
Proof.
  split.
  - apply (proj1 (get_gemini_response_request nat
                    (fun _ _ => Ok (mkResponse (Some "A cat on a sofa.")))
                    "What is this?" 7%nat (mkResponse (Some "A cat on a sofa."))));
      [discriminate | reflexivity].
  - apply (proj2 (get_gemini_response_request nat
                    (fun _ _ => Ok (mkResponse (Some "A cat on a sofa.")))
                    "" 7%nat (mkResponse (Some "A cat on a sofa."))));
      reflexivity.
Defined.

(** ** [find], [rfind] and slices *)

Lemma find_from_absent (c : ascii) (s : string) :
  forall i, has_char c s = false -> Py.find_from i s c = -1.
Proof.
  induction s as [|a s IH]; intros i H; simpl in *; [reflexivity|].
  apply orb_false_iff in H as [Ha Hs]. rewrite Ha. now apply IH.
Qed.

Lemma find_from_first (c : ascii) (pre rest : string) :
  forall i, has_char c pre = false ->
    Py.find_from i (pre ++ String c rest) c = i + Py.len pre.
Proof.
  unfold Py.len.
  induction pre as [|a pre IH]; intros i H; simpl in *.
  - rewrite Ascii.eqb_refl. lia.
  - apply orb_false_iff in H as [Ha Hs]. rewrite Ha, IH by exact Hs. lia.
Qed.

Lemma find_from_present (c : ascii) (s : string) :
  forall i, has_char c s = true -> 0 <= i -> i <= Py.find_from i s c.
Proof.
  induction s as [|a s IH]; intros i H Hi; simpl in *; [discriminate|].
  destruct (Ascii.eqb a c); [lia|].
  specialize (IH (i + 1) H). lia.
Qed.

Lemma rfind_from_absent (c : ascii) (s : string) :
  forall i last, has_char c s = false -> Py.rfind_from i last s c = last.
Proof.
  induction s as [|a s IH]; intros i last H; simpl in *; [reflexivity|].
  apply orb_false_iff in H as [Ha Hs]. rewrite Ha. now apply IH.
Qed.

Lemma rfind_from_last (c : ascii) (s post : string) :
  forall i last, has_char c post = false ->
    Py.rfind_from i last (s ++ String c post) c = i + Py.len s.
Proof.
  unfold Py.len.
  induction s as [|a s IH]; intros i last H; simpl.
  - rewrite Ascii.eqb_refl, rfind_from_absent by exact H. lia.
  - rewrite IH by exact H. lia.
Qed.

Lemma rfind_from_present (c : ascii) (s : string) :
  forall i last, has_char c s = true -> 0 <= i -> -1 <= last ->
    0 <= Py.rfind_from i last s c.
Proof.
  induction s as [|a s IH]; intros i last H Hi Hl; simpl in *; [discriminate|].
  destruct (Ascii.eqb a c) eqn:E; simpl in H.
  - destruct (has_char c s) eqn:Hs.
    + apply IH; auto; lia.
    + rewrite rfind_from_absent by exact Hs. lia.
  - apply IH; auto; lia.
Qed.

Lemma slice_middle (pre mid post : string) :
  Py.slice (pre ++ mid ++ post) (Py.len pre) (Py.len pre + Py.len mid) = mid.
Proof.
  unfold Py.slice, Py.clip, Py.len.
  rewrite !length_app_s.
  replace (Z.of_nat (String.length pre) <? 0) with false
    by (symmetry; apply Z.ltb_ge; lia).
  replace (Z.of_nat (String.length pre) + Z.of_nat (String.length mid) <? 0)
    with false by (symmetry; apply Z.ltb_ge; lia).
  rewrite !Z.min_l by lia.
  replace (Z.of_nat (String.length pre) + Z.of_nat (String.length mid)
           - Z.of_nat (String.length pre))
    with (Z.of_nat (String.length mid)) by lia.
  rewrite !Nat2Z.id, substring_skip_app. apply substring_0_app.
Qed.

Lemma brace_span_object (pre body post : string) :
  has_char "{" pre = false -> has_char "}" post = false ->
  Py.find (pre ++ "{" ++ body ++ "}" ++ post) "{" = Py.len pre
  /\ Py.rfind (pre ++ "{" ++ body ++ "}" ++ post) "}" =
     Py.len pre + Py.len body + 1
  /\ brace_span (pre ++ "{" ++ body ++ "}" ++ post) = "{" ++ body ++ "}".
Proof.
  intros Hpre Hpost.
  assert (F : Py.find (pre ++ "{" ++ body ++ "}" ++ post) "{" = Py.len pre).
  { unfold Py.find. change ("{" ++ body ++ "}" ++ post)
      with (String "{" (body ++ "}" ++ post)).
    rewrite find_from_first by exact Hpre. lia. }
  assert (R : Py.rfind (pre ++ "{" ++ body ++ "}" ++ post) "}" =
              Py.len pre + Py.len body + 1).
  { unfold Py.rfind.
    replace (pre ++ "{" ++ body ++ "}" ++ post)
      with ((pre ++ "{" ++ body) ++ String "}" post)
      by (now rewrite !app_assoc_s).
    rewrite rfind_from_last by exact Hpost.
    unfold Py.len. rewrite !length_app_s. simpl String.length. lia. }
  split; [exact F|]. split; [exact R|].
  unfold brace_span. rewrite F, R.
  replace (pre ++ "{" ++ body ++ "}" ++ post)
    with (pre ++ ("{" ++ body ++ "}") ++ post)
    by (now rewrite !app_assoc_s).
  replace (Py.len pre + Py.len body + 1 + 1)
    with (Py.len pre + Py.len ("{" ++ body ++ "}")).
  - apply slice_middle.
  - unfold Py.len. rewrite !length_app_s. simpl String.length. lia.
Qed.

(** ** [extract_json] *)

Lemma extract_json_cases (w : World) (response_text : string) (st : session) :
  extract_json w response_text st =
  if (negb (Py.find response_text "{" =? -1)
      && negb (Py.rfind response_text "}" =? -1))%bool
  then
    match json_loads w (brace_span response_text) with
    | Ok v => (Ok (Some v), st)
    | Raise e =>
        (Ok None, log st [st_error (MsgExn "❗ Error parsing mind map: " e)])
    end
  else
    (Ok None,
     log st [st_error (MsgExn "❗ Error parsing mind map: "
                         (ValueError "No valid JSON found in the response."))]).
Proof.
  unfold extract_json, try_except, brace_span.
  destruct (negb (Py.find response_text "{" =? -1)
            && negb (Py.rfind response_text "}" =? -1))%bool.
  - unfold bind, lift, ret, emit, log.
    now destruct (json_loads w _) as [v|e].
  - reflexivity.
Qed.

Lemma braces_found (response_text : string) :
  has_char "{" response_text = true -> has_char "}" response_text = true ->
  (negb (Py.find response_text "{" =? -1)
   && negb (Py.rfind response_text "}" =? -1))%bool = true.
Proof.
  intros Ho Hc. apply andb_true_iff. split; apply negb_true_iff, Z.eqb_neq.
  - pose proof (find_from_present "{" response_text 0 Ho). unfold Py.find. lia.
  - pose proof (rfind_from_present "}" response_text 0 (-1) Hc).
    unfold Py.rfind. lia.
Qed.

(** C1. [extract_json] on any text:
    - when the text is one JSON object (text from [{] to [}] that the
      decoder accepts) with no [{] before it and no [}] after it, the
      result is the decoded object and nothing is reported;
    - when the text holds no [{] or no [}], the result is [None];
    - when the substring from the first [{] to the last [}] inclusive is
      rejected by the decoder, the result is [None];
    - in every case the call returns: no exception escapes. *)
Theorem extract_json_behaviour
    (w : World) (response_text : string) (st : session) :
  (forall pre body post v,
      response_text = pre ++ "{" ++ body ++ "}" ++ post ->
      has_char "{" pre = false -> has_char "}" post = false ->
      json_loads w ("{" ++ body ++ "}") = Ok v ->
      extract_json w response_text st = (Ok (Some v), st))
  /\ (has_char "{" response_text = false \/ has_char "}" response_text = false ->
      extract_json w response_text st =
        (Ok None,
         log st [st_error (MsgExn "❗ Error parsing mind map: "
                             (ValueError "No valid JSON found in the response."))]))
  /\ (forall e,
        has_char "{" response_text = true ->
        has_char "}" response_text = true ->
        json_loads w (brace_span response_text) = Raise e ->
        extract_json w response_text st =
          (Ok None, log st [st_error (MsgExn "❗ Error parsing mind map: " e)]))
  /\ (forall pre body post e,
        response_text = pre ++ "{" ++ body ++ "}" ++ post ->
        has_char "{" pre = false -> has_char "}" post = false ->
        json_loads w ("{" ++ body ++ "}") = Raise e ->
        fst (extract_json w response_text st) = Ok None)
  /\ (exists r st', extract_json w response_text st = (Ok r, st')).
Proof.
  rewrite extract_json_cases. repeat split.
  - intros pre body post v -> Hpre Hpost L.
    destruct (brace_span_object pre body post Hpre Hpost) as (F & R & B).
    rewrite F, R, B, L.
    replace (negb (Py.len pre =? -1) && negb (Py.len pre + Py.len body + 1 =? -1))%bool
      with true; [reflexivity|].
    symmetry. apply andb_true_iff.
    split; apply negb_true_iff, Z.eqb_neq; unfold Py.len; lia.
  - intros [H | H].
    + unfold Py.find. rewrite find_from_absent by exact H. reflexivity.
    + unfold Py.rfind. rewrite rfind_from_absent by exact H.
      now rewrite andb_false_r.
  - intros e Ho Hc L. now rewrite braces_found, L.
  - intros pre body post e -> Hpre Hpost L.
    destruct (brace_span_object pre body post Hpre Hpost) as (F & R & B).
    rewrite B, L. now destruct (_ && _)%bool.
  - destruct (_ && _)%bool; [|now eexists; eexists].
    destruct (json_loads w _); now eexists; eexists.
Qed.

Lemma extract_json_behaviour_witness :
  extract_json (stub_world None [])
    (Fmt.dquote "Here you go: {'title':'Cats','nodes':[]} Enjoy!") fresh
  = (Ok (Some (JObj [("title", JStr "Cats"); ("nodes", JArr [])])), fresh)
  /\ fst (extract_json (stub_world None []) "no braces here" fresh) = Ok None
  /\ fst (extract_json (stub_world None [])
            (Fmt.dquote "{'a':1} and {'b':2}") fresh) = Ok None.
Proof.
  split; [|split].
  - apply (proj1 (extract_json_behaviour (stub_world None [])
                    (Fmt.dquote "Here you go: {'title':'Cats','nodes':[]} Enjoy!")
                    fresh)
             "Here you go: " (Fmt.dquote "'title':'Cats','nodes':[]") " Enjoy!");
      reflexivity.
  - rewrite (proj1 (proj2 (extract_json_behaviour (stub_world None [])
                             "no braces here" fresh))); [reflexivity|].
    left. reflexivity.
  - apply (proj1 (proj2 (proj2 (proj2
             (extract_json_behaviour (stub_world None [])
                (Fmt.dquote "{'a':1} and {'b':2}") fresh))))
             "" (Fmt.dquote "'a':1} and {'b':2") ""
             (JSONDecodeError "Extra data"));
      reflexivity.
Defined.

(** The text [{"a":1} done {oops] has its last [}] at the end of the
    object, so the span is the object and the call returns it. *)
Example extract_json_trailing_open_brace :
  extract_json (stub_world None []) (Fmt.dquote "{'a':1} done {oops") fresh
  = (Ok (Some (JObj [("a", JInt 1)])), fresh).
Proof. reflexivity. Qed.

(** ** The renderer builds the graph of the specification *)

Lemma add_node_str (ns : list Node) (es : list Edge) (s color shape : string)
    (size : Z) :
  Pyvis.add_node (net_of ns es) (JStr s) (JStr s) color shape size =
  Ok (net_of (insert_node ns (mkNode (JStr s) (JStr s) color shape size "black")) es).
Proof.
  unfold Pyvis.add_node, insert_node, Pyvis.has_node, Pyvis.node_ids, has_id.
  cbn [PyVal.is_str_or_int nodes net_of node_id font_color].
  replace (if PyVal.truthy (JStr s) then JStr s else JStr s) with (JStr s)
    by now destruct (PyVal.truthy (JStr s)).
  now destruct (existsb (PyVal.eqb (JStr s)) (map node_id ns)).
Qed.

Lemma add_edge_present (ns : list Node) (es : list Edge) (a b : json)
    (color : string) :
  has_id ns a = true -> has_id ns b = true ->
  Pyvis.add_edge (net_of ns es) a b color =
  Ok (net_of ns (es ++ [mkEdge a b color (Some "to")])).
Proof.
  intros Ha Hb. unfold Pyvis.add_edge, Pyvis.has_node, Pyvis.node_ids.
  cbn [nodes net_of directed edges]. fold (has_id ns a). fold (has_id ns b).
  now rewrite Ha, Hb.
Qed.

Lemma has_id_app (ns ms : list Node) (x : json) :
  has_id (ns ++ ms) x = (has_id ns x || has_id ms x)%bool.
Proof. unfold has_id. now rewrite map_app, existsb_app. Qed.

Lemma has_id_insert (ns : list Node) (n : Node) (x : json) :
  has_id ns x = true -> has_id (insert_node ns n) x = true.
Proof.
  intros H. unfold insert_node. destruct (has_id ns (node_id n)); [exact H|].
  now rewrite has_id_app, H.
Qed.

Lemma has_id_inserted (ns : list Node) (n : Node) :
  PyVal.eqb (node_id n) (node_id n) = true ->
  has_id (insert_node ns n) (node_id n) = true.
Proof.
  intros R. unfold insert_node.
  destruct (has_id ns (node_id n)) eqn:H; [exact H|].
  rewrite has_id_app. unfold has_id at 2. simpl. now rewrite R, orb_true_r.
Qed.

Lemma has_id_fold (l ns : list Node) (x : json) :
  has_id ns x = true -> has_id (fold_left insert_node l ns) x = true.
Proof.
  revert ns. induction l as [|n l IH]; intros ns H; simpl; [exact H|].
  now apply IH, has_id_insert.
Qed.

Lemma eqb_str_refl (s : string) : PyVal.eqb (JStr s) (JStr s) = true.
Proof. apply String.eqb_refl. Qed.

Lemma add_child_ok (sub c : json) (sname name : string)
    (ns : list Node) (es : list Edge) :
  PyVal.subscript sub "name" = Ok (JStr sname) ->
  is_child c name ->
  has_id ns (JStr sname) = true ->
  add_child sub (net_of ns es) c =
  Ok (net_of (insert_node ns (leaf_node name)) (es ++ [leaf_edge sname name])).
Proof.
  intros Hs Hc Hin. unfold add_child, is_child in *.
  rewrite Hc. cbn [rbind]. rewrite add_node_str. cbn [rbind].
  rewrite Hs. cbn [rbind].
  apply add_edge_present.
  - now apply has_id_insert.
  - apply (has_id_inserted ns (leaf_node name)), eqb_str_refl.
Qed.

Lemma add_children_ok (sub : json) (sname : string) (cs : list json)
    (names : list string) :
  PyVal.subscript sub "name" = Ok (JStr sname) ->
  Forall2 is_child cs names ->
  forall ns es,
    has_id ns (JStr sname) = true ->
    for_each (add_child sub) (net_of ns es) cs =
    Ok (net_of (fold_left insert_node (map leaf_node names) ns)
          (es ++ map (leaf_edge sname) names)).
Proof.
  intros Hs F. induction F as [|c name cs names Hc F IH]; intros ns es Hin.
  - simpl. now rewrite app_nil_r.
  - cbn [for_each]. rewrite (add_child_ok sub c sname name ns es Hs Hc Hin).
    cbn [rbind]. rewrite IH by now apply has_id_insert.
    simpl. now rewrite <- app_assoc.
Qed.

Lemma add_subtopic_ok (root : string) (j : json) (s : Subtopic)
    (ns : list Node) (es : list Edge) :
  is_subtopic j s ->
  has_id ns (JStr root) = true ->
  add_subtopic (JStr root) (net_of ns es) j =
  Ok (net_of (fold_left insert_node (sub_nodes s) ns)
        (es ++ sub_edges root s)).
Proof.
  intros (Hn & cs & Hc & F) Hroot. unfold add_subtopic.
  rewrite Hn. cbn [rbind]. rewrite add_node_str. cbn [rbind].
  rewrite add_edge_present.
  - cbn [rbind]. rewrite Hc. cbn [rbind PyVal.iter].
    rewrite (add_children_ok j (sub_name s) cs (sub_children s) Hn F).
    + unfold sub_nodes, sub_edges. simpl. now rewrite <- app_assoc.
    + apply (has_id_inserted ns (sub_node (sub_name s))), eqb_str_refl.
  - now apply has_id_insert.
  - apply (has_id_inserted ns (sub_node (sub_name s))), eqb_str_refl.
Qed.

Lemma add_subtopics_ok (root : string) (subs : list json)
    (ss : list Subtopic) :
  Forall2 is_subtopic subs ss ->
  forall ns es,
    has_id ns (JStr root) = true ->
    for_each (add_subtopic (JStr root)) (net_of ns es) subs =
    Ok (net_of (fold_left insert_node (flat_map sub_nodes ss) ns)
          (es ++ flat_map (sub_edges root) ss)).
Proof.
  intros F. induction F as [|j s subs ss Hj F IH]; intros ns es Hroot.
  - simpl. now rewrite app_nil_r.
  - cbn [for_each]. rewrite (add_subtopic_ok root j s ns es Hj Hroot).
    cbn [rbind]. rewrite IH by now apply has_id_fold.
    cbn [flat_map]. now rewrite fold_left_app, <- app_assoc.
Qed.

Lemma build_network_graph_of (data : json) (m : MindMap) :
  is_mind_map data m -> build_network data = Ok (graph_of m).
Proof.
  intros (Ht & subs & Hn & F). unfold build_network.
  rewrite Ht. cbn [rbind].
  change (Pyvis.new "100vh" "100%" "#f9f9f9" "black" true) with (net_of [] []).
  rewrite add_node_str. cbn [rbind]. rewrite Hn. cbn [rbind PyVal.iter].
  change (insert_node [] (mkNode (JStr (title m)) (JStr (title m))
                            "orange" "circle" 40 "black"))
    with [root_node (title m)].
  rewrite (add_subtopics_ok (title m) subs (subtopics m) F).
  - reflexivity.
  - unfold has_id. simpl. now rewrite String.eqb_refl.
Qed.

Lemma mind_map_json_ok (m : MindMap) : is_mind_map (mind_map_json m) m.
Proof.
  split; [reflexivity|].
  exists (map subtopic_json (subtopics m)). split; [reflexivity|].
  induction (subtopics m) as [|s ss IH]; constructor; [|exact IH].
  split; [reflexivity|].
  exists (map child_json (sub_children s)). split; [reflexivity|].
  induction (sub_children s) as [|c cs IHc]; constructor; [reflexivity | exact IHc].
Qed.

Lemma create_mind_map_visual_run (data : json) (st : session) :
  create_mind_map_visual data st =
  match build_network data with
  | Ok net => (Ok tt, log st [save_graph net "mind_map.html"])
  | Raise e => (Raise e, st)
  end.
Proof.
  unfold create_mind_map_visual, bind, lift.
  now destruct (build_network data).
Qed.

(** ** Counting nodes and edges *)

Lemma count_id_app (ns ms : list Node) (x : json) :
  count_id (ns ++ ms) x = (count_id ns x + count_id ms x)%nat.
Proof. unfold count_id. now rewrite filter_app, length_app. Qed.

Lemma has_id_count (ns : list Node) (x : json) :
  has_id ns x = true <-> (0 < count_id ns x)%nat.
Proof.
  unfold has_id, count_id. induction ns as [|n ns IH]; simpl.
  - split; [discriminate | lia].
  - destruct (PyVal.eqb x (node_id n)); simpl; [split; [lia | reflexivity]|].
    exact IH.
Qed.

Lemma count_id_insert (ns : list Node) (n : Node) (x : string) :
  str_id n ->
  (count_id ns (JStr x) <= 1)%nat ->
  (count_id (insert_node ns n) (JStr x) <= 1)%nat.
Proof.
  intros [y Hy] H. unfold insert_node.
  destruct (has_id ns (node_id n)) eqn:Hn; [exact H|].
  rewrite count_id_app. unfold count_id at 2. simpl. rewrite Hy.
  cbn [PyVal.eqb]. destruct (String.eqb x y) eqn:E; simpl; [|lia].
  apply String.eqb_eq in E as ->.
  destruct (count_id ns (JStr y)) eqn:C; [lia|].
  assert (has_id ns (JStr y) = true) by (apply has_id_count; lia).
  congruence.
Qed.

Lemma count_id_fold (l : list Node) (x : string) :
  Forall str_id l ->
  forall ns, (count_id ns (JStr x) <= 1)%nat ->
    (count_id (fold_left insert_node l ns) (JStr x) <= 1)%nat.
Proof.
  induction 1 as [|n l Hn _ IH]; intros ns H; simpl; [exact H|].
  now apply IH, count_id_insert.
Qed.

Lemma has_id_fold_in (l : list Node) (n : Node) :
  In n l -> PyVal.eqb (node_id n) (node_id n) = true ->
  forall ns, has_id (fold_left insert_node l ns) (node_id n) = true.
Proof.
  intros Hin R. induction l as [|a l IH]; intros ns; [contradiction|].
  simpl. destruct Hin as [-> | Hin].
  - now apply has_id_fold, has_id_inserted.
  - now apply IH.
Qed.

Lemma sub_nodes_str (ss : list Subtopic) : Forall str_id (flat_map sub_nodes ss).
Proof.
  apply Forall_forall. intros n Hn.
  apply in_flat_map in Hn as (s & _ & [<- | Hn]); [now eexists|].
  apply in_map_iff in Hn as (c & <- & _). now eexists.
Qed.

Lemma graph_of_one_node (m : MindMap) (name : string) :
  occurs_in m name ->
  List.length (nodes_named (graph_of m) name) = 1%nat.
Proof.
  intros Hocc.
  change (count_id (nodes (graph_of m)) (JStr name) = 1%nat).
  cbn [graph_of net_of nodes].
  assert (Hle : (count_id (fold_left insert_node (flat_map sub_nodes (subtopics m))
                             [root_node (title m)]) (JStr name) <= 1)%nat).
  { apply count_id_fold; [apply sub_nodes_str|].
    unfold count_id. simpl. destruct (String.eqb name (title m)); simpl; lia. }
  assert (Hge : has_id (fold_left insert_node (flat_map sub_nodes (subtopics m))
                          [root_node (title m)]) (JStr name) = true).
  { destruct Hocc as [-> | (s & Hs & [-> | Hc])].
    - apply has_id_fold. unfold has_id. simpl. now rewrite String.eqb_refl.
    - apply (has_id_fold_in _ (sub_node (sub_name s))); [|apply eqb_str_refl].
      apply in_flat_map. exists s. split; [exact Hs | now left].
    - apply (has_id_fold_in _ (leaf_node name)); [|apply eqb_str_refl].
      apply in_flat_map. exists s. split; [exact Hs|].
      right. now apply in_map. }
  apply has_id_count in Hge. lia.
Qed.

(** ** [create_mind_map_visual] on well-formed mind maps *)

(** C2. For a mind map with a title, one subtopic and two key points, the
    four names distinct, the graph saved by [create_mind_map_visual] has
    the nodes root, subtopic, leaf, leaf and the edges root to subtopic,
    subtopic to first leaf, subtopic to second leaf, and nothing else. *)
Theorem one_subtopic_two_children
    (data : json) (t s c1 c2 : string) (st : session) :
  is_mind_map data (mkMindMap t [mkSubtopic s [c1; c2]]) ->
  t <> s -> t <> c1 -> t <> c2 -> s <> c1 -> s <> c2 -> c1 <> c2 ->
  create_mind_map_visual data st =
    (Ok tt,
     log st
       [save_graph
          (net_of [root_node t; sub_node s; leaf_node c1; leaf_node c2]
                  [root_edge t s; leaf_edge s c1; leaf_edge s c2])
          "mind_map.html"]).
Proof.
  intros H Hts Htc1 Htc2 Hsc1 Hsc2 Hc.
  rewrite create_mind_map_visual_run, (build_network_graph_of data _ H).
  unfold graph_of. cbn [title subtopics flat_map sub_nodes sub_edges
                         sub_name sub_children map List.app fold_left].
  assert (E : forall a b : string, a <> b -> String.eqb b a = false)
    by (intros a b N; apply String.eqb_neq; congruence).
  unfold insert_node, has_id. cbn.
  rewrite (E _ _ Hts). cbn.
  rewrite (E _ _ Htc1), (E _ _ Hsc1). cbn.
  rewrite (E _ _ Htc2), (E _ _ Hsc2), (E _ _ Hc). cbn.
  reflexivity.
Qed.

Lemma one_subtopic_two_children_witness :
  create_mind_map_visual
    (mind_map_json (mkMindMap "Cats" [mkSubtopic "Biology" ["Mammal"; "Carnivore"]]))
    fresh =
  (Ok tt,
   log fresh
     [save_graph
        (net_of [root_node "Cats"; sub_node "Biology"; leaf_node "Mammal";
                 leaf_node "Carnivore"]
                [root_edge "Cats" "Biology"; leaf_edge "Biology" "Mammal";
                 leaf_edge "Biology" "Carnivore"])
        "mind_map.html"]).
Proof.
  apply (one_subtopic_two_children
           (mind_map_json (mkMindMap "Cats" [mkSubtopic "Biology" ["Mammal"; "Carnivore"]]))
           "Cats" "Biology" "Mammal" "Carnivore" fresh);
    [apply mind_map_json_ok | discriminate ..].
Defined.

Lemma sub_edges_leaf (root : string) (s : Subtopic) (c : string) :
  In c (sub_children s) ->
  exists e1 e2, sub_edges root s = (e1 ++ leaf_edge (sub_name s) c :: e2)%list.
Proof.
  intros Hc. apply in_split in Hc as (l1 & l2 & E).
  exists (root_edge root (sub_name s) :: map (leaf_edge (sub_name s)) l1),
         (map (leaf_edge (sub_name s)) l2).
  unfold sub_edges. now rewrite E, map_app.
Qed.

Lemma filter_leaf_edges (name sub : string) (cs : list string) :
  List.length (filter (fun e => PyVal.eqb (JStr name) (edge_to e))
                 (map (leaf_edge sub) cs)) =
  List.length (filter (String.eqb name) cs).
Proof.
  induction cs as [|c cs IH]; [reflexivity|].
  change (filter (fun e => PyVal.eqb (JStr name) (edge_to e))
            (map (leaf_edge sub) (c :: cs)))
    with (if String.eqb name c
          then leaf_edge sub c
                 :: filter (fun e => PyVal.eqb (JStr name) (edge_to e))
                      (map (leaf_edge sub) cs)
          else filter (fun e => PyVal.eqb (JStr name) (edge_to e))
                 (map (leaf_edge sub) cs)).
  cbn [filter]. destruct (String.eqb name c); cbn [List.length]; now rewrite IH.
Qed.

Lemma edges_into_mentions (m : MindMap) (name : string) :
  List.length (edges_into (graph_of m) name) = mentions m name.
Proof.
  unfold edges_into, mentions. cbn [graph_of net_of edges].
  induction (subtopics m) as [|s ss IH]; [reflexivity|].
  cbn [flat_map]. rewrite filter_app, length_app, IH.
  rewrite filter_app, length_app. unfold sub_edges.
  change (filter (fun e => PyVal.eqb (JStr name) (edge_to e))
            (root_edge (title m) (sub_name s)
               :: map (leaf_edge (sub_name s)) (sub_children s)))
    with (if String.eqb name (sub_name s)
          then root_edge (title m) (sub_name s)
                 :: filter (fun e => PyVal.eqb (JStr name) (edge_to e))
                      (map (leaf_edge (sub_name s)) (sub_children s))
          else filter (fun e => PyVal.eqb (JStr name) (edge_to e))
                 (map (leaf_edge (sub_name s)) (sub_children s))).
  cbn [filter List.app].
  destruct (String.eqb name (sub_name s)); cbn [List.length];
    rewrite filter_leaf_edges; lia.
Qed.

Lemma filter_two {A : Type} (f : A -> bool) (x y : A) (l1 l2 l3 : list A) :
  f x = true -> f y = true ->
  (2 <= List.length (filter f (l1 ++ x :: l2 ++ y :: l3)))%nat.
Proof.
  intros Hx Hy. rewrite filter_app, length_app. simpl. rewrite Hx. simpl.
  rewrite filter_app, length_app. simpl. rewrite Hy. simpl. lia.
Qed.

(** C3. When two subtopics (at different places of the list) each have a
    key point named [c], the graph saved by [create_mind_map_visual] has
    exactly one node for [c]; the edge list holds an edge into [c] from the
    first subtopic and, further on, one from the second (the edges that
    enter [c] are as many as the places where [c] names a subtopic or a
    key point: two when these are the only ones); and every name of the
    mind map, wherever and however often it occurs, has exactly one
    node. *)
Theorem shared_child_is_one_node
    (data : json) (m : MindMap) (pre mid post : list Subtopic)
    (s1 s2 : Subtopic) (c : string) (st : session) :
  is_mind_map data m ->
  subtopics m = (pre ++ s1 :: mid ++ s2 :: post)%list ->
  In c (sub_children s1) -> In c (sub_children s2) ->
  exists net,
    create_mind_map_visual data st =
      (Ok tt, log st [save_graph net "mind_map.html"])
    /\ List.length (nodes_named net c) = 1%nat
    /\ (exists e1 e2 e3,
          edges net =
          (e1 ++ leaf_edge (sub_name s1) c :: e2
              ++ leaf_edge (sub_name s2) c :: e3)%list)
    /\ (2 <= List.length (edges_into net c))%nat
    /\ List.length (edges_into net c) = mentions m c
    /\ (forall name, occurs_in m name ->
          List.length (nodes_named net name) = 1%nat).
Proof.
  intros H E H1 H2. exists (graph_of m).
  rewrite create_mind_map_visual_run, (build_network_graph_of data m H).
  split; [reflexivity|].
  assert (Hocc : occurs_in m c).
  { right. exists s1. split; [|now right]. rewrite E. apply in_elt. }
  split; [now apply graph_of_one_node|].
  destruct (sub_edges_leaf (title m) s1 c H1) as (a1 & a2 & E1).
  destruct (sub_edges_leaf (title m) s2 c H2) as (b1 & b2 & E2).
  assert (Ee : edges (graph_of m) =
               ((flat_map (sub_edges (title m)) pre ++ a1)
                  ++ leaf_edge (sub_name s1) c
                  :: (a2 ++ flat_map (sub_edges (title m)) mid ++ b1)
                  ++ leaf_edge (sub_name s2) c
                  :: (b2 ++ flat_map (sub_edges (title m)) post))%list).
  { cbn [graph_of net_of edges]. rewrite E.
    rewrite flat_map_app. cbn [flat_map]. rewrite flat_map_app. cbn [flat_map].
    rewrite E1, E2. repeat (rewrite <- ?app_assoc; cbn [List.app]).
    reflexivity. }
  split; [eexists _, _, _; exact Ee|].
  split; [|split; [apply edges_into_mentions
                  |intros name; apply graph_of_one_node]].
  unfold edges_into. rewrite Ee.
  apply filter_two; apply eqb_str_refl.
Qed.

Lemma shared_child_is_one_node_witness :
  exists net,
    create_mind_map_visual
      (mind_map_json
         (mkMindMap "Cats"
            [mkSubtopic "Biology" ["Overview"; "Mammal"];
             mkSubtopic "Pets" ["Overview"]]))
      fresh = (Ok tt, log fresh [save_graph net "mind_map.html"])
    /\ List.length (nodes_named net "Overview") = 1%nat
    /\ List.length (edges_into net "Overview") = 2%nat.
Proof.
  destruct (shared_child_is_one_node
              (mind_map_json
                 (mkMindMap "Cats"
                    [mkSubtopic "Biology" ["Overview"; "Mammal"];
                     mkSubtopic "Pets" ["Overview"]]))
              (mkMindMap "Cats"
                 [mkSubtopic "Biology" ["Overview"; "Mammal"];
                  mkSubtopic "Pets" ["Overview"]])
              [] [] [] (mkSubtopic "Biology" ["Overview"; "Mammal"])
              (mkSubtopic "Pets" ["Overview"]) "Overview" fresh)
    as (net & Hrun & Hone & _ & _ & Htwo & _).
  - apply mind_map_json_ok.
  - reflexivity.
  - simpl. now left.
  - simpl. now left.
  - exists net. split; [exact Hrun|]. split; [exact Hone | exact Htwo].
Defined.

Lemma filter_none {A : Type} (f : A -> bool) (l : list A) :
  (forall x, In x l -> f x = false) -> filter f l = [].
Proof.
  induction l as [|a l IH]; intros H; [reflexivity|].
  cbn [filter]. rewrite (H a (or_introl eq_refl)).
  apply IH. intros x Hx. apply H. now right.
Qed.

(** A mind map of the data model with an empty [children] list has the
    keys that C10 names. *)
Lemma is_mind_map_names_present
    (data : json) (m : MindMap) (pre post : list Subtopic) (s : Subtopic) :
  is_mind_map data m ->
  subtopics m = (pre ++ s :: post)%list ->
  sub_children s = [] ->
  exists sub, names_present data sub /\ is_subtopic sub s.
Proof.
  intros (Ht & subs & Hn & F) E Hc. rewrite E in F.
  apply Forall2_app_inv_r in F as (l1 & l2 & F1 & F2 & ->).
  inversion F2 as [|sub s0 l2' post' Hsub F2' E1 E2]. subst.
  exists sub. split; [|exact Hsub]. split.
  - unfold PyVal.subscript in Ht. destruct data as [| | | | | |ms]; try discriminate.
    destruct (PyVal.assoc "title" ms) as [x|] eqn:A; [|discriminate].
    now exists ms, x.
  - exists (l1 ++ sub :: l2')%list. split; [exact Hn|]. split; [|split].
    + assert (K : forall j s', is_subtopic j s' -> has_key j "name").
      { intros j s' (Hname & _). unfold PyVal.subscript in Hname.
        destruct j as [| | | | | |ms]; try discriminate.
        destruct (PyVal.assoc "name" ms) as [x|] eqn:A; [|discriminate].
        now exists ms, x. }
      apply Forall_app. split.
      * clear -F1 K. induction F1; constructor; eauto.
      * constructor; [now apply (K sub s)|].
        clear -F2' K. induction F2'; constructor; eauto.
    + apply in_elt.
    + destruct Hsub as (_ & cs & Hcs & Fc). rewrite Hc in Fc.
      inversion Fc. subst. exact Hcs.
Qed.

(** C10, as stated, fails: with [title], [nodes] and every subtopic's
    [name] present and an empty [children] list in the first subtopic,
    the render raises when another subtopic has no [children] key, and
    when a key point of another subtopic has no [name] key. *)
Lemma empty_children_beside_missing_key :
  names_present pets_without_children empty_biology
  /\ create_mind_map_visual pets_without_children fresh
     = (Raise (KeyError (JStr "children")), fresh)
  /\ names_present pets_with_nameless_point empty_biology
  /\ create_mind_map_visual pets_with_nameless_point fresh
     = (Raise (KeyError (JStr "name")), fresh).
Proof.
  assert (N : forall pets,
             has_key pets "name" ->
             names_present
               (JObj [("title", JStr "Cats");
                      ("nodes", JArr [empty_biology; pets])])
               empty_biology).
  { intros pets Hp. split; [now exists [("title", JStr "Cats");
                                         ("nodes", JArr [empty_biology; pets])],
                                        (JStr "Cats")|].
    exists [empty_biology; pets]. split; [reflexivity|]. split; [|split].
    - constructor; [|constructor; [exact Hp | constructor]].
      now exists [("name", JStr "Biology"); ("children", JArr [])],
                 (JStr "Biology").
    - now left.
    - reflexivity. }
  split; [|split; [|split]].
  - apply N. now exists [("name", JStr "Pets")], (JStr "Pets").
  - reflexivity.
  - apply N.
    now exists [("name", JStr "Pets"); ("children", JArr [JObj []])],
               (JStr "Pets").
  - reflexivity.
Qed.

(** C10, amended. A mind map in which every key that the renderer reads
    is present ([title], [nodes], the [name] and [children] of every
    subtopic, the [name] of every key point) and in which some subtopic
    has an empty [children] list is rendered without an exception.
    The loop body, run on that subtopic, adds its node (when
    the name is new) and its edge from the root and nothing else; in the
    graph that is saved the subtopic has its node, its share of the edge
    list is the one edge from the root, and no edge leaves its node
    (unless its name is also the title or the name of another
    subtopic). *)
Theorem empty_children_is_rendered
    (data : json) (m : MindMap) (pre post : list Subtopic) (s : Subtopic)
    (st : session) :
  is_mind_map data m ->
  subtopics m = (pre ++ s :: post)%list ->
  sub_children s = [] ->
  (forall j ns es,
      is_subtopic j s -> has_id ns (JStr (title m)) = true ->
      add_subtopic (JStr (title m)) (net_of ns es) j =
      Ok (net_of (insert_node ns (sub_node (sub_name s)))
            (es ++ [root_edge (title m) (sub_name s)])))
  /\ exists net,
      create_mind_map_visual data st =
        (Ok tt, log st [save_graph net "mind_map.html"])
      /\ List.length (nodes_named net (sub_name s)) = 1%nat
      /\ nodes net =
         fold_left insert_node (flat_map sub_nodes post)
           (insert_node
              (fold_left insert_node (flat_map sub_nodes pre)
                 [root_node (title m)])
              (sub_node (sub_name s)))
      /\ edges net =
         (flat_map (sub_edges (title m)) pre
            ++ root_edge (title m) (sub_name s)
            :: flat_map (sub_edges (title m)) post)%list
      /\ (sub_name s <> title m ->
          (forall s', In s' (pre ++ post)%list -> sub_name s' <> sub_name s) ->
          edges_from net (sub_name s) = []).
Proof.
  intros H E Hc. split.
  - intros j ns es Hj Hroot.
    rewrite (add_subtopic_ok (title m) j s ns es Hj Hroot).
    unfold sub_nodes, sub_edges. now rewrite Hc.
  - exists (graph_of m).
    rewrite create_mind_map_visual_run, (build_network_graph_of data m H).
    split; [reflexivity|]. split.
    + apply graph_of_one_node. right. exists s.
      split; [rewrite E; apply in_elt | now left].
    + assert (Ee : edges (graph_of m) =
                   (flat_map (sub_edges (title m)) pre
                      ++ root_edge (title m) (sub_name s)
                      :: flat_map (sub_edges (title m)) post)%list).
      { cbn [graph_of net_of edges]. rewrite E, flat_map_app.
        cbn [flat_map]. unfold sub_edges at 2. now rewrite Hc. }
      split; [|split; [exact Ee|]].
      * cbn [graph_of net_of nodes]. rewrite E, flat_map_app.
        cbn [flat_map]. unfold sub_nodes at 2. rewrite Hc.
        cbn [map List.app]. now rewrite fold_left_app.
      * intros Ht Hother. unfold edges_from. rewrite Ee.
        apply filter_none. intros e He.
        assert (Hneq : forall a b : string, a <> b ->
                         PyVal.eqb (JStr b) (JStr a) = false)
          by (intros a b N; apply String.eqb_neq; congruence).
        assert (Hsub : forall ss, (forall s', In s' ss -> sub_name s' <> sub_name s) ->
                  In e (flat_map (sub_edges (title m)) ss) ->
                  PyVal.eqb (JStr (sub_name s)) (edge_from e) = false).
        { intros ss Hss Hin. apply in_flat_map in Hin as (s' & Hs' & [<- | Hin]).
          - apply Hneq. congruence.
          - apply in_map_iff in Hin as (c & <- & _).
            apply Hneq. exact (Hss s' Hs'). }
        apply in_app_or in He as [He | [<- | He]].
        -- apply (Hsub pre); [|exact He].
           intros s' Hs'. apply Hother, in_or_app. now left.
        -- apply Hneq. congruence.
        -- apply (Hsub post); [|exact He].
           intros s' Hs'. apply Hother, in_or_app. now right.
Qed.

Lemma empty_children_is_rendered_witness :
  exists net,
    create_mind_map_visual
      (mind_map_json
         (mkMindMap "Cats" [mkSubtopic "Biology" []; mkSubtopic "Pets" ["Food"]]))
      fresh = (Ok tt, log fresh [save_graph net "mind_map.html"])
    /\ nodes net =
       [root_node "Cats"; sub_node "Biology"; sub_node "Pets"; leaf_node "Food"]
    /\ edges net =
       [root_edge "Cats" "Biology"; root_edge "Cats" "Pets"; leaf_edge "Pets" "Food"].
Proof.
  destruct (proj2 (empty_children_is_rendered
              (mind_map_json
                 (mkMindMap "Cats"
                    [mkSubtopic "Biology" []; mkSubtopic "Pets" ["Food"]]))
              (mkMindMap "Cats"
                 [mkSubtopic "Biology" []; mkSubtopic "Pets" ["Food"]])
              [] [mkSubtopic "Pets" ["Food"]] (mkSubtopic "Biology" []) fresh
              (mind_map_json_ok _) eq_refl eq_refl))
    as (net & Hrun & _ & Hn & He & _).
  exists net. split; [exact Hrun|]. split; [exact Hn | exact He].
Defined.

(** ** [create_mind_map_visual] on mind maps with a missing key *)

Lemma subscript_lacks (v : json) (k : string) :
  lacks v k -> PyVal.subscript v k = Raise (KeyError (JStr k)).
Proof. intros (ms & -> & H). simpl. now rewrite H. Qed.

Lemma for_each_raises {A S : Type} (f : S -> A -> result S) (x : A)
    (l : list A) :
  In x l -> (forall s, exists e, f s x = Raise e) ->
  forall s, exists e, for_each f s l = Raise e.
Proof.
  intros Hin Hx. induction l as [|a l IH]; intros s; [contradiction|].
  cbn [for_each]. destruct Hin as [-> | Hin].
  - destruct (Hx s) as [e ->]. now exists e.
  - destruct (f s a) as [s'|e]; cbn [rbind]; [now apply IH | now exists e].
Qed.

Lemma add_subtopic_lacking (root : json) (net : Network) (sub : json) :
  lacks sub "name" \/ lacks sub "children" ->
  exists e, add_subtopic root net sub = Raise e.
Proof.
  intros [H | H]; unfold add_subtopic.
  - rewrite (subscript_lacks sub "name" H). now eexists.
  - rewrite (subscript_lacks sub "children" H).
    destruct (PyVal.subscript sub "name") as [n|e]; cbn [rbind]; [|now eexists].
    destruct (Pyvis.add_node net n n "green" "box" 30) as [net1|e];
      cbn [rbind]; [|now eexists].
    destruct (Pyvis.add_edge net1 root n "blue") as [net2|e];
      cbn [rbind]; now eexists.
Qed.

Lemma build_network_lacking (data : json) :
  lacks_required_field data -> exists e, build_network data = Raise e.
Proof.
  unfold build_network. intros [H | [H | (subs & sub & Hn & Hin & H)]].
  - rewrite (subscript_lacks data "title" H). now eexists.
  - rewrite (subscript_lacks data "nodes" H).
    destruct (PyVal.subscript data "title") as [t|e]; cbn [rbind]; [|now eexists].
    destruct (Pyvis.add_node _ t t "orange" "circle" 40) as [net|e];
      cbn [rbind]; now eexists.
  - rewrite Hn.
    destruct (PyVal.subscript data "title") as [t|e]; cbn [rbind]; [|now eexists].
    destruct (Pyvis.add_node _ t t "orange" "circle" 40) as [net|e];
      cbn [rbind PyVal.iter]; [|now eexists].
    apply (for_each_raises (add_subtopic t) sub subs Hin).
    intros s. now apply add_subtopic_lacking.
Qed.

Lemma add_child_typed (sub c : json) (sname : string)
    (ns : list Node) (es : list Edge) :
  PyVal.subscript sub "name" = Ok (JStr sname) ->
  has_id ns (JStr sname) = true ->
  typed_child c ->
  ok_or_key_error ns (add_child sub (net_of ns es) c).
Proof.
  intros Hs Hin (ms & -> & Hname).
  destruct (PyVal.assoc "name" ms) as [v|] eqn:A.
  - destruct (Hname v A) as [name ->].
    rewrite (add_child_ok sub (JObj ms) sname name ns es); auto.
    + cbn. eexists _, _. split; [reflexivity|].
      intros x. apply has_id_insert.
    + unfold is_child. cbn. now rewrite A.
  - unfold add_child. cbn. rewrite A. cbn. now right; right; left.
Qed.

Lemma ok_or_key_error_weaken (keep keep' : list Node) (r : result Network) :
  (forall x, has_id keep x = true -> has_id keep' x = true) ->
  ok_or_key_error keep' r -> ok_or_key_error keep r.
Proof.
  intros Hk. destruct r as [net|e]; [|exact (fun H => H)].
  intros (ns & es & -> & H). exists ns, es. split; [reflexivity|].
  intros x Hx. now apply H, Hk.
Qed.

Lemma for_each_typed {A : Type} (f : Network -> A -> result Network)
    (key : json) (l : list A) :
  (forall x, In x l -> forall ns es,
      has_id ns key = true -> ok_or_key_error ns (f (net_of ns es) x)) ->
  forall ns es,
    has_id ns key = true ->
    ok_or_key_error ns (for_each f (net_of ns es) l).
Proof.
  induction l as [|a l IH]; intros Hf ns es Hkey.
  - cbn. now exists ns, es.
  - cbn [for_each].
    pose proof (Hf a (or_introl eq_refl) ns es Hkey) as Ha.
    destruct (f (net_of ns es) a) as [net1|e]; cbn [rbind]; [|exact Ha].
    destruct Ha as (ns1 & es1 & -> & Hmono).
    apply (ok_or_key_error_weaken ns ns1 _ Hmono).
    apply IH; [|now apply Hmono].
    intros x Hx. apply Hf. now right.
Qed.

Lemma add_subtopic_typed (root : string) (j : json)
    (ns : list Node) (es : list Edge) :
  typed_subtopic j ->
  has_id ns (JStr root) = true ->
  ok_or_key_error ns (add_subtopic (JStr root) (net_of ns es) j).
Proof.
  intros (ms & -> & Hname & Hchildren) Hroot.
  unfold add_subtopic. cbn [PyVal.subscript].
  destruct (PyVal.assoc "name" ms) as [v|] eqn:A; cbn [rbind];
    [|now right; right; left].
  destruct (Hname v A) as [sname ->].
  rewrite add_node_str. cbn [rbind].
  set (ns1 := insert_node ns (mkNode (JStr sname) (JStr sname) "green" "box" 30 "black")).
  assert (Hs : has_id ns1 (JStr sname) = true)
    by apply (has_id_inserted ns (sub_node sname)), eqb_str_refl.
  assert (Hmono : forall x, has_id ns x = true -> has_id ns1 x = true)
    by (intros x; apply has_id_insert).
  rewrite add_edge_present by auto. cbn [rbind].
  destruct (PyVal.assoc "children" ms) as [c|] eqn:C; cbn [rbind];
    [|now right; right; right; left].
  destruct (Hchildren c eq_refl) as (cs & -> & Hcs). cbn [rbind PyVal.iter].
  apply (ok_or_key_error_weaken ns ns1 _ Hmono).
  apply (for_each_typed (add_child (JObj ms)) (JStr sname) cs); [|exact Hs].
  intros x Hx ns' es' Hin.
  apply (add_child_typed (JObj ms) x sname ns' es'); auto.
  - cbn. now rewrite A.
  - now apply (proj1 (Forall_forall _ _) Hcs).
Qed.

Lemma build_network_typed (data : json) :
  typed_mind_map data -> ok_or_key_error [] (build_network data).
Proof.
  intros (ms & -> & Htitle & Hnodes).
  unfold build_network. cbn [PyVal.subscript].
  destruct (PyVal.assoc "title" ms) as [v|] eqn:T; cbn [rbind];
    [|now left].
  destruct (Htitle v T) as [t ->].
  change (Pyvis.new "100vh" "100%" "#f9f9f9" "black" true) with (net_of [] []).
  rewrite add_node_str. cbn [rbind].
  destruct (PyVal.assoc "nodes" ms) as [n|] eqn:N; cbn [rbind];
    [|now right; left].
  destruct (Hnodes n eq_refl) as (subs & -> & Hsubs). cbn [rbind PyVal.iter].
  apply (ok_or_key_error_weaken [] (insert_node [] (root_node t)));
    [discriminate|].
  apply (for_each_typed (add_subtopic (JStr t)) (JStr t) subs).
  - intros x Hx ns es Hin. apply add_subtopic_typed; auto.
    now apply (proj1 (Forall_forall _ _) Hsubs).
  - apply (has_id_inserted [] (root_node t)), eqb_str_refl.
Qed.

(** C7. An input that lacks [title] or [nodes], or has a subtopic that
    lacks [name] or [children], makes [create_mind_map_visual] raise: the
    exception escapes, nothing is saved and the session is left as it
    was.  When the keys that are present hold values of the data model
    (strings for names, lists of dicts for [nodes] and [children]) the
    exception is the [KeyError] of a missing key.  The handler does not
    catch it: its block that renders the mind map ends with the same
    exception, before any success message. *)
Theorem missing_key_raises (data : json) (st : session) :
  lacks_required_field data ->
  (exists e,
      build_network data = Raise e /\
      create_mind_map_visual data st = (Raise e, st) /\
      (PyVal.truthy data = true ->
       forall view_clicked,
         show_mind_map view_clicked (Some data) st =
           (Raise e, mkSession (summary st) (Some data) (trace st))))
  /\ (lacks data "title" ->
      create_mind_map_visual data st = (Raise (KeyError (JStr "title")), st))
  /\ (typed_mind_map data ->
      exists k,
        In k REQUIRED_KEYS /\
        create_mind_map_visual data st = (Raise (KeyError (JStr k)), st)).
Proof.
  intros H. destruct (build_network_lacking data H) as [e He].
  rewrite create_mind_map_visual_run, He. split; [|split].
  - exists e. split; [reflexivity|]. split; [reflexivity|].
    intros T view_clicked. unfold show_mind_map. rewrite T.
    unfold bind at 1. cbn [set_mind_map_data]. unfold bind at 1.
    now rewrite create_mind_map_visual_run, He.
  - intros Ht. unfold build_network in He.
    rewrite (subscript_lacks data "title" Ht) in He. cbn in He. congruence.
  - intros Ht. pose proof (build_network_typed data Ht) as Hk.
    rewrite He in Hk. cbn in Hk.
    destruct e as [[| | | | k | |]| | | | |]; try contradiction.
    now exists k.
Qed.

Lemma missing_key_raises_witness :
  create_mind_map_visual (JObj [("title", JStr "Cats")]) fresh
    = (Raise (KeyError (JStr "nodes")), fresh)
  /\ create_mind_map_visual
       (JObj [("title", JStr "Cats");
              ("nodes", JArr [JObj [("name", JStr "Biology")]])]) fresh
     = (Raise (KeyError (JStr "children")), fresh).
Proof.
  split.
  - destruct (proj1 (missing_key_raises (JObj [("title", JStr "Cats")]) fresh
                       (or_intror (or_introl
                          (ex_intro _ _ (conj eq_refl eq_refl))))))
      as (e & He & Hrun & _).
    rewrite Hrun. cbv in He. now injection He as <-.
  - destruct (proj1 (missing_key_raises
                       (JObj [("title", JStr "Cats");
                              ("nodes", JArr [JObj [("name", JStr "Biology")]])])
                       fresh
                       (or_intror (or_intror
                          (ex_intro _ _ (ex_intro _ (JObj [("name", JStr "Biology")])
                             (conj eq_refl (conj (or_introl eq_refl)
                                (or_intror (ex_intro _ _ (conj eq_refl eq_refl)))))))))))
      as (e & He & Hrun & _).
    rewrite Hrun. cbv in He. now injection He as <-.
Defined.

(** ** The handler after an empty summary response *)

Lemma growing_ret {A : Type} (a : A) : growing (ret a).
Proof. intros st. exists []. cbn. now rewrite app_nil_r. Qed.

Lemma growing_lift {A : Type} (r : result A) : growing (lift r).
Proof. intros st. exists []. cbn. now rewrite app_nil_r. Qed.

Lemma growing_emit (ev : event) : growing (emit ev).
Proof. intros st. now exists [ev]. Qed.

Lemma growing_set_summary (s : string) : growing (set_summary s).
Proof. intros st. exists []. cbn. now rewrite app_nil_r. Qed.

Lemma growing_set_mind_map_data (d : json) : growing (set_mind_map_data d).
Proof. intros st. exists []. cbn. now rewrite app_nil_r. Qed.

Lemma growing_bind {A B : Type} (m : M A) (f : A -> M B) :
  growing m -> (forall a, growing (f a)) -> growing (bind m f).
Proof.
  intros Hm Hf st. unfold bind. destruct (Hm st) as [evs E].
  destruct (m st) as [[a|e] st1]; cbn in E.
  - destruct (Hf a st1) as [evs' E']. exists (evs ++ evs')%list.
    now rewrite E', E, app_assoc.
  - now exists evs.
Qed.

Lemma growing_try_except {A : Type} (m : M A) (h : exn -> M A) :
  growing m -> (forall e, growing (h e)) -> growing (try_except m h).
Proof.
  intros Hm Hh st. unfold try_except. destruct (Hm st) as [evs E].
  destruct (m st) as [[a|e] st1]; cbn in E.
  - now exists evs.
  - destruct (Hh e st1) as [evs' E']. exists (evs ++ evs')%list.
    now rewrite E', E, app_assoc.
Qed.

Ltac grow :=
  repeat first
    [ apply growing_ret | apply growing_lift | apply growing_emit
    | apply growing_set_summary | apply growing_set_mind_map_data
    | apply growing_bind; [|intros ?]
    | apply growing_try_except; [|intros ?]
    | match goal with
      | |- growing (match ?x with _ => _ end) => destruct x
      end ].

Lemma growing_extract_json (w : World) (s : string) : growing (extract_json w s).
Proof. unfold extract_json. grow. Qed.

Lemma growing_create_mind_map_visual (d : json) :
  growing (create_mind_map_visual d).
Proof. unfold create_mind_map_visual. grow. Qed.

Lemma growing_show_mind_map (view : bool) (d : option json) :
  growing (show_mind_map view d).
Proof.
  unfold show_mind_map. destruct d as [d|]; [|grow].
  destruct (PyVal.truthy d); [|grow].
  apply growing_bind; [grow|intros _].
  apply growing_bind; [apply growing_create_mind_map_visual|intros _].
  grow.
Qed.

Lemma bind_assoc {A B C : Type} (m : M A) (f : A -> M B) (g : B -> M C)
    (st : session) :
  bind (bind m f) g st = bind m (fun a => bind (f a) g) st.
Proof. unfold bind. now destruct (m st) as [[a|e] st1]. Qed.

Lemma bind_emit {B : Type} (ev : event) (k : unit -> M B) (st : session) :
  bind (emit ev) k st = k tt (log st [ev]).
Proof. reflexivity. Qed.

Lemma generate_summary_falsy (w : World) (transcript : string)
    (answer : response) (st : session) :
  generate_content w MODEL (PROMPT_SUMMARY ++ transcript) = Ok answer ->
  text_truthy (resp_text answer) = false ->
  generate_summary w transcript st =
    (Ok SUMMARY_WARNING,
     log st [model_request MODEL (PROMPT_SUMMARY ++ transcript)]).
Proof.
  intros G T. unfold generate_summary, ask_model.
  rewrite bind_assoc, bind_emit. unfold bind, lift, ret. rewrite G.
  destruct (resp_text answer) as [s|]; [|reflexivity].
  cbn in T. now rewrite T.
Qed.

Lemma generate_summary_truthy (w : World) (transcript s : string)
    (st st' : session) :
  generate_summary w transcript st = (Ok s, st') -> Py.truthy s = true.
Proof.
  unfold generate_summary, ask_model.
  rewrite bind_assoc, bind_emit. unfold bind, lift, ret.
  destruct (generate_content w MODEL _) as [answer|e]; [|discriminate].
  destruct (resp_text answer) as [t|]; [|now intros [= <- _]].
  destruct (Py.truthy t) eqn:T; now intros [= <- _].
Qed.

Lemma show_summary_warning (w : World) (view : bool) (st : session) :
  exists prompt evs,
    Fmt.format PROMPT_MIND_MAP SUMMARY_WARNING = Ok prompt /\
    trace (snd (show_summary w view SUMMARY_WARNING st)) =
      (trace st
         ++ [st_markdown (Msg "## ✨ Summary:");
             st_write (Msg SUMMARY_WARNING);
             model_request MODEL prompt]
         ++ evs)%list.
Proof.
  destruct (Fmt.format PROMPT_MIND_MAP SUMMARY_WARNING) as [prompt|e] eqn:F;
    [|vm_compute in F; discriminate].
  exists prompt.
  unfold show_summary. change (Py.truthy SUMMARY_WARNING) with true. cbv iota.
  unfold generate_mind_map, ask_model. rewrite F.
  set (tail := fun response : response => _).
  assert (Htail : forall r, growing (bind (tail r) (show_mind_map view))).
  { intros r. apply growing_bind; [|intros d; apply growing_show_mind_map].
    unfold tail. destruct (resp_text r) as [s|]; [|grow].
    destruct (Py.truthy s); [apply growing_extract_json | grow]. }
  match goal with
  | |- context [snd (?m st)] =>
      assert (E : m st =
                  bind (lift (generate_content w MODEL prompt))
                    (fun r => bind (tail r) (show_mind_map view))
                    (log (log (mkSession SUMMARY_WARNING (mind_map_data st) (trace st))
                            [st_markdown (Msg "## ✨ Summary:");
                             st_write (Msg SUMMARY_WARNING)])
                       [model_request MODEL prompt]))
  end.
  { unfold bind, set_summary, emit, lift, log. cbn.
    rewrite <- !app_assoc. cbn [List.app].
    now destruct (generate_content w MODEL prompt). }
  rewrite E.
  destruct (growing_bind _ _ (growing_lift (generate_content w MODEL prompt))
              Htail
              (log (log (mkSession SUMMARY_WARNING (mind_map_data st) (trace st))
                      [st_markdown (Msg "## ✨ Summary:");
                       st_write (Msg SUMMARY_WARNING)])
                 [model_request MODEL prompt])) as [evs Hevs].
  exists evs. rewrite Hevs. cbn. now rewrite <- !app_assoc.
Qed.

Lemma video_id_truthy (url video_id : string) :
  get_video_id url = Some video_id -> Py.truthy video_id = true.
Proof.
  intros G. apply get_video_id_some in G as (i & ([L _] & _) & _).
  now destruct video_id.
Qed.

(** C6, on the code.  When the model answers the summary request with an
    empty or missing [text], [generate_summary] returns the fixed warning
    string; the handler then takes that string for the summary: it shows
    it and sends the mind-map request built from it.  The pipeline is not
    halted at the summary stage. *)
Theorem empty_summary_reaches_mind_map
    (w : World) (youtube_url video_id : string) (captions : list fragment)
    (answer : response) (view_clicked : bool) (st : session) :
  youtube_url <> "" ->
  get_video_id youtube_url = Some video_id ->
  get_transcript w video_id = Ok captions ->
  spaced_texts captions <> "" ->
  generate_content w MODEL (PROMPT_SUMMARY ++ spaced_texts captions) = Ok answer ->
  text_truthy (resp_text answer) = false ->
  (forall st1,
      fst (generate_summary w (spaced_texts captions) st1) = Ok SUMMARY_WARNING)
  /\ exists prompt evs,
      Fmt.format PROMPT_MIND_MAP SUMMARY_WARNING = Ok prompt /\
      trace (snd (on_generate w youtube_url view_clicked st)) =
        (trace st
           ++ [transcript_request video_id;
               model_request MODEL (PROMPT_SUMMARY ++ spaced_texts captions);
               st_markdown (Msg "## ✨ Summary:");
               st_write (Msg SUMMARY_WARNING);
               model_request MODEL prompt]
           ++ evs)%list.
Proof.
  intros Hurl Hid Hcap Htext Hgen Hfalsy. split.
  - intros st1. now rewrite (generate_summary_falsy w _ answer st1 Hgen Hfalsy).
  - unfold on_generate.
    replace (Py.truthy youtube_url) with true
      by (now destruct youtube_url).
    cbn [negb]. rewrite Hid, (video_id_truthy youtube_url video_id Hid).
    cbn [negb]. unfold bind at 1.
    rewrite (extract_transcript_run w video_id captions st Hcap).
    unfold use_transcript.
    replace (Py.truthy (spaced_texts captions)) with true
      by (now destruct (spaced_texts captions)).
    unfold bind at 1.
    rewrite (generate_summary_falsy w _ answer _ Hgen Hfalsy).
    destruct (show_summary_warning w view_clicked
                (log (log st [transcript_request video_id])
                   [model_request MODEL (PROMPT_SUMMARY ++ spaced_texts captions)]))
      as (prompt & evs & F & E).
    exists prompt, evs. split; [exact F|].
    rewrite E. cbn. now rewrite <- !app_assoc.
Qed.

Lemma empty_summary_reaches_mind_map_witness :
  fst (generate_summary empty_summary_world
         "Cats are mammals. Cats are popular pets." fresh) = Ok SUMMARY_WARNING
  /\ exists prompt evs,
      Fmt.format PROMPT_MIND_MAP SUMMARY_WARNING = Ok prompt /\
      trace (snd (on_generate empty_summary_world
                    "https://www.youtube.com/watch?v=dQw4w9WgXcQ" false fresh)) =
        ([transcript_request "dQw4w9WgXcQ";
          model_request MODEL
            (PROMPT_SUMMARY ++ "Cats are mammals. Cats are popular pets.");
          st_markdown (Msg "## ✨ Summary:");
          st_write (Msg SUMMARY_WARNING);
          model_request MODEL prompt]
           ++ evs)%list.
Proof.
  destruct (empty_summary_reaches_mind_map empty_summary_world
              "https://www.youtube.com/watch?v=dQw4w9WgXcQ" "dQw4w9WgXcQ"
              cats_captions (mkResponse (Some "")) false fresh)
    as (Hs & prompt & evs & F & E);
    [discriminate | reflexivity | reflexivity | discriminate
    | reflexivity | reflexivity |].
  split; [exact (Hs fresh)|].
  exists prompt, evs. split; [exact F | exact E].
Defined.

(** The run at the failing input, in full: the warning is shown as the
    summary, the mind-map request is sent, and the only error reported
    comes from the mind-map stage. *)
Example empty_summary_trace :
  exists prompt,
    Fmt.format PROMPT_MIND_MAP SUMMARY_WARNING = Ok prompt /\
    on_generate empty_summary_world
      "https://www.youtube.com/watch?v=dQw4w9WgXcQ" false fresh =
    (Ok tt,
     mkSession SUMMARY_WARNING None
       [transcript_request "dQw4w9WgXcQ";
        model_request MODEL
          (PROMPT_SUMMARY ++ "Cats are mammals. Cats are popular pets.");
        st_markdown (Msg "## ✨ Summary:");
        st_write (Msg SUMMARY_WARNING);
        model_request MODEL prompt;
        st_error (Msg "❗ Error: Empty response from the Gemini API.");
        st_error (Msg "❗ Error generating mind map.")]).
Proof. eexists. split; vm_compute; reflexivity. Qed.

(** ** The end-to-end scenario of the specification *)

Example cats_end_to_end :
  exists prompt,
    on_generate cats_world "https://www.youtube.com/watch?v=dQw4w9WgXcQ" false
      fresh =
    (Ok tt,
     mkSession
       "- Cats are mammals
- Cats are popular pets"
       (Some (mind_map_json (mkMindMap "Cats" [mkSubtopic "Biology" ["Mammal"]])))
       [transcript_request "dQw4w9WgXcQ";
        model_request MODEL
          (PROMPT_SUMMARY ++ "Cats are mammals. Cats are popular pets.");
        st_markdown (Msg "## ✨ Summary:");
        st_write (Msg "- Cats are mammals
- Cats are popular pets");
        model_request MODEL prompt;
        save_graph
          (net_of [root_node "Cats"; sub_node "Biology"; leaf_node "Mammal"]
                  [root_edge "Cats" "Biology"; leaf_edge "Biology" "Mammal"])
          "mind_map.html";
        st_success (Msg "✅ Mind map generated successfully!")]).
Proof. eexists. vm_compute. reflexivity. Qed.

(** ** More on [get_video_id] *)

Lemma get_video_id_skip (a : ascii) (s : string) :
  id_prefix (String a s) = None ->
  get_video_id (String a s) = get_video_id s.
Proof. intros H. now rewrite get_video_id_step, H. Qed.

Lemma get_video_id_here (s tok rest : string) (sep : string) :
  id_token tok -> sep = "v=" \/ sep = "/" ->
  get_video_id (sep ++ tok ++ rest) = Some tok.
Proof.
  intros I Hsep. apply get_video_id_some. exists 0%nat. split; [|lia].
  split; [exact I|]. now exists "", sep, rest.
Qed.

Lemma app_prefix_split (c : string) :
  forall a b d, a ++ b = c ++ d -> (String.length c <= String.length a)%nat ->
    exists e, a = c ++ e /\ d = e ++ b.
Proof.
  induction c as [|x c IH]; intros a b d E L.
  - exists a. now split.
  - destruct a as [|y a]; simpl in L; [lia|].
    simpl in E. injection E as -> E.
    destruct (IH a b d E) as (e & -> & ->); [lia|].
    now exists e.
Qed.

Lemma token_at_length (url : string) (i : nat) (tok : string) :
  token_at url i tok ->
  (i + 12 <= String.length url)%nat.
Proof.
  intros ([L _] & pre & sep & rest & -> & Lp & Hsep).
  rewrite !length_app_s, L, Lp.
  destruct Hsep as [-> | ->]; simpl; lia.
Qed.

Lemma token_at_app (url suffix : string) (i : nat) (tok : string) :
  token_at url i tok -> token_at (url ++ suffix) i tok.
Proof.
  intros (I & pre & sep & rest & -> & Lp & Hsep). split; [exact I|].
  exists pre, sep, (rest ++ suffix). repeat split; auto.
  now rewrite !app_assoc_s.
Qed.

Lemma token_at_cut (url suffix : string) (j : nat) (tok : string) :
  token_at (url ++ suffix) j tok -> (j + 13 <= String.length url)%nat ->
  token_at url j tok.
Proof.
  intros ((L & A) & pre & sep & rest & E & Lp & Hsep) Hlen.
  split; [now split|].
  rewrite <- (app_assoc_s sep tok rest), <- (app_assoc_s pre (sep ++ tok) rest) in E.
  destruct (app_prefix_split (pre ++ sep ++ tok) url suffix rest E) as (e & -> & _).
  - rewrite !length_app_s, L, Lp. destruct Hsep as [-> | ->]; simpl; lia.
  - exists pre, sep, e. repeat split; auto. now rewrite !app_assoc_s.
Qed.

(** X1.  Whatever [get_video_id] returns is a string of exactly 11
    characters of the alphabet that stands in the input right after [v=]
    or [/]. *)
Theorem get_video_id_returns_token (url tok : string) :
  get_video_id url = Some tok ->
  String.length tok = 11%nat
  /\ all_chars id_char tok = true
  /\ exists pre sep rest,
       url = pre ++ sep ++ tok ++ rest /\ (sep = "v=" \/ sep = "/").
Proof.
  intros G. apply get_video_id_some in G as (i & ([L A] & pre & sep & rest & E & _ & Hsep) & _).
  repeat split; auto. now exists pre, sep, rest.
Qed.

Lemma get_video_id_returns_token_witness :
  String.length "dQw4w9WgXcQ" = 11%nat
  /\ all_chars id_char "dQw4w9WgXcQ" = true
  /\ exists pre sep rest,
       "https://youtu.be/dQw4w9WgXcQ?t=1" = pre ++ sep ++ "dQw4w9WgXcQ" ++ rest
       /\ (sep = "v=" \/ sep = "/").
Proof.
  apply (get_video_id_returns_token "https://youtu.be/dQw4w9WgXcQ?t=1" "dQw4w9WgXcQ").
  reflexivity.
Defined.

(** X2.  For the two usual forms of a video address, the watch page with
    its [v=] parameter and the short [youtu.be] link, [get_video_id]
    returns the 11-character id, whatever follows it. *)
Theorem get_video_id_usual_addresses (tok rest : string) :
  id_token tok ->
  get_video_id ("https://www.youtube.com/watch?v=" ++ tok ++ rest) = Some tok
  /\ get_video_id ("https://youtu.be/" ++ tok ++ rest) = Some tok.
Proof.
  intros I. split; cbn [append].
  - repeat (rewrite get_video_id_skip by reflexivity).
    apply (get_video_id_here "" tok rest "v=" I). now left.
  - repeat (rewrite get_video_id_skip by reflexivity).
    apply (get_video_id_here "" tok rest "/" I). now right.
Qed.

Lemma get_video_id_usual_addresses_witness :
  get_video_id ("https://www.youtube.com/watch?v=" ++ "dQw4w9WgXcQ" ++ "&t=42s")
    = Some "dQw4w9WgXcQ"
  /\ get_video_id ("https://youtu.be/" ++ "dQw4w9WgXcQ" ++ "?si=abc")
     = Some "dQw4w9WgXcQ".
Proof.
  split.
  - apply (proj1 (get_video_id_usual_addresses "dQw4w9WgXcQ" "&t=42s"
                    (conj eq_refl eq_refl))).
  - apply (proj2 (get_video_id_usual_addresses "dQw4w9WgXcQ" "?si=abc"
                    (conj eq_refl eq_refl))).
Defined.

(** X3.  Text appended to an address in which an id is found does not
    change the id that is found. *)
Theorem get_video_id_append (url suffix tok : string) :
  get_video_id url = Some tok ->
  get_video_id (url ++ suffix) = Some tok.
Proof.
  intros G. apply get_video_id_some in G as (i & T & Hmin).
  apply get_video_id_some. exists i. split; [now apply token_at_app|].
  intros j tok' T'. destruct (le_lt_dec i j) as [Hle | Hlt]; [exact Hle|].
  apply (Hmin j tok'). apply (token_at_cut url suffix j tok' T').
  pose proof (token_at_length url i tok T). lia.
Qed.

Lemma get_video_id_append_witness :
  get_video_id ("https://youtu.be/dQw4w9WgXcQ" ++ "/extra_segment_of_the_path")
  = Some "dQw4w9WgXcQ".
Proof.
  apply (get_video_id_append "https://youtu.be/dQw4w9WgXcQ"
           "/extra_segment_of_the_path" "dQw4w9WgXcQ").
  reflexivity.
Defined.

(** ** More on the pipeline stages *)

Lemma log_log (st : session) (a b : list event) :
  log (log st a) b = log st (a ++ b).
Proof. unfold log. cbn. now rewrite app_assoc. Qed.

Lemma extract_transcript_fail
    (w : World) (video_id : string) (e : exn) (st : session) :
  get_transcript w video_id = Raise e ->
  extract_transcript w video_id st =
    (Ok None,
     log st [transcript_request video_id;
             st_error (MsgExn "❗ Error fetching transcript: " e)]).
Proof.
  intros G. unfold extract_transcript, try_except, bind, lift, emit, ret, log.
  cbn [summary mind_map_data trace]. rewrite G.
  cbn [summary mind_map_data trace]. now rewrite <- app_assoc.
Qed.

(** X4.  [extract_transcript] never lets an exception out.  When the
    transcript service raises, the result is [None] and one error message
    carrying the exception is shown. *)
Theorem extract_transcript_catches
    (w : World) (video_id : string) (st : session) :
  (exists r st', extract_transcript w video_id st = (Ok r, st'))
  /\ (forall e,
        get_transcript w video_id = Raise e ->
        extract_transcript w video_id st =
          (Ok None,
           log st [transcript_request video_id;
                   st_error (MsgExn "❗ Error fetching transcript: " e)])).
Proof.
  split.
  - destruct (get_transcript w video_id) as [data|e] eqn:G.
    + rewrite (extract_transcript_run w video_id data st G). now eexists _, _.
    + rewrite (extract_transcript_fail w video_id e st G). now eexists _, _.
  - intros e G. now apply extract_transcript_fail.
Qed.

Lemma extract_transcript_catches_witness :
  extract_transcript no_captions_world "dQw4w9WgXcQ" fresh =
    (Ok None,
     log fresh
       [transcript_request "dQw4w9WgXcQ";
        st_error (MsgExn "❗ Error fetching transcript: "
                    (OtherError "TranscriptsDisabled"
                       "Subtitles are disabled for this video"))]).
Proof.
  apply (proj2 (extract_transcript_catches no_captions_world "dQw4w9WgXcQ" fresh)).
  reflexivity.
Defined.

Lemma generate_summary_run (w : World) (transcript : string) (st : session) :
  generate_summary w transcript st =
  match generate_content w MODEL (PROMPT_SUMMARY ++ transcript) with
  | Ok answer =>
      (Ok match resp_text answer with
          | Some s => if Py.truthy s then s else SUMMARY_WARNING
          | None => SUMMARY_WARNING
          end,
       log st [model_request MODEL (PROMPT_SUMMARY ++ transcript)])
  | Raise e =>
      (Raise e, log st [model_request MODEL (PROMPT_SUMMARY ++ transcript)])
  end.
Proof.
  unfold generate_summary, ask_model.
  rewrite bind_assoc, bind_emit. unfold bind, lift, ret.
  now destruct (generate_content w MODEL _).
Qed.

(** X5.  [generate_summary] sends one request, the preamble followed by
    the transcript.  When the model answers, the result is never the empty
    string, and it is the model's text whenever that text is not empty.
    When the model raises, the exception escapes. *)
Theorem generate_summary_outcome
    (w : World) (transcript : string) (st : session) :
  (forall answer,
      generate_content w MODEL (PROMPT_SUMMARY ++ transcript) = Ok answer ->
      exists s,
        generate_summary w transcript st =
          (Ok s, log st [model_request MODEL (PROMPT_SUMMARY ++ transcript)])
        /\ s <> ""
        /\ (forall t, resp_text answer = Some t -> t <> "" -> s = t))
  /\ (forall e,
        generate_content w MODEL (PROMPT_SUMMARY ++ transcript) = Raise e ->
        generate_summary w transcript st =
          (Raise e, log st [model_request MODEL (PROMPT_SUMMARY ++ transcript)])).
Proof.
  rewrite generate_summary_run. split.
  - intros answer ->. eexists. split; [reflexivity|]. split.
    + destruct (resp_text answer) as [s|]; [|discriminate].
      destruct s; [discriminate|]. cbn. discriminate.
    + intros t -> Ht. now destruct t.
  - now intros e ->.
Qed.

Lemma generate_summary_outcome_witness :
  generate_summary cats_world "Cats are mammals." fresh =
    (Ok "- Cats are mammals
- Cats are popular pets",
     log fresh [model_request MODEL (PROMPT_SUMMARY ++ "Cats are mammals.")])
  /\ generate_summary offline_model_world "Cats are mammals." fresh =
       (Raise (OtherError "ServiceUnavailable" "503 Service Unavailable"),
        log fresh [model_request MODEL (PROMPT_SUMMARY ++ "Cats are mammals.")]).
Proof.
  split.
  - destruct (proj1 (generate_summary_outcome cats_world "Cats are mammals." fresh)
                _ eq_refl) as (s & E & _ & Hs).
    rewrite E. now rewrite (Hs _ eq_refl) by discriminate.
  - apply (proj2 (generate_summary_outcome offline_model_world
                    "Cats are mammals." fresh)).
    reflexivity.
Defined.

Lemma format_prompt (summary : string) :
  Fmt.format PROMPT_MIND_MAP summary = Ok (mind_map_prompt summary).
Proof. vm_compute. reflexivity. Qed.

Lemma generate_mind_map_run (w : World) (summary : string) (st : session) :
  generate_mind_map w summary st =
  match generate_content w MODEL (mind_map_prompt summary) with
  | Ok answer =>
      match resp_text answer with
      | Some t =>
          if Py.truthy t then
            extract_json w t
              (log st [model_request MODEL (mind_map_prompt summary)])
          else
            (Ok None,
             log st [model_request MODEL (mind_map_prompt summary);
                     st_error (Msg "❗ Error: Empty response from the Gemini API.")])
      | None =>
          (Ok None,
           log st [model_request MODEL (mind_map_prompt summary);
                   st_error (Msg "❗ Error: Empty response from the Gemini API.")])
      end
  | Raise e =>
      (Raise e, log st [model_request MODEL (mind_map_prompt summary)])
  end.
Proof.
  unfold generate_mind_map, ask_model. rewrite format_prompt.
  unfold bind at 1. unfold lift at 1. cbv beta iota.
  rewrite bind_assoc, bind_emit. unfold bind at 1. unfold lift at 1.
  destruct (generate_content w MODEL (mind_map_prompt summary)) as [answer|e];
    [|reflexivity].
  destruct (resp_text answer) as [t|].
  - destruct (Py.truthy t); [reflexivity|].
    rewrite bind_emit. unfold ret. now rewrite log_log.
  - rewrite bind_emit. unfold ret. now rewrite log_log.
Qed.

Lemma has_char_found (c : ascii) (s : string) :
  Py.find s c <> -1 -> has_char c s = true.
Proof.
  intros H. destruct (has_char c s) eqn:E; [reflexivity|].
  exfalso. apply H. unfold Py.find. now apply find_from_absent.
Qed.

Lemma has_char_rfound (c : ascii) (s : string) :
  Py.rfind s c <> -1 -> has_char c s = true.
Proof.
  intros H. destruct (has_char c s) eqn:E; [reflexivity|].
  exfalso. apply H. unfold Py.rfind. now apply rfind_from_absent.
Qed.

Lemma braces_found_iff (t : string) :
  (negb (Py.find t "{" =? -1) && negb (Py.rfind t "}" =? -1))%bool = true <->
  has_char "{" t = true /\ has_char "}" t = true.
Proof.
  split.
  - intros H. apply andb_true_iff in H as [Ho Hc].
    apply negb_true_iff, Z.eqb_neq in Ho, Hc.
    split; [now apply has_char_found | now apply has_char_rfound].
  - intros [Ho Hc]. now apply braces_found.
Qed.

(** X6.  [generate_mind_map] formats its prompt without fail, whatever
    the summary holds (braces included): the request it sends is the fixed
    head, the summary as it is, and the fixed tail. *)
Theorem mind_map_prompt_holds_summary
    (w : World) (summary : string) (st : session) :
  Fmt.format PROMPT_MIND_MAP summary =
    Ok (MIND_MAP_HEAD ++ summary ++ MIND_MAP_TAIL)
  /\ exists r st' evs,
      generate_mind_map w summary st = (r, st') /\
      trace st' =
        (trace st
           ++ model_request MODEL (MIND_MAP_HEAD ++ summary ++ MIND_MAP_TAIL)
           :: evs)%list.
Proof.
  split; [apply format_prompt|].
  rewrite generate_mind_map_run. fold (mind_map_prompt summary).
  destruct (generate_content w MODEL (mind_map_prompt summary)) as [answer|e].
  - destruct (resp_text answer) as [t|].
    + destruct (Py.truthy t).
      * destruct (growing_extract_json w t
                    (log st [model_request MODEL (mind_map_prompt summary)]))
          as [evs E].
        destruct (extract_json w t _) as [r st'] eqn:X. cbn in E.
        exists r, st', evs. split; [reflexivity|].
        rewrite E. cbn. now rewrite <- app_assoc.
      * eexists _, _, [_]. split; reflexivity.
    + eexists _, _, [_]. split; reflexivity.
  - eexists _, _, []. split; reflexivity.
Qed.

(** X7.  When the model answers the mind-map request, [generate_mind_map]
    returns without an exception.  It returns a value exactly when the
    answer's text is not empty, holds a [{] and a [}], and the decoder
    accepts the span from the first [{] to the last [}]; the value is the
    decoded span.  An empty or missing text is reported as an empty
    response. *)
Theorem generate_mind_map_outcome
    (w : World) (summary : string) (answer : response) (st : session) :
  generate_content w MODEL (mind_map_prompt summary) = Ok answer ->
  (exists r st', generate_mind_map w summary st = (Ok r, st'))
  /\ (forall v,
        fst (generate_mind_map w summary st) = Ok (Some v) <->
        exists t,
          resp_text answer = Some t /\
          has_char "{" t = true /\ has_char "}" t = true /\
          json_loads w (brace_span t) = Ok v)
  /\ (text_truthy (resp_text answer) = false ->
      generate_mind_map w summary st =
        (Ok None,
         log st [model_request MODEL (mind_map_prompt summary);
                 st_error (Msg "❗ Error: Empty response from the Gemini API.")])).
Proof.
  intros G. rewrite generate_mind_map_run, G. split; [|split].
  - destruct (resp_text answer) as [t|]; [|now eexists _, _].
    destruct (Py.truthy t); [|now eexists _, _].
    rewrite extract_json_cases.
    destruct (_ && _)%bool; [|now eexists _, _].
    destruct (json_loads w _); now eexists _, _.
  - intros v. destruct (resp_text answer) as [t|].
    + split.
      * intros H. exists t. split; [reflexivity|].
        destruct (Py.truthy t); [|discriminate].
        rewrite extract_json_cases in H.
        destruct (_ && _)%bool eqn:B; [|discriminate].
        apply braces_found_iff in B as [Ho Hc].
        destruct (json_loads w (brace_span t)); [|discriminate].
        cbn in H. injection H as ->. now repeat split.
      * intros (t' & [= <-] & Ho & Hc & L).
        replace (Py.truthy t) with true by (now destruct t).
        rewrite extract_json_cases, braces_found, L by assumption.
        reflexivity.
    + split; [discriminate|]. now intros (t & E & _).
  - destruct (resp_text answer) as [t|]; [|reflexivity].
    cbn. now intros ->.
Qed.

Lemma generate_mind_map_outcome_witness :
  fst (generate_mind_map cats_world "- Cats are mammals" fresh) =
    Ok (Some (mind_map_json (mkMindMap "Cats" [mkSubtopic "Biology" ["Mammal"]])))
  /\ fst (generate_mind_map (stub_world (Some "") []) "- Cats are mammals" fresh)
     = Ok None.
Proof.
  split.
  - apply (proj1 (proj2 (generate_mind_map_outcome cats_world
                           "- Cats are mammals" _ fresh eq_refl))).
    eexists. split; [reflexivity|]. repeat split.
  - rewrite (proj2 (proj2 (generate_mind_map_outcome (stub_world (Some "") [])
                             "- Cats are mammals" _ fresh eq_refl)));
      reflexivity.
Defined.

(** ** More on [extract_json] *)

Lemma has_char_split (c : ascii) (s : string) :
  has_char c s = true ->
  exists pre rest, s = pre ++ String c rest /\ has_char c pre = false.
Proof.
  induction s as [|a s IH]; [discriminate|]. simpl.
  destruct (Ascii.eqb a c) eqn:E.
  - intros _. apply Ascii.eqb_eq in E as ->. now exists "", s.
  - intros H. destruct (IH H) as (pre & rest & -> & Hpre).
    exists (String a pre), rest. split; [reflexivity|].
    simpl. now rewrite E.
Qed.

Lemma has_char_app (c : ascii) (a b : string) :
  has_char c (a ++ b) = (has_char c a || has_char c b)%bool.
Proof.
  induction a as [|x a IH]; [reflexivity|].
  simpl. now rewrite IH, orb_assoc.
Qed.

Lemma rfind_from_app_absent (c : ascii) (a b : string) :
  forall i last, has_char c b = false ->
    Py.rfind_from i last (a ++ b) c = Py.rfind_from i last a c.
Proof.
  induction a as [|x a IH]; intros i last H; simpl.
  - now apply rfind_from_absent.
  - now apply IH.
Qed.

Lemma rfind_from_bound (c : ascii) (s : string) :
  forall i last, last < i ->
    Py.rfind_from i last s c < i + Py.len s.
Proof.
  unfold Py.len. induction s as [|a s IH]; intros i last H; simpl.
  - lia.
  - specialize (IH (i + 1) (if Ascii.eqb a c then i else last)).
    destruct (Ascii.eqb a c); lia.
Qed.

Lemma rfind_from_lower (c : ascii) (s : string) :
  forall i last, last <= i -> last <= Py.rfind_from i last s c.
Proof.
  induction s as [|a s IH]; intros i last H; simpl; [lia|].
  specialize (IH (i + 1) (if Ascii.eqb a c then i else last)).
  destruct (Ascii.eqb a c); lia.
Qed.

Lemma slice_from (pre rest : string) (b : Z) :
  Py.slice (pre ++ rest) (Py.len pre) b =
  substring 0 (Z.to_nat (Py.clip (pre ++ rest) b - Py.len pre)) rest.
Proof.
  unfold Py.slice.
  assert (E : Py.clip (pre ++ rest) (Py.len pre) = Py.len pre).
  { unfold Py.clip, Py.len. rewrite length_app_s.
    replace (Z.of_nat (String.length pre) <? 0) with false
      by (symmetry; apply Z.ltb_ge; lia).
    lia. }
  rewrite E. unfold Py.len at 1. rewrite Nat2Z.id.
  apply substring_skip_app.
Qed.

Lemma brace_span_head (t : string) :
  has_char "{" t = true ->
  brace_span t = "" \/ exists body, brace_span t = String "{" body.
Proof.
  intros H. destruct (has_char_split "{" t H) as (pre & rest & -> & Hpre).
  unfold brace_span, Py.find. rewrite find_from_first by exact Hpre.
  rewrite Z.add_0_l, slice_from.
  destruct (Z.to_nat _) as [|n]; [now left|].
  right. now eexists.
Qed.

Lemma brace_span_reversed (pre rest : string) :
  has_char "{" pre = false -> has_char "}" rest = false ->
  brace_span (pre ++ String "{" rest) = "".
Proof.
  intros Hpre Hrest. unfold brace_span, Py.find.
  rewrite find_from_first by exact Hpre. rewrite Z.add_0_l, slice_from.
  assert (R : Py.rfind (pre ++ String "{" rest) "}" < Py.len pre).
  { unfold Py.rfind. rewrite rfind_from_app_absent by exact Hrest.
    pose proof (rfind_from_bound "}" pre 0 (-1)). lia. }
  set (x := Py.clip _ _ - Py.len pre).
  assert (Hx : x <= 0).
  { pose proof (rfind_from_lower "}" (pre ++ String "{" rest) 0 (-1)) as Hl.
    fold (Py.rfind (pre ++ String "{" rest) "}") in Hl.
    unfold x, Py.clip, Py.len in *. rewrite length_app_s.
    destruct (_ <? 0) eqn:Hneg; [apply Z.ltb_lt in Hneg|]; lia. }
  replace (Z.to_nat x) with 0%nat by lia. now destruct rest.
Qed.

(** X8.  [extract_json] looks at nothing but the span from the first [{]
    to the last [}]: with text in front that holds no [{] and text behind
    that holds no [}], the result and the report are those for the bare
    span. *)
Theorem extract_json_ignores_surroundings
    (w : World) (pre body post : string) (st : session) :
  has_char "{" pre = false -> has_char "}" post = false ->
  extract_json w (pre ++ "{" ++ body ++ "}" ++ post) st =
  extract_json w ("{" ++ body ++ "}") st.
Proof.
  intros Hpre Hpost. rewrite !extract_json_cases.
  destruct (brace_span_object pre body post Hpre Hpost) as (F & R & B).
  destruct (brace_span_object "" body "" eq_refl eq_refl) as (F' & R' & B').
  rewrite app_nil_r_s in F', R', B'.
  change ("" ++ "{" ++ body ++ "}") with ("{" ++ body ++ "}") in F', R', B'.
  rewrite F, R, B, F', R', B'.
  replace (negb (Py.len pre =? -1)) with true
    by (symmetry; apply negb_true_iff, Z.eqb_neq; unfold Py.len; lia).
  replace (negb (Py.len pre + Py.len body + 1 =? -1)) with true
    by (symmetry; apply negb_true_iff, Z.eqb_neq; unfold Py.len; lia).
  replace (negb (Py.len "" + Py.len body + 1 =? -1)) with true
    by (symmetry; apply negb_true_iff, Z.eqb_neq; unfold Py.len; simpl; lia).
  reflexivity.
Qed.

Lemma extract_json_ignores_surroundings_witness :
  extract_json (stub_world None [])
    ("Here is the map: " ++ "{" ++ Fmt.dquote "'title':'Cats','nodes':[]" ++ "}"
       ++ " Enjoy!") fresh
  = extract_json (stub_world None [])
      ("{" ++ Fmt.dquote "'title':'Cats','nodes':[]" ++ "}") fresh.
Proof.
  apply (extract_json_ignores_surroundings (stub_world None [])
           "Here is the map: " (Fmt.dquote "'title':'Cats','nodes':[]")
           " Enjoy!" fresh);
    reflexivity.
Defined.

(** X9.  The order of the braces is not checked.  When every [}] of the
    text comes before its first [{], the span is empty: the decoder is
    handed the empty string, and its verdict on the empty string is the
    outcome. *)
Theorem extract_json_braces_reversed
    (w : World) (pre rest : string) (st : session) :
  has_char "{" pre = false -> has_char "}" pre = true ->
  has_char "}" rest = false ->
  brace_span (pre ++ String "{" rest) = ""
  /\ extract_json w (pre ++ String "{" rest) st =
     match json_loads w "" with
     | Ok v => (Ok (Some v), st)
     | Raise e =>
         (Ok None, log st [st_error (MsgExn "❗ Error parsing mind map: " e)])
     end.
Proof.
  intros Hpre Hclose Hrest.
  pose proof (brace_span_reversed pre rest Hpre Hrest) as B.
  split; [exact B|].
  rewrite extract_json_cases, B, braces_found; [reflexivity| |].
  - rewrite has_char_app. simpl. now rewrite orb_true_r.
  - rewrite has_char_app, Hclose. reflexivity.
Qed.

Lemma extract_json_braces_reversed_witness :
  extract_json (stub_world None []) ("} and " ++ String "{" " again") fresh =
    (Ok None,
     log fresh [st_error (MsgExn "❗ Error parsing mind map: "
                            (JSONDecodeError "Expecting value"))]).
Proof.
  apply (proj2 (extract_json_braces_reversed (stub_world None [])
                  "} and " " again" fresh eq_refl eq_refl eq_refl)).
Defined.

(** ** The reference decoder on texts that start with a brace *)

Ltac split_ascii c := destruct c as [[] [] [] [] [] [] [] []].

Lemma scan_members_object (fuel : nat) :
  forall acc s v r,
    Json.scan_members fuel acc s = Ok (v, r) -> exists ms, v = JObj ms.
Proof.
  induction fuel as [|fuel IH]; intros acc s v r H; [discriminate|].
  cbn [Json.scan_members] in H.
  destruct s as [|c s']; [discriminate|].
  destruct (Ascii.eqb c Json.dq); [|discriminate].
  destruct (Json.scan_string _ s') as [[k r0]|e]; [|discriminate].
  destruct (Json.skip_ws r0) as [|c1 r1]; [discriminate|].
  split_ascii c1; try discriminate H.
  destruct (Json.scan_value fuel (Json.skip_ws r1)) as [[v1 r2]|e];
    [|discriminate].
  destruct (Json.skip_ws r2) as [|c2 r3]; [discriminate|].
  split_ascii c2; try discriminate H;
    first [ exact (IH _ _ _ _ H) | injection H as <- _; now eexists ].
Qed.

Lemma scan_value_object (fuel : nat) (s : string) (v : json) (r : string) :
  Json.scan_value fuel (String "{" s) = Ok (v, r) -> exists ms, v = JObj ms.
Proof.
  destruct fuel as [|fuel]; [discriminate|].
  cbn [Json.scan_value]. change (Ascii.eqb "{" Json.dq) with false.
  change (Ascii.eqb "{" "{") with true. cbv iota.
  destruct (Json.skip_ws s) as [|c s'].
  - apply scan_members_object.
  - split_ascii c;
      first [ apply scan_members_object
            | intros H; injection H as <- _; now eexists ].
Qed.

Lemma loads_object (s : string) (v : json) :
  Json.loads (String "{" s) = Ok v -> exists ms, v = JObj ms.
Proof.
  unfold Json.loads.
  change (Json.after Json.BOM (String "{" s)) with (@None string).
  change (Json.skip_ws (String "{" s)) with (String "{" s).
  destruct (Json.scan_value _ (String "{" s)) as [[v' r]|e] eqn:V;
    [|discriminate].
  destruct (Json.skip_ws r); [|discriminate].
  intros [= <-]. exact (scan_value_object _ _ _ _ V).
Qed.

Lemma reference_decodes_objects (answer : option string)
    (captions : list fragment) :
  decodes_objects (stub_world answer captions).
Proof.
  split.
  - intros v. discriminate.
  - intros s v. apply loads_object.
Qed.

(** X10.  With a decoder in the manner of [json.loads], what
    [extract_json] returns is [None] or a dict, never a list, a string or
    a number: the text handed to the decoder is empty or starts with the
    first [{]. *)
Theorem extract_json_returns_object
    (w : World) (response_text : string) (st st' : session) (v : json) :
  decodes_objects w ->
  extract_json w response_text st = (Ok (Some v), st') ->
  exists ms, v = JObj ms.
Proof.
  intros [Hempty Hobj]. rewrite extract_json_cases.
  destruct (_ && _)%bool eqn:B; [|discriminate].
  apply braces_found_iff in B as [Ho _].
  destruct (json_loads w (brace_span response_text)) as [v'|e] eqn:L;
    [|discriminate].
  intros [= <- _].
  destruct (brace_span_head response_text Ho) as [E | [body E]];
    rewrite E in L.
  - now apply Hempty in L.
  - exact (Hobj body v' L).
Qed.

Lemma extract_json_returns_object_witness :
  exists ms, JObj [("a", JArr [JInt 1; JInt 2])] = JObj ms.
Proof.
  apply (extract_json_returns_object (stub_world None [])
           (Fmt.dquote "[0, {'a': [1, 2]} ]") fresh fresh
           (JObj [("a", JArr [JInt 1; JInt 2])])
           (reference_decodes_objects None [])).
  reflexivity.
Defined.

(** ** More on [create_mind_map_visual]: any input *)

Lemma eqb_euclid (x y z : json) :
  PyVal.eqb x y = true -> PyVal.eqb x z = true -> PyVal.eqb z y = true.
Proof.
  destruct x, y, z; simpl; try discriminate; unfold PyVal.int_of_bool;
    rewrite ?String.eqb_eq, ?Z.eqb_eq, ?Bool.eqb_true_iff;
    repeat match goal with b : bool |- _ => destruct b end;
    intros; subst; try reflexivity; try lia; try discriminate.
Qed.

Lemma eqb_id_refl (x : json) :
  PyVal.is_str_or_int x = true -> PyVal.eqb x x = true.
Proof.
  destruct x; simpl; try discriminate; intros _.
  - now destruct b.
  - apply Z.eqb_refl.
  - apply String.eqb_refl.
Qed.

Lemma count_id_absent (ns : list Node) (x y : json) :
  has_id ns y = false -> PyVal.eqb x y = true -> count_id ns x = 0%nat.
Proof.
  unfold has_id, count_id. induction ns as [|n ns IH]; [reflexivity|].
  simpl. intros H E. apply orb_false_iff in H as [Hn Hns].
  destruct (PyVal.eqb x (node_id n)) eqn:X.
  - pose proof (eqb_euclid x (node_id n) y X E). congruence.
  - now apply IH.
Qed.

Lemma new_network_well_formed (h wd bg fc : string) (d : bool) :
  well_formed (Pyvis.new h wd bg fc d).
Proof.
  repeat split; cbn; try contradiction. intros x. apply Nat.le_0_l.
Qed.

Lemma add_node_well_formed (net net' : Network) (n_id label : json)
    (color shape : string) (size : Z) :
  well_formed net ->
  Pyvis.add_node net n_id label color shape size = Ok net' ->
  well_formed net'
  /\ (forall x, has_id (nodes net) x = true -> has_id (nodes net') x = true)
  /\ has_id (nodes net') n_id = true.
Proof.
  intros (Hc & Hi & He). unfold Pyvis.add_node.
  destruct (PyVal.is_str_or_int n_id) eqn:I; [|discriminate].
  unfold Pyvis.has_node, Pyvis.node_ids. fold (has_id (nodes net) n_id).
  destruct (has_id (nodes net) n_id) eqn:Hn; intros [= <-].
  - repeat split; auto; now apply He.
  - unfold well_formed. cbn [Pyvis.with_nodes nodes edges]. repeat split.
    + intros x. rewrite count_id_app. unfold count_id at 2. cbn [filter node_id].
      destruct (PyVal.eqb x n_id) eqn:X; cbn [List.length].
      * rewrite (count_id_absent (nodes net) x n_id Hn X). lia.
      * specialize (Hc x). lia.
    + intros n Hin. apply in_app_or in Hin as [Hin | [<- | []]]; auto.
    + rewrite has_id_app. destruct (He e H) as [-> _]. reflexivity.
    + rewrite has_id_app. destruct (He e H) as [_ ->]. reflexivity.
    + intros x Hx. now rewrite has_id_app, Hx.
    + rewrite has_id_app. unfold has_id at 2. cbn.
      now rewrite (eqb_id_refl n_id I), orb_true_r.
Qed.

Lemma add_edge_well_formed (net net' : Network) (source to : json)
    (color : string) :
  well_formed net ->
  Pyvis.add_edge net source to color = Ok net' ->
  well_formed net' /\ nodes net' = nodes net.
Proof.
  intros (Hc & Hi & He). unfold Pyvis.add_edge, Pyvis.has_node, Pyvis.node_ids.
  fold (has_id (nodes net) source). fold (has_id (nodes net) to).
  destruct (has_id (nodes net) source) eqn:Hs; [|discriminate].
  destruct (has_id (nodes net) to) eqn:Ht; [|discriminate].
  cbn [negb]. destruct (if directed net then false else _); intros [= <-].
  - now repeat split; auto; apply He.
  - unfold well_formed. cbn [Pyvis.with_edges nodes edges].
    split; [|reflexivity].
    repeat split; auto;
      apply in_app_or in H as [H | [<- | []]];
      try (now apply He); assumption.
Qed.

Lemma for_each_keeps {A S : Type} (f : S -> A -> result S) (Inv : S -> Prop)
    (l : list A) :
  (forall s x s', Inv s -> f s x = Ok s' -> Inv s') ->
  forall s s', Inv s -> for_each f s l = Ok s' -> Inv s'.
Proof.
  intros Hf. induction l as [|x l IH]; intros s s' Hs.
  - now intros [= <-].
  - cbn [for_each]. destruct (f s x) as [s1|e] eqn:F; [|discriminate].
    cbn [rbind]. apply IH. exact (Hf s x s1 Hs F).
Qed.

Lemma add_child_well_formed (subtopic child : json) (net net' : Network) :
  well_formed net -> add_child subtopic net child = Ok net' ->
  well_formed net'.
Proof.
  intros W. unfold add_child.
  destruct (PyVal.subscript child "name") as [n|e]; [|discriminate].
  cbn [rbind].
  destruct (Pyvis.add_node net n n "lightblue" "ellipse" 20) as [net1|e] eqn:N;
    [|discriminate].
  cbn [rbind].
  destruct (PyVal.subscript subtopic "name") as [s|e]; [|discriminate].
  cbn [rbind]. intros E.
  destruct (add_node_well_formed _ _ _ _ _ _ _ W N) as (W1 & _).
  exact (proj1 (add_edge_well_formed _ _ _ _ _ W1 E)).
Qed.

Lemma add_subtopic_well_formed (root subtopic : json) (net net' : Network) :
  well_formed net -> add_subtopic root net subtopic = Ok net' ->
  well_formed net'.
Proof.
  intros W. unfold add_subtopic.
  destruct (PyVal.subscript subtopic "name") as [n|e]; [|discriminate].
  cbn [rbind].
  destruct (Pyvis.add_node net n n "green" "box" 30) as [net1|e] eqn:N;
    [|discriminate].
  cbn [rbind].
  destruct (Pyvis.add_edge net1 root n "blue") as [net2|e] eqn:E;
    [|discriminate].
  cbn [rbind].
  destruct (PyVal.subscript subtopic "children") as [cs|e]; [|discriminate].
  cbn [rbind]. destruct (PyVal.iter cs) as [children|e]; [|discriminate].
  cbn [rbind].
  destruct (add_node_well_formed _ _ _ _ _ _ _ W N) as (W1 & _).
  destruct (add_edge_well_formed _ _ _ _ _ W1 E) as (W2 & _).
  apply (for_each_keeps (add_child subtopic) well_formed children); [|exact W2].
  intros s x s' Hs. now apply add_child_well_formed.
Qed.

Lemma build_network_well_formed (data : json) (net : Network) :
  build_network data = Ok net -> well_formed net.
Proof.
  unfold build_network.
  destruct (PyVal.subscript data "title") as [t|e]; [|discriminate].
  cbn [rbind].
  destruct (Pyvis.add_node _ t t "orange" "circle" 40) as [net1|e] eqn:N;
    [|discriminate].
  cbn [rbind].
  destruct (PyVal.subscript data "nodes") as [ns|e]; [|discriminate].
  cbn [rbind]. destruct (PyVal.iter ns) as [subtopics|e]; [|discriminate].
  cbn [rbind].
  destruct (add_node_well_formed _ _ _ _ _ _ _
              (new_network_well_formed _ _ _ _ _) N) as (W1 & _).
  apply (for_each_keeps (add_subtopic t) well_formed subtopics); [|exact W1].
  intros s x s' Hs. now apply add_subtopic_well_formed.
Qed.

(** X11.  Whatever the input, a run of [create_mind_map_visual] that
    returns has saved one graph, under the name [mind_map.html], in which
    no two nodes have equal ids, every id is a string or an integer, and
    every edge joins two nodes of the graph. *)
Theorem saved_graph_is_well_formed (data : json) (st st' : session) :
  create_mind_map_visual data st = (Ok tt, st') ->
  exists net,
    build_network data = Ok net
    /\ st' = log st [save_graph net "mind_map.html"]
    /\ well_formed net.
Proof.
  rewrite create_mind_map_visual_run.
  destruct (build_network data) as [net|e] eqn:B; [|discriminate].
  intros [= <-]. exists net. repeat split.
  all: now apply (build_network_well_formed data net B).
Qed.

Lemma saved_graph_is_well_formed_witness :
  exists net,
    build_network
      (mind_map_json
         (mkMindMap "Cats"
            [mkSubtopic "Cats" ["Pets"; "Pets"]; mkSubtopic "Pets" ["Cats"]]))
      = Ok net
    /\ log fresh [save_graph
                    (net_of [root_node "Cats"; leaf_node "Pets"]
                       [root_edge "Cats" "Cats"; leaf_edge "Cats" "Pets";
                        leaf_edge "Cats" "Pets"; root_edge "Cats" "Pets";
                        leaf_edge "Pets" "Cats"])
                    "mind_map.html"]
       = log fresh [save_graph net "mind_map.html"]
    /\ well_formed net.
Proof.
  apply (saved_graph_is_well_formed
           (mind_map_json
              (mkMindMap "Cats"
                 [mkSubtopic "Cats" ["Pets"; "Pets"]; mkSubtopic "Pets" ["Cats"]]))
           fresh).
  reflexivity.
Defined.

(** ** More on [create_mind_map_visual]: mind maps *)

Lemma fold_insert_prefix (l : list Node) :
  forall ns, exists rest, fold_left insert_node l ns = (ns ++ rest)%list.
Proof.
  induction l as [|n l IH]; intros ns.
  - exists []. cbn. now rewrite app_nil_r.
  - cbn [fold_left]. destruct (IH (insert_node ns n)) as [rest E].
    rewrite E. unfold insert_node. destruct (has_id ns (node_id n)).
    + now exists rest.
    + exists (n :: rest). now rewrite <- app_assoc.
Qed.

Lemma fold_insert_in (l : list Node) (x : Node) :
  forall ns, In x (fold_left insert_node l ns) -> In x ns \/ In x l.
Proof.
  induction l as [|n l IH]; intros ns H; [now left|].
  cbn [fold_left] in H. apply IH in H as [H | H]; [|right; now right].
  unfold insert_node in H. destruct (has_id ns (node_id n)); [now left|].
  apply in_app_or in H as [H | [<- | []]]; [now left | right; now left].
Qed.

Lemma fold_insert_length (l : list Node) :
  forall ns,
    (List.length (fold_left insert_node l ns)
     <= List.length ns + List.length l)%nat.
Proof.
  induction l as [|n l IH]; intros ns; cbn [fold_left List.length]; [lia|].
  specialize (IH (insert_node ns n)). unfold insert_node in *.
  destruct (has_id ns (node_id n)); [lia|].
  rewrite length_app in IH. cbn in IH. lia.
Qed.

Lemma has_id_in (ns : list Node) (a : string) :
  has_id ns (JStr a) = true -> In (JStr a) (map node_id ns).
Proof.
  unfold has_id. intros H. apply existsb_exists in H as (y & Hy & E).
  destruct y; try discriminate. apply String.eqb_eq in E as ->. exact Hy.
Qed.

Lemma fold_insert_fresh (l : list Node) :
  Forall str_id l ->
  forall ns, NoDup (map node_id (ns ++ l)) ->
    fold_left insert_node l ns = (ns ++ l)%list.
Proof.
  induction 1 as [|n l [a Hn] _ IH]; intros ns D.
  - cbn. now rewrite app_nil_r.
  - cbn [fold_left]. unfold insert_node.
    destruct (has_id ns (node_id n)) eqn:H.
    + exfalso. rewrite Hn in H. apply has_id_in in H.
      rewrite map_app in D. cbn [map] in D. rewrite Hn in D.
      apply NoDup_remove_2 in D. apply D, in_or_app. now left.
    + rewrite IH; [now rewrite <- app_assoc|].
      now rewrite <- app_assoc.
Qed.

Lemma sub_nodes_ids (ss : list Subtopic) :
  map node_id (flat_map sub_nodes ss) =
  map JStr (flat_map (fun s => sub_name s :: sub_children s) ss).
Proof.
  induction ss as [|s ss IH]; [reflexivity|].
  cbn [flat_map]. rewrite !map_app, IH. f_equal.
  unfold sub_nodes. cbn [map sub_node node_id]. f_equal.
  rewrite !map_map. reflexivity.
Qed.

Lemma sub_edges_length (root : string) (ss : list Subtopic) :
  List.length (flat_map (sub_edges root) ss) =
  List.length (flat_map (fun s => sub_name s :: sub_children s) ss).
Proof.
  induction ss as [|s ss IH]; [reflexivity|].
  cbn [flat_map]. rewrite !length_app, IH. f_equal.
  unfold sub_edges. cbn [List.length]. now rewrite length_map.
Qed.

Lemma sub_nodes_length (ss : list Subtopic) :
  List.length (flat_map sub_nodes ss) =
  List.length (flat_map (fun s => sub_name s :: sub_children s) ss).
Proof.
  induction ss as [|s ss IH]; [reflexivity|].
  cbn [flat_map]. rewrite !length_app, IH. f_equal.
  unfold sub_nodes. cbn [List.length]. now rewrite length_map.
Qed.

Lemma NoDup_map_JStr (l : list string) : NoDup l -> NoDup (map JStr l).
Proof.
  induction 1 as [|a l Ha _ IH]; cbn [map]; constructor; [|exact IH].
  intros Hin. apply in_map_iff in Hin as (b & [= ->] & Hb). now apply Ha.
Qed.

(** X12.  The first node of the saved graph is the root, drawn as the
    root, and it is the only node with the title for its name: a
    subtopic or a key point that is named like the title does not replace
    or restyle it. *)
Theorem root_stays_root (data : json) (m : MindMap) (st : session) :
  is_mind_map data m ->
  exists net rest,
    create_mind_map_visual data st =
      (Ok tt, log st [save_graph net "mind_map.html"])
    /\ nodes net = root_node (title m) :: rest
    /\ nodes_named net (title m) = [root_node (title m)].
Proof.
  intros H. rewrite create_mind_map_visual_run, (build_network_graph_of data m H).
  destruct (fold_insert_prefix (flat_map sub_nodes (subtopics m))
              [root_node (title m)]) as [rest E].
  exists (graph_of m), rest. split; [reflexivity|].
  split; [exact E|].
  pose proof (graph_of_one_node m (title m) (or_introl eq_refl)) as L.
  unfold nodes_named in *. cbn [graph_of net_of nodes] in *. rewrite E in *.
  cbn [List.app filter root_node node_id] in *. rewrite eqb_str_refl in *.
  cbn [List.length] in L.
  destruct (filter _ rest); [reflexivity | discriminate].
Qed.

Lemma root_stays_root_witness :
  exists net rest,
    create_mind_map_visual
      (mind_map_json
         (mkMindMap "Cats" [mkSubtopic "Cats" ["Pets"]; mkSubtopic "Pets" ["Cats"]]))
      fresh = (Ok tt, log fresh [save_graph net "mind_map.html"])
    /\ nodes net = root_node "Cats" :: rest
    /\ nodes_named net "Cats" = [root_node "Cats"].
Proof.
  apply (root_stays_root
           (mind_map_json
              (mkMindMap "Cats"
                 [mkSubtopic "Cats" ["Pets"]; mkSubtopic "Pets" ["Cats"]]))
           (mkMindMap "Cats" [mkSubtopic "Cats" ["Pets"]; mkSubtopic "Pets" ["Cats"]])
           fresh).
  apply mind_map_json_ok.
Defined.

(** X13.  Edges are never merged: the saved graph has one edge per
    subtopic and one per key point, repeated names included.  The nodes
    are at most one more than the edges; when all names of the mind map
    differ they are exactly the root followed, subtopic by subtopic, by
    the subtopic and its key points. *)
Theorem graph_size (data : json) (m : MindMap) (st : session) :
  is_mind_map data m ->
  exists net,
    create_mind_map_visual data st =
      (Ok tt, log st [save_graph net "mind_map.html"])
    /\ S (List.length (edges net)) = List.length (names m)
    /\ (List.length (nodes net) <= S (List.length (edges net)))%nat
    /\ (NoDup (names m) ->
        nodes net = root_node (title m) :: flat_map sub_nodes (subtopics m)).
Proof.
  intros H. rewrite create_mind_map_visual_run, (build_network_graph_of data m H).
  exists (graph_of m). split; [reflexivity|].
  cbn [graph_of net_of nodes edges]. unfold names. cbn [List.length].
  split; [now rewrite sub_edges_length|]. split.
  - pose proof (fold_insert_length (flat_map sub_nodes (subtopics m))
                  [root_node (title m)]) as L.
    cbn [List.length] in L. rewrite sub_nodes_length in L.
    rewrite sub_edges_length. lia.
  - intros D.
    rewrite (fold_insert_fresh (flat_map sub_nodes (subtopics m))
               (sub_nodes_str (subtopics m)) [root_node (title m)]);
      [reflexivity|].
    cbn [List.app map root_node node_id]. rewrite sub_nodes_ids.
    change (NoDup (map JStr (title m
              :: flat_map (fun s => sub_name s :: sub_children s) (subtopics m)))).
    now apply NoDup_map_JStr.
Qed.

Lemma graph_size_witness :
  exists net,
    create_mind_map_visual
      (mind_map_json
         (mkMindMap "Cats"
            [mkSubtopic "Biology" ["Mammal"]; mkSubtopic "Pets" ["Food"; "Toys"]]))
      fresh = (Ok tt, log fresh [save_graph net "mind_map.html"])
    /\ S (List.length (edges net)) = 6%nat
    /\ nodes net =
       [root_node "Cats"; sub_node "Biology"; leaf_node "Mammal";
        sub_node "Pets"; leaf_node "Food"; leaf_node "Toys"].
Proof.
  destruct (graph_size
              (mind_map_json
                 (mkMindMap "Cats"
                    [mkSubtopic "Biology" ["Mammal"];
                     mkSubtopic "Pets" ["Food"; "Toys"]]))
              (mkMindMap "Cats"
                 [mkSubtopic "Biology" ["Mammal"];
                  mkSubtopic "Pets" ["Food"; "Toys"]])
              fresh (mind_map_json_ok _))
    as (net & Hrun & He & _ & Hn).
  exists net. split; [exact Hrun|]. split; [exact He|].
  apply Hn. cbv [names title subtopics flat_map sub_name sub_children List.app].
  repeat (constructor; [cbn; intuition discriminate|]). constructor.
Defined.

(** X14.  Every node of the saved graph is the root, or is entered by
    an edge from the root, or is entered by an edge from a node that the
    root has an edge to: no node is left unconnected or deeper than two
    edges. *)
Theorem every_node_near_root (data : json) (m : MindMap) (st : session) :
  is_mind_map data m ->
  exists net,
    create_mind_map_visual data st =
      (Ok tt, log st [save_graph net "mind_map.html"])
    /\ forall n, In n (nodes net) ->
         near_root net (JStr (title m)) (node_id n).
Proof.
  intros H. rewrite create_mind_map_visual_run, (build_network_graph_of data m H).
  exists (graph_of m). split; [reflexivity|].
  intros n Hn. cbn [graph_of net_of nodes] in Hn.
  apply fold_insert_in in Hn as [[<- | []] | Hn]; [now left|].
  apply in_flat_map in Hn as (s & Hs & Hn).
  assert (Hroot : has_edge (graph_of m) (JStr (title m)) (JStr (sub_name s))).
  { exists (root_edge (title m) (sub_name s)). split; [|now split].
    cbn [graph_of net_of edges]. apply in_flat_map. exists s.
    split; [exact Hs | now left]. }
  destruct Hn as [<- | Hn]; [right; now left|].
  apply in_map_iff in Hn as (c & <- & Hc).
  right. right. exists (JStr (sub_name s)). split; [exact Hroot|].
  exists (leaf_edge (sub_name s) c). split; [|now split].
  cbn [graph_of net_of edges]. apply in_flat_map. exists s.
  split; [exact Hs|]. right. now apply in_map.
Qed.

Lemma every_node_near_root_witness :
  exists net,
    create_mind_map_visual
      (mind_map_json (mkMindMap "Cats" [mkSubtopic "Biology" ["Mammal"]]))
      fresh = (Ok tt, log fresh [save_graph net "mind_map.html"])
    /\ forall n, In n (nodes net) -> near_root net (JStr "Cats") (node_id n).
Proof.
  apply (every_node_near_root
           (mind_map_json (mkMindMap "Cats" [mkSubtopic "Biology" ["Mammal"]]))
           (mkMindMap "Cats" [mkSubtopic "Biology" ["Mammal"]]) fresh).
  apply mind_map_json_ok.
Defined.

(** ** The handler, stage by stage *)

Lemma truthy_nonempty (s : string) : s <> "" -> Py.truthy s = true.
Proof. now destruct s. Qed.

Lemma on_generate_with_id
    (w : World) (youtube_url video_id : string) (view : bool) (st : session) :
  youtube_url <> "" -> get_video_id youtube_url = Some video_id ->
  on_generate w youtube_url view st =
  bind (extract_transcript w video_id) (use_transcript w view) st.
Proof.
  intros Hurl Hid. unfold on_generate.
  rewrite (truthy_nonempty youtube_url Hurl). cbn [negb].
  rewrite Hid, (video_id_truthy youtube_url video_id Hid). reflexivity.
Qed.

Lemma use_transcript_some
    (w : World) (view : bool) (transcript : string) (st : session) :
  transcript <> "" ->
  use_transcript w view (Some transcript) st =
  bind (generate_summary w transcript) (show_summary w view) st.
Proof.
  intros H. unfold use_transcript. now rewrite (truthy_nonempty transcript H).
Qed.

Lemma show_summary_some
    (w : World) (view : bool) (s : string) (st : session) :
  s <> "" ->
  show_summary w view s st =
  bind (generate_mind_map w s) (show_mind_map view)
    (log (mkSession s (mind_map_data st) (trace st))
       [st_markdown (Msg "## ✨ Summary:"); st_write (Msg s)]).
Proof.
  intros H. unfold show_summary. rewrite (truthy_nonempty s H).
  unfold bind at 1. cbn [set_summary]. rewrite !bind_emit, log_log.
  reflexivity.
Qed.

Lemma is_mind_map_truthy (data : json) (m : MindMap) :
  is_mind_map data m -> PyVal.truthy data = true.
Proof.
  intros (Ht & _). destruct data as [| | | | |l|ms]; try discriminate.
  now destruct ms.
Qed.

Lemma show_mind_map_ok (view : bool) (data : json) (m : MindMap)
    (st : session) :
  is_mind_map data m ->
  show_mind_map view (Some data) st =
  (Ok tt,
   log (mkSession (summary st) (Some data) (trace st))
     ([save_graph (graph_of m) "mind_map.html";
       st_success (Msg "✅ Mind map generated successfully!")]
        ++ (if view then [st_switch_page "pages/mind_map.py"] else []))).
Proof.
  intros H. unfold show_mind_map. rewrite (is_mind_map_truthy data m H).
  unfold bind at 1. cbn [set_mind_map_data]. unfold bind at 1.
  rewrite create_mind_map_visual_run, (build_network_graph_of data m H).
  rewrite bind_emit, log_log.
  destruct view; unfold emit, ret, log;
    cbn [summary mind_map_data trace List.app];
    rewrite <- ?app_assoc; reflexivity.
Qed.

Lemma show_mind_map_nothing (view : bool) (st : session) :
  show_mind_map view None st =
  (Ok tt, log st [st_error (Msg "❗ Error generating mind map.")]).
Proof. reflexivity. Qed.

(** X15.  The handler stops before any request to the model in three
    cases.  Without a video id it contacts no service at all: it shows one
    warning for an empty address, one error for an address in which no id
    is found.  When the transcript service raises, it shows the error.
    When the transcript comes back empty (no fragment, or only empty
    texts) it stops without a message. *)
Theorem handler_stops_early
    (w : World) (youtube_url : string) (view_clicked : bool) (st : session) :
  (get_video_id youtube_url = None ->
   on_generate w youtube_url view_clicked st =
     (Ok tt,
      log st [if Py.truthy youtube_url
              then st_error (Msg "❗ Invalid YouTube URL.")
              else st_warning (Msg "⚠️ Please enter a YouTube URL.")]))
  /\ (forall video_id e,
        youtube_url <> "" -> get_video_id youtube_url = Some video_id ->
        get_transcript w video_id = Raise e ->
        on_generate w youtube_url view_clicked st =
          (Ok tt,
           log st [transcript_request video_id;
                   st_error (MsgExn "❗ Error fetching transcript: " e)]))
  /\ (forall video_id captions,
        youtube_url <> "" -> get_video_id youtube_url = Some video_id ->
        get_transcript w video_id = Ok captions ->
        spaced_texts captions = "" ->
        on_generate w youtube_url view_clicked st =
          (Ok tt, log st [transcript_request video_id])).
Proof.
  split; [|split].
  - intros H. unfold on_generate. rewrite H.
    now destruct (Py.truthy youtube_url).
  - intros video_id e Hurl Hid G.
    rewrite (on_generate_with_id w youtube_url video_id view_clicked st Hurl Hid).
    unfold bind. now rewrite (extract_transcript_fail w video_id e st G).
  - intros video_id captions Hurl Hid G E.
    rewrite (on_generate_with_id w youtube_url video_id view_clicked st Hurl Hid).
    unfold bind.
    rewrite (extract_transcript_run w video_id captions st G), E. reflexivity.
Qed.

Lemma handler_stops_early_witness :
  on_generate cats_world "https://example.org/cats" true fresh =
    (Ok tt, log fresh [st_error (Msg "❗ Invalid YouTube URL.")])
  /\ on_generate no_captions_world "https://youtu.be/dQw4w9WgXcQ" false fresh =
       (Ok tt,
        log fresh
          [transcript_request "dQw4w9WgXcQ";
           st_error (MsgExn "❗ Error fetching transcript: "
                       (OtherError "TranscriptsDisabled"
                          "Subtitles are disabled for this video"))])
  /\ on_generate (stub_world None []) "https://youtu.be/dQw4w9WgXcQ" false fresh =
       (Ok tt, log fresh [transcript_request "dQw4w9WgXcQ"]).
Proof.
  split; [|split].
  - apply (proj1 (handler_stops_early cats_world "https://example.org/cats"
                    true fresh)).
    reflexivity.
  - apply (proj1 (proj2 (handler_stops_early no_captions_world
                           "https://youtu.be/dQw4w9WgXcQ" false fresh))
             "dQw4w9WgXcQ");
      [discriminate | reflexivity | reflexivity].
  - apply (proj2 (proj2 (handler_stops_early (stub_world None [])
                           "https://youtu.be/dQw4w9WgXcQ" false fresh))
             "dQw4w9WgXcQ" []);
      [discriminate | reflexivity | reflexivity | reflexivity].
Defined.

Lemma handler_after_summary
    (w : World) (youtube_url video_id : string) (captions : list fragment)
    (s : string) (view : bool) (st : session) :
  youtube_url <> "" -> get_video_id youtube_url = Some video_id ->
  get_transcript w video_id = Ok captions -> spaced_texts captions <> "" ->
  generate_content w MODEL (PROMPT_SUMMARY ++ spaced_texts captions)
    = Ok (mkResponse (Some s)) ->
  s <> "" ->
  on_generate w youtube_url view st =
  bind (generate_mind_map w s) (show_mind_map view)
    (mkSession s (mind_map_data st)
       (trace st
          ++ [transcript_request video_id;
              model_request MODEL (PROMPT_SUMMARY ++ spaced_texts captions);
              st_markdown (Msg "## ✨ Summary:");
              st_write (Msg s)])).
Proof.
  intros Hurl Hid Hcap Htext Hgen Hs.
  rewrite (on_generate_with_id w youtube_url video_id view st Hurl Hid).
  unfold bind at 1. rewrite (extract_transcript_run w video_id captions st Hcap).
  rewrite (use_transcript_some w view _ _ Htext).
  unfold bind at 1. rewrite generate_summary_run, Hgen. cbn [resp_text].
  rewrite (truthy_nonempty s Hs), (show_summary_some w view s _ Hs).
  unfold log. cbn [summary mind_map_data trace].
  now rewrite <- !app_assoc.
Qed.

Lemma goes_through_run
    (w : World) (youtube_url video_id : string) (captions : list fragment)
    (summary_text : string) (data : json) (m : MindMap)
    (view_clicked : bool) (st : session) :
  goes_through w youtube_url video_id captions summary_text data m ->
  on_generate w youtube_url view_clicked st =
    (Ok tt,
     mkSession summary_text (Some data)
       (trace st ++ run_events video_id captions summary_text m view_clicked)).
Proof.
  intros (Hurl & Hid & Hcap & Htext & Hgen & Hs & (t & Hmm & Ho & Hc & L) & Hm).
  rewrite (handler_after_summary w youtube_url video_id captions summary_text
             view_clicked st Hurl Hid Hcap Htext Hgen Hs).
  unfold bind at 1. rewrite generate_mind_map_run, Hmm. cbn [resp_text].
  replace (Py.truthy t) with true by (now destruct t).
  rewrite extract_json_cases, (braces_found t Ho Hc), L.
  rewrite (show_mind_map_ok view_clicked data m _ Hm).
  unfold log, run_events. cbn [summary mind_map_data trace].
  rewrite <- !app_assoc. reflexivity.
Qed.

(** X16.  A run that goes through: with an id in the address, a
    transcript, a summary from the model and a mind-map answer whose span
    decodes to a mind map [m], the handler returns normally; the session
    then holds the summary and the decoded data, and what happened is, in
    this order: the transcript request, the summary request, the summary
    shown, the mind-map request built from the summary, the graph of [m]
    saved, the success message.  The nested button is taken as not
    pressed: it is drawn for the first time in such a run. *)
Theorem handler_goes_through
    (w : World) (youtube_url video_id : string) (captions : list fragment)
    (summary_text : string) (data : json) (m : MindMap) (st : session) :
  goes_through w youtube_url video_id captions summary_text data m ->
  on_generate w youtube_url false st =
    (Ok tt,
     mkSession summary_text (Some data)
       (trace st ++ run_events video_id captions summary_text m false)).
Proof.
  apply goes_through_run.
Qed.

Lemma cats_go_through :
  goes_through cats_world "https://www.youtube.com/watch?v=dQw4w9WgXcQ"
    "dQw4w9WgXcQ" cats_captions
    "- Cats are mammals
- Cats are popular pets"
    (mind_map_json (mkMindMap "Cats" [mkSubtopic "Biology" ["Mammal"]]))
    (mkMindMap "Cats" [mkSubtopic "Biology" ["Mammal"]]).
Proof.
  repeat split; try discriminate; try reflexivity.
  - eexists. repeat split; reflexivity.
  - eexists. split; [reflexivity|]. repeat constructor.
    eexists. split; [reflexivity|]. repeat constructor.
Defined.

Lemma handler_goes_through_witness :
  on_generate cats_world "https://www.youtube.com/watch?v=dQw4w9WgXcQ" false fresh
  = (Ok tt,
     mkSession
       "- Cats are mammals
- Cats are popular pets"
       (Some (mind_map_json (mkMindMap "Cats" [mkSubtopic "Biology" ["Mammal"]])))
       (trace fresh
          ++ run_events "dQw4w9WgXcQ" cats_captions
               "- Cats are mammals
- Cats are popular pets"
               (mkMindMap "Cats" [mkSubtopic "Biology" ["Mammal"]]) false)).
Proof.
  apply (handler_goes_through cats_world _ _ _ _ _ _ fresh cats_go_through).
Defined.

Lemma summarised_run
    (w : World) (youtube_url video_id : string) (captions : list fragment)
    (s : string) (view : bool) (st : session) :
  summarised w youtube_url video_id captions s ->
  on_generate w youtube_url view st =
  match generate_content w MODEL (mind_map_prompt s) with
  | Ok answer =>
      bind
        (fun st1 =>
           match resp_text answer with
           | Some t =>
               if Py.truthy t then extract_json w t st1
               else
                 (Ok None,
                  log st1 [st_error (Msg "❗ Error: Empty response from the Gemini API.")])
           | None =>
               (Ok None,
                log st1 [st_error (Msg "❗ Error: Empty response from the Gemini API.")])
           end)
        (show_mind_map view)
        (mkSession s (mind_map_data st)
           (trace st ++ summary_events video_id captions s))
  | Raise e =>
      (Raise e,
       mkSession s (mind_map_data st)
         (trace st ++ summary_events video_id captions s))
  end.
Proof.
  intros (Hurl & Hid & Hcap & Htext & Hgen & Hs).
  rewrite (handler_after_summary w youtube_url video_id captions s view st
             Hurl Hid Hcap Htext Hgen Hs).
  unfold bind at 1. rewrite generate_mind_map_run.
  unfold summary_events, log. cbn [summary mind_map_data trace].
  rewrite <- !app_assoc. cbn [List.app].
  destruct (generate_content w MODEL (mind_map_prompt s)) as [answer|e];
    [|reflexivity].
  unfold bind. destruct (resp_text answer) as [t|].
  - destruct (Py.truthy t); [reflexivity|].
    cbn [summary mind_map_data trace]. now rewrite <- !app_assoc.
  - cbn [summary mind_map_data trace]. now rewrite <- !app_assoc.
Qed.

(** X17.  When the mind-map stage yields nothing (empty answer, no
    brace, or a span the decoder rejects), the handler returns normally
    after two error messages, the stage's own and its general one.  The
    summary of this run stays stored in the session and shown; the stored
    mind map is left as it was and no graph is saved. *)
Theorem handler_keeps_summary
    (w : World) (youtube_url video_id : string) (captions : list fragment)
    (summary_text : string) (answer : response) (report : message)
    (view_clicked : bool) (st : session) :
  summarised w youtube_url video_id captions summary_text ->
  generate_content w MODEL (mind_map_prompt summary_text) = Ok answer ->
  no_mind_map w answer report ->
  on_generate w youtube_url view_clicked st =
    (Ok tt,
     mkSession summary_text (mind_map_data st)
       (trace st
          ++ summary_events video_id captions summary_text
          ++ [st_error report; st_error (Msg "❗ Error generating mind map.")])).
Proof.
  intros Hsum Hgen Hno.
  rewrite (summarised_run w youtube_url video_id captions summary_text
             view_clicked st Hsum), Hgen.
  set (st1 := mkSession _ _ _).
  assert (E : forall r : result (option json) * session,
             r = (Ok None, log st1 [st_error report]) ->
             (let (x, st') := r in
              match x with
              | Ok a => show_mind_map view_clicked a st'
              | Raise e => (Raise e, st')
              end) =
             (Ok tt,
              mkSession summary_text (mind_map_data st)
                (trace st
                   ++ summary_events video_id captions summary_text
                   ++ [st_error report;
                       st_error (Msg "❗ Error generating mind map.")]))).
  { intros r ->. rewrite show_mind_map_nothing. unfold st1, log.
    cbn [summary mind_map_data trace]. now rewrite <- !app_assoc. }
  unfold bind. apply E.
  destruct Hno as [[Hf ->] | (t & Ht & Hne & Hcase)].
  - destruct (resp_text answer) as [t|]; [|reflexivity].
    cbn in Hf. now rewrite Hf.
  - rewrite Ht, (truthy_nonempty t Hne), extract_json_cases.
    destruct Hcase as [[Hb ->] | (Ho & Hc & e & L & ->)].
    + replace (negb (Py.find t "{" =? -1) && negb (Py.rfind t "}" =? -1))%bool
        with false; [reflexivity|].
      symmetry. apply not_true_is_false. intros B.
      apply braces_found_iff in B as [Ho Hc]. destruct Hb; congruence.
    + now rewrite (braces_found t Ho Hc), L.
Qed.

Lemma prose_world_summarised :
  summarised prose_world "https://youtu.be/dQw4w9WgXcQ" "dQw4w9WgXcQ"
    cats_captions "- Cats are mammals".
Proof. repeat split; try discriminate; reflexivity. Defined.

Lemma handler_keeps_summary_witness :
  on_generate prose_world "https://youtu.be/dQw4w9WgXcQ" false fresh =
    (Ok tt,
     mkSession "- Cats are mammals" None
       (summary_events "dQw4w9WgXcQ" cats_captions "- Cats are mammals"
          ++ [st_error (MsgExn "❗ Error parsing mind map: "
                          (ValueError "No valid JSON found in the response."));
              st_error (Msg "❗ Error generating mind map.")])).
Proof.
  apply (handler_keeps_summary prose_world "https://youtu.be/dQw4w9WgXcQ"
           "dQw4w9WgXcQ" cats_captions "- Cats are mammals"
           (mkResponse (Some "Sorry, I cannot draw that.")) _ false fresh
           prose_world_summarised eq_refl).
  right. exists "Sorry, I cannot draw that.".
  split; [reflexivity|]. split; [discriminate|].
  left. split; [now left | reflexivity].
Defined.

Lemma summary_exception_run
    (w : World) (youtube_url video_id : string) (captions : list fragment)
    (e : exn) (view : bool) (st : session) :
  youtube_url <> "" -> get_video_id youtube_url = Some video_id ->
  get_transcript w video_id = Ok captions -> spaced_texts captions <> "" ->
  generate_content w MODEL (PROMPT_SUMMARY ++ spaced_texts captions) = Raise e ->
  on_generate w youtube_url view st =
    (Raise e,
     log st [transcript_request video_id;
             model_request MODEL (PROMPT_SUMMARY ++ spaced_texts captions)]).
Proof.
  intros Hurl Hid Hcap Htext Hgen.
  rewrite (on_generate_with_id w youtube_url video_id view st Hurl Hid).
  unfold bind at 1.
  rewrite (extract_transcript_run w video_id captions st Hcap).
  rewrite (use_transcript_some w view _ _ Htext).
  unfold bind. rewrite generate_summary_run, Hgen. now rewrite log_log.
Qed.

(** X18.  An exception of the model is not caught.  Raised by the
    summary request it escapes the handler before anything is shown or
    stored; raised by the mind-map request it escapes after the summary
    has been stored and shown. *)
Theorem model_exception_escapes
    (w : World) (youtube_url video_id : string) (captions : list fragment)
    (e : exn) (view_clicked : bool) (st : session) :
  youtube_url <> "" -> get_video_id youtube_url = Some video_id ->
  get_transcript w video_id = Ok captions -> spaced_texts captions <> "" ->
  (generate_content w MODEL (PROMPT_SUMMARY ++ spaced_texts captions) = Raise e ->
   on_generate w youtube_url view_clicked st =
     (Raise e,
      log st [transcript_request video_id;
              model_request MODEL (PROMPT_SUMMARY ++ spaced_texts captions)]))
  /\ (forall s,
        generate_content w MODEL (PROMPT_SUMMARY ++ spaced_texts captions)
          = Ok (mkResponse (Some s)) ->
        s <> "" ->
        generate_content w MODEL (mind_map_prompt s) = Raise e ->
        on_generate w youtube_url view_clicked st =
          (Raise e,
           mkSession s (mind_map_data st)
             (trace st ++ summary_events video_id captions s))).
Proof.
  intros Hurl Hid Hcap Htext. split.
  - now apply summary_exception_run.
  - intros s Hgen Hs Hmm.
    rewrite (summarised_run w youtube_url video_id captions s view_clicked st),
      Hmm; [reflexivity|].
    now repeat split.
Qed.

Lemma model_exception_escapes_witness :
  on_generate offline_model_world "https://youtu.be/dQw4w9WgXcQ" false fresh =
    (Raise (OtherError "ServiceUnavailable" "503 Service Unavailable"),
     log fresh
       [transcript_request "dQw4w9WgXcQ";
        model_request MODEL
          (PROMPT_SUMMARY ++ "Cats are mammals. Cats are popular pets.")]).
Proof.
  apply (proj1 (model_exception_escapes offline_model_world
                  "https://youtu.be/dQw4w9WgXcQ" "dQw4w9WgXcQ" cats_captions
                  (OtherError "ServiceUnavailable" "503 Service Unavailable")
                  false fresh ltac:(discriminate) eq_refl eq_refl
                  ltac:(discriminate))).
  reflexivity.
Defined.

(** ** What the handler never does *)

Lemma traces_ret (P : event -> Prop) {A : Type} (a : A) : traces P (ret a).
Proof. intros st. exists []. cbn. now rewrite app_nil_r. Qed.

Lemma traces_lift (P : event -> Prop) {A : Type} (r : result A) :
  traces P (lift r).
Proof. intros st. exists []. cbn. now rewrite app_nil_r. Qed.

Lemma traces_emit (P : event -> Prop) (ev : event) :
  P ev -> traces P (emit ev).
Proof. intros H st. exists [ev]. split; [reflexivity | now constructor]. Qed.

Lemma traces_set_summary (P : event -> Prop) (s : string) :
  traces P (set_summary s).
Proof. intros st. exists []. cbn. now rewrite app_nil_r. Qed.

Lemma traces_set_mind_map_data (P : event -> Prop) (d : json) :
  traces P (set_mind_map_data d).
Proof. intros st. exists []. cbn. now rewrite app_nil_r. Qed.

Lemma traces_bind_post (P : event -> Prop) {A B : Type} (Q : A -> Prop)
    (m : M A) (f : A -> M B) :
  traces P m ->
  (forall st a st', m st = (Ok a, st') -> Q a) ->
  (forall a, Q a -> traces P (f a)) ->
  traces P (bind m f).
Proof.
  intros Hm HQ Hf st. unfold bind. destruct (Hm st) as (evs & E & F).
  destruct (m st) as [[a|e] st1] eqn:R; cbn in E.
  - destruct (Hf a (HQ st a st1 R) st1) as (evs' & E' & F').
    exists (evs ++ evs')%list. split; [now rewrite E', E, app_assoc|].
    apply Forall_app. now split.
  - now exists evs.
Qed.

Lemma traces_bind (P : event -> Prop) {A B : Type} (m : M A) (f : A -> M B) :
  traces P m -> (forall a, traces P (f a)) -> traces P (bind m f).
Proof.
  intros Hm Hf.
  apply (traces_bind_post P (fun _ => True) m f Hm); auto.
Qed.

Lemma traces_try_except (P : event -> Prop) {A : Type} (m : M A)
    (h : exn -> M A) :
  traces P m -> (forall e, traces P (h e)) -> traces P (try_except m h).
Proof.
  intros Hm Hh st. unfold try_except. destruct (Hm st) as (evs & E & F).
  destruct (m st) as [[a|e] st1]; cbn in E.
  - now exists evs.
  - destruct (Hh e st1) as (evs' & E' & F').
    exists (evs ++ evs')%list. split; [now rewrite E', E, app_assoc|].
    apply Forall_app. now split.
Qed.

Lemma message_event (ev : event) :
  ev <> SUMMARY_ERROR -> local_event ev -> handler_event ev.
Proof. intros N L. split; [exact N|]. now destruct ev. Qed.

Ltac shown :=
  apply traces_emit, message_event;
    [unfold SUMMARY_ERROR; discriminate | exact I].

Ltac request :=
  apply traces_emit; split; [unfold SUMMARY_ERROR; discriminate | exact I].

Lemma traces_extract_transcript (w : World) (video_id : string) :
  traces handler_event (extract_transcript w video_id).
Proof.
  unfold extract_transcript. apply traces_try_except.
  - apply traces_bind; [request|intros _].
    apply traces_bind; [apply traces_lift|intros data]. apply traces_ret.
  - intros e. apply traces_bind; [shown|intros _]. apply traces_ret.
Qed.

Lemma traces_ask_model (w : World) (prompt : string) :
  traces handler_event (ask_model w prompt).
Proof.
  unfold ask_model. apply traces_bind; [request|intros _]. apply traces_lift.
Qed.

Lemma traces_generate_summary (w : World) (transcript : string) :
  traces handler_event (generate_summary w transcript).
Proof.
  unfold generate_summary.
  apply traces_bind; [apply traces_ask_model|intros r]. apply traces_ret.
Qed.

Lemma traces_extract_json (w : World) (s : string) :
  traces handler_event (extract_json w s).
Proof.
  unfold extract_json. apply traces_try_except.
  - destruct (_ && _)%bool; [|apply traces_lift].
    apply traces_bind; [apply traces_lift|intros v]. apply traces_ret.
  - intros e. apply traces_bind; [shown|intros _]. apply traces_ret.
Qed.

Lemma traces_generate_mind_map (w : World) (summary : string) :
  traces handler_event (generate_mind_map w summary).
Proof.
  unfold generate_mind_map.
  apply traces_bind; [apply traces_lift|intros prompt].
  apply traces_bind; [apply traces_ask_model|intros r].
  destruct (resp_text r) as [s|].
  - destruct (Py.truthy s); [apply traces_extract_json|].
    apply traces_bind; [shown|intros _]. apply traces_ret.
  - apply traces_bind; [shown|intros _]. apply traces_ret.
Qed.

Lemma traces_create_mind_map_visual (data : json) :
  traces handler_event (create_mind_map_visual data).
Proof.
  unfold create_mind_map_visual.
  apply (traces_bind_post handler_event (fun net => build_network data = Ok net)).
  - apply traces_lift.
  - intros st net st'. unfold lift. now intros [= -> _].
  - intros net B. apply traces_emit. split.
    + unfold SUMMARY_ERROR. discriminate.
    + split; [reflexivity|]. exact (build_network_well_formed data net B).
Qed.

Lemma traces_show_mind_map (view : bool) (d : option json) :
  traces handler_event (show_mind_map view d).
Proof.
  unfold show_mind_map. destruct d as [d|]; [|shown].
  destruct (PyVal.truthy d); [|shown].
  apply traces_bind; [apply traces_set_mind_map_data|intros _].
  apply traces_bind; [apply traces_create_mind_map_visual|intros _].
  apply traces_bind; [shown|intros _].
  destruct view; [shown | apply traces_ret].
Qed.

Lemma traces_show_summary (w : World) (view : bool) (s : string) :
  Py.truthy s = true -> traces handler_event (show_summary w view s).
Proof.
  intros T. unfold show_summary. rewrite T.
  apply traces_bind; [apply traces_set_summary|intros _].
  apply traces_bind; [shown|intros _].
  apply traces_bind; [shown|intros _].
  apply traces_bind; [apply traces_generate_mind_map|intros d].
  apply traces_show_mind_map.
Qed.

Lemma traces_use_transcript (w : World) (view : bool) (t : option string) :
  traces handler_event (use_transcript w view t).
Proof.
  unfold use_transcript. destruct t as [t|]; [|apply traces_ret].
  destruct (Py.truthy t); [|apply traces_ret].
  apply (traces_bind_post handler_event (fun s => Py.truthy s = true)).
  - apply traces_generate_summary.
  - intros st s st'. apply generate_summary_truthy.
  - intros s. apply traces_show_summary.
Qed.

(** X19.  Whatever the services answer, two things never happen in a
    run of the handler: the message for a failed summary is never shown
    (the summary that reaches the test is never empty), and no graph is
    saved under another name than [mind_map.html] or with equal node ids
    or an edge to a node that is missing. *)
Theorem handler_never
    (w : World) (youtube_url : string) (view_clicked : bool) (st : session) :
  exists evs,
    trace (snd (on_generate w youtube_url view_clicked st)) =
      (trace st ++ evs)%list
    /\ ~ In (st_error (Msg "❗ Error generating summary.")) evs
    /\ forall net file,
         In (save_graph net file) evs ->
         file = "mind_map.html" /\ well_formed net.
Proof.
  assert (T : traces handler_event (on_generate w youtube_url view_clicked)).
  { unfold on_generate.
    destruct (negb (Py.truthy youtube_url)); [shown|].
    destruct (get_video_id youtube_url) as [video_id|]; [|shown].
    destruct (negb (Py.truthy video_id)); [shown|].
    apply traces_bind; [apply traces_extract_transcript|intros t].
    apply traces_use_transcript. }
  destruct (T st) as (evs & E & F). exists evs. split; [exact E|].
  rewrite Forall_forall in F. split.
  - intros Hin. now destruct (F _ Hin) as [N _].
  - intros net file Hin. now destruct (F _ Hin) as [_ S].
Qed.

(** ** The script from top to bottom *)

Lemma skipn_length_app {A : Type} (l l' : list A) :
  skipn (List.length l) (l ++ l') = l'.
Proof. induction l as [|a l IH]; [reflexivity | exact IH]. Qed.

Lemma log_nil (st : session) : log st [] = st.
Proof. destruct st. unfold log. cbn. now rewrite app_nil_r. Qed.

Lemma run_known {A : Type} (m : M A) (st st' : session) (r : result A)
    (evs : list event) (out : list output) :
  m st = (r, st') -> trace st' = (trace st ++ evs)%list ->
  run m st out = (r, st', (out ++ map inr evs)%list).
Proof.
  intros E T. unfold run, new_events. rewrite E, T.
  now rewrite skipn_length_app.
Qed.

Lemma events_of_inr (evs : list event) : events_of (map inr evs) = evs.
Proof.
  unfold events_of. induction evs as [|e evs IH]; [reflexivity|].
  cbn. now rewrite IH.
Qed.

Lemma events_of_app (a b : list output) :
  events_of (a ++ b) = (events_of a ++ events_of b)%list.
Proof. unfold events_of. now rewrite flat_map_app. Qed.

Lemma thumbnail_run (youtube_url : string) (st : session) (out : list output) :
  thumbnail youtube_url st out =
  (Ok tt, log st (events_of (thumbnail_outputs youtube_url)),
   (out ++ thumbnail_outputs youtube_url)%list).
Proof.
  unfold thumbnail, thumbnail_outputs.
  destruct (Py.truthy youtube_url).
  - destruct (get_video_id youtube_url) as [video_id|] eqn:G.
    + rewrite (video_id_truthy youtube_url video_id G).
      unfold draw. cbn. now rewrite log_nil.
    + now rewrite (run_known (emit (st_error (Msg "❗ Invalid YouTube URL!")))
                     st _ _ [st_error (Msg "❗ Invalid YouTube URL!")] out
                     eq_refl eq_refl).
  - unfold pret. cbn. now rewrite log_nil, app_nil_r.
Qed.

Lemma saved_summary_run (st : session) (out : list output) :
  saved_summary st out =
  (Ok tt, log st (events_of (saved_outputs (summary st))),
   (out ++ saved_outputs (summary st))%list).
Proof.
  unfold saved_summary, saved_outputs.
  destruct (Py.truthy (summary st)).
  - rewrite (run_known
               (bind (emit (st_markdown (Msg "## 📚 Saved Summary:")))
                  (fun _ => emit (st_write (Msg (summary st)))))
               st _ _
               [st_markdown (Msg "## 📚 Saved Summary:");
                st_write (Msg (summary st))] out eq_refl);
      [unfold log; cbn; now rewrite <- app_assoc|].
    cbn. now rewrite <- app_assoc.
  - cbn. now rewrite log_nil, app_nil_r.
Qed.

(** *** The handler on the page and the handler on the session *)

Lemma run_session {A : Type} (m : M A) (st : session) (out : list output) :
  fst (run m st out) = m st.
Proof. unfold run. now destruct (m st). Qed.

Lemma pbind_session {A B : Type} (mp : Page A) (fp : A -> Page B)
    (m : M A) (f : A -> M B) :
  (forall st out, fst (mp st out) = m st) ->
  (forall a st out, fst (fp a st out) = f a st) ->
  forall st out, fst (pbind mp fp st out) = bind m f st.
Proof.
  intros Hm Hf st out. unfold pbind, bind. rewrite <- (Hm st out).
  destruct (mp st out) as [[[a|e] st'] out']; cbn [fst]; [apply Hf | reflexivity].
Qed.

Lemma show_mind_map_page_session (view : bool) (d : option json)
    (st : session) (out : list output) :
  fst (show_mind_map_page view d st out) = show_mind_map view d st.
Proof.
  unfold show_mind_map_page, show_mind_map.
  destruct d as [d|]; [|apply run_session].
  destruct (PyVal.truthy d); [|apply run_session].
  revert st out.
  apply pbind_session; [intros; apply run_session|intros _].
  apply pbind_session; [intros; apply run_session|intros _].
  apply pbind_session; [intros; apply run_session|intros _].
  intros st out. unfold pbind, draw.
  destruct view; [apply run_session | reflexivity].
Qed.

Lemma show_summary_page_session (w : World) (view : bool) (s : string)
    (st : session) (out : list output) :
  fst (show_summary_page w view s st out) = show_summary w view s st.
Proof.
  unfold show_summary_page, show_summary.
  destruct (Py.truthy s); [|apply run_session].
  revert st out.
  apply pbind_session; [intros; apply run_session|intros _].
  apply pbind_session; [intros; apply run_session|intros _].
  apply pbind_session; [intros; apply run_session|intros _].
  apply pbind_session; [intros; apply run_session|intros d].
  intros. apply show_mind_map_page_session.
Qed.

Lemma use_transcript_page_session (w : World) (view : bool)
    (t : option string) (st : session) (out : list output) :
  fst (use_transcript_page w view t st out) = use_transcript w view t st.
Proof.
  unfold use_transcript_page, use_transcript.
  destruct t as [t|]; [|reflexivity].
  destruct (Py.truthy t); [|reflexivity].
  revert st out.
  apply pbind_session; [intros; apply run_session|intros s].
  intros. apply show_summary_page_session.
Qed.

(** On the session and on the services the handler on the page does what
    [on_generate] does. *)
Lemma on_generate_page_session (w : World) (youtube_url : string)
    (view : bool) (st : session) (out : list output) :
  fst (on_generate_page w youtube_url view st out) =
  on_generate w youtube_url view st.
Proof.
  unfold on_generate_page, on_generate.
  destruct (negb (Py.truthy youtube_url)); [apply run_session|].
  destruct (get_video_id youtube_url) as [video_id|]; [|apply run_session].
  destruct (negb (Py.truthy video_id)); [apply run_session|].
  revert st out.
  apply pbind_session; [intros; apply run_session|intros t].
  intros. apply use_transcript_page_session.
Qed.

Lemma run_emit (ev : event) (st : session) (out : list output) :
  run (emit ev) st out = (Ok tt, log st [ev], (out ++ [inr ev])%list).
Proof. exact (run_known (emit ev) st _ _ [ev] out eq_refl eq_refl). Qed.

Lemma on_generate_page_with_id
    (w : World) (youtube_url video_id : string) (view : bool) :
  youtube_url <> "" -> get_video_id youtube_url = Some video_id ->
  on_generate_page w youtube_url view =
  pbind (run (extract_transcript w video_id)) (use_transcript_page w view).
Proof.
  intros Hurl Hid. unfold on_generate_page.
  rewrite (truthy_nonempty youtube_url Hurl). cbn [negb].
  rewrite Hid, (video_id_truthy youtube_url video_id Hid). reflexivity.
Qed.

(** The page up to the answer of the model to the summary request. *)
Lemma on_generate_page_summary
    (w : World) (youtube_url video_id : string) (captions : list fragment)
    (view : bool) (st : session) (out : list output) :
  youtube_url <> "" -> get_video_id youtube_url = Some video_id ->
  get_transcript w video_id = Ok captions -> spaced_texts captions <> "" ->
  on_generate_page w youtube_url view st out =
  pbind (run (generate_summary w (spaced_texts captions)))
    (show_summary_page w view)
    (log st [transcript_request video_id])
    (out ++ [inr (transcript_request video_id)])%list.
Proof.
  intros Hurl Hid Hcap Htext.
  rewrite (on_generate_page_with_id w youtube_url video_id view Hurl Hid).
  unfold pbind at 1.
  rewrite (run_known (extract_transcript w video_id) st _ _
             [transcript_request video_id] out
             (extract_transcript_run w video_id captions st Hcap) eq_refl).
  unfold use_transcript_page.
  now rewrite (truthy_nonempty _ Htext).
Qed.

Lemma show_mind_map_page_ok (data : json) (m : MindMap)
    (st : session) (out : list output) :
  is_mind_map data m ->
  show_mind_map_page false (Some data) st out =
  (Ok tt,
   log (mkSession (summary st) (Some data) (trace st))
     [save_graph (graph_of m) "mind_map.html";
      st_success (Msg "✅ Mind map generated successfully!")],
   (out ++ [inr (save_graph (graph_of m) "mind_map.html");
            inr (st_success (Msg "✅ Mind map generated successfully!"));
            view_button])%list).
Proof.
  intros H. unfold show_mind_map_page. rewrite (is_mind_map_truthy data m H).
  unfold pbind at 1.
  rewrite (run_known (set_mind_map_data data) st _ _ [] out eq_refl)
    by (cbn; now rewrite app_nil_r).
  unfold pbind at 1.
  rewrite (run_known (create_mind_map_visual data) _
             (log (mkSession (summary st) (Some data) (trace st))
                [save_graph (graph_of m) "mind_map.html"])
             (Ok tt) [save_graph (graph_of m) "mind_map.html"]);
    [|now rewrite create_mind_map_visual_run, (build_network_graph_of data m H)
     |reflexivity].
  unfold pbind at 1. rewrite run_emit.
  unfold pbind, draw, pret, view_button. rewrite log_log.
  cbn [map List.app]. repeat (rewrite <- ?app_assoc; cbn [List.app]).
  reflexivity.
Qed.

Lemma script_run (w : World) (youtube_url : string) (gen view : bool)
    (st : session) (out : list output) :
  script w youtube_url gen view st out =
  match
    (if gen then on_generate_page w youtube_url view else pret tt)
      (log st (events_of (thumbnail_outputs youtube_url)))
      (out ++ page_head ++ thumbnail_outputs youtube_url ++ [generate_button])%list
  with
  | (Ok _, st', out') => saved_summary st' out'
  | (Raise e, st', out') => (Raise e, st', out')
  end.
Proof.
  unfold script, pbind, draw. rewrite thumbnail_run.
  unfold page_head, generate_button.
  rewrite <- !app_assoc. reflexivity.
Qed.

Lemma local_outputs (youtube_url : string) (st : session) :
  Forall local_event (events_of (idle_page youtube_url st)).
Proof.
  unfold idle_page, page_head, generate_button, thumbnail_outputs, saved_outputs.
  destruct (Py.truthy youtube_url); [destruct (get_video_id youtube_url)|];
    destruct (Py.truthy (summary st)); cbn; repeat constructor.
Qed.

(** X20.  A run of the script in which the button is not pressed contacts
    no service and saves no file; the session keeps its summary and its
    mind map.  The page is the title, the input, the thumbnail (or the
    error for an address without id), the button and, when a summary is
    stored, the saved summary. *)
Theorem script_idle
    (w : World) (youtube_url : string) (view_clicked : bool)
    (st : session) (out : list output) :
  script w youtube_url false view_clicked st out =
    (Ok tt, log st (events_of (idle_page youtube_url st)),
     (out ++ idle_page youtube_url st)%list)
  /\ Forall local_event (events_of (idle_page youtube_url st)).
Proof.
  split; [|apply local_outputs].
  rewrite script_run. unfold pret. rewrite saved_summary_run.
  cbn [log summary]. rewrite log_log. unfold idle_page.
  rewrite !events_of_app. cbn [events_of flat_map generate_button page_head List.app].
  fold (events_of (thumbnail_outputs youtube_url)).
  fold (events_of (saved_outputs (summary st))).
  repeat (rewrite <- ?app_assoc; cbn [List.app]). reflexivity.
Qed.

Lemma script_idle_witness :
  script cats_world "https://youtu.be/dQw4w9WgXcQ" false false
    (mkSession "- Cats are mammals" None []) [] =
  (Ok tt,
   mkSession "- Cats are mammals" None
     [st_markdown (Msg "## 📚 Saved Summary:");
      st_write (Msg "- Cats are mammals")],
   (page_head
      ++ [inl (st_image "http://img.youtube.com/vi/dQw4w9WgXcQ/0.jpg" true);
          generate_button;
          inr (st_markdown (Msg "## 📚 Saved Summary:"));
          inr (st_write (Msg "- Cats are mammals"))])%list).
Proof.
  apply (proj1 (script_idle cats_world "https://youtu.be/dQw4w9WgXcQ" false
                  (mkSession "- Cats are mammals" None []) [])).
Defined.

Lemma thumbnail_of_id (youtube_url video_id : string) :
  youtube_url <> "" -> get_video_id youtube_url = Some video_id ->
  thumbnail_outputs youtube_url =
  [inl (st_image ("http://img.youtube.com/vi/" ++ video_id ++ "/0.jpg") true)].
Proof.
  intros Hurl Hid. unfold thumbnail_outputs.
  now rewrite (truthy_nonempty youtube_url Hurl), Hid.
Qed.

(** X21.  For an address in which no id is found, a press of the button
    shows the invalid-address error twice on the page: once from the
    thumbnail block above the button and once from the handler; no
    service is contacted. *)
Theorem script_invalid_address
    (w : World) (youtube_url : string) (view_clicked : bool)
    (st : session) (out : list output) :
  youtube_url <> "" -> get_video_id youtube_url = None ->
  script w youtube_url true view_clicked st out =
    (Ok tt,
     log st ([st_error (Msg "❗ Invalid YouTube URL!");
              st_error (Msg "❗ Invalid YouTube URL.")]
               ++ events_of (saved_outputs (summary st))),
     (out ++ page_head
        ++ [inr (st_error (Msg "❗ Invalid YouTube URL!"));
            generate_button;
            inr (st_error (Msg "❗ Invalid YouTube URL."))]
        ++ saved_outputs (summary st))%list).
Proof.
  intros Hurl Hid. rewrite script_run.
  assert (T : thumbnail_outputs youtube_url =
              [inr (st_error (Msg "❗ Invalid YouTube URL!"))]).
  { unfold thumbnail_outputs.
    now rewrite (truthy_nonempty youtube_url Hurl), Hid. }
  rewrite T. cbn [events_of flat_map List.app].
  unfold on_generate_page.
  rewrite (truthy_nonempty youtube_url Hurl), Hid. cbn [negb].
  rewrite run_emit, saved_summary_run. cbn [log summary]. rewrite !log_log.
  repeat (rewrite <- ?app_assoc; cbn [List.app map]). reflexivity.
Qed.

Lemma script_invalid_address_witness :
  script cats_world "https://example.org/cats" true false fresh [] =
    (Ok tt,
     log fresh [st_error (Msg "❗ Invalid YouTube URL!");
                st_error (Msg "❗ Invalid YouTube URL.")],
     (page_head
        ++ [inr (st_error (Msg "❗ Invalid YouTube URL!"));
            generate_button;
            inr (st_error (Msg "❗ Invalid YouTube URL."))])%list).
Proof.
  apply (script_invalid_address cats_world "https://example.org/cats" false
           fresh []);
    [discriminate | reflexivity].
Defined.

(** X22.  In a run that goes through, the page shows the summary twice:
    under the summary heading when it is generated and again, at the end
    of the same run, under the heading of the saved summary, below the
    success message and the nested button.  The session holds the summary
    and the decoded mind map.  The nested button is taken as not
    pressed. *)
Theorem script_shows_summary_twice
    (w : World) (youtube_url video_id : string) (captions : list fragment)
    (summary_text : string) (data : json) (m : MindMap)
    (st : session) (out : list output) :
  goes_through w youtube_url video_id captions summary_text data m ->
  script w youtube_url true false st out =
    (Ok tt,
     mkSession summary_text (Some data)
       (trace st
          ++ run_events video_id captions summary_text m false
          ++ [st_markdown (Msg "## 📚 Saved Summary:");
              st_write (Msg summary_text)]),
     (out ++ page_head
        ++ [inl (st_image ("http://img.youtube.com/vi/" ++ video_id ++ "/0.jpg") true);
            generate_button]
        ++ map inr (run_events video_id captions summary_text m false)
        ++ [view_button;
            inr (st_markdown (Msg "## 📚 Saved Summary:"));
            inr (st_write (Msg summary_text))])%list).
Proof.
  intros (Hurl & Hid & Hcap & Htext & Hgen & Hs & (t & Hmm & Ho & Hc & L) & Hm).
  rewrite script_run, (thumbnail_of_id youtube_url video_id Hurl Hid).
  cbn [events_of flat_map List.app]. rewrite log_nil.
  rewrite (on_generate_page_summary w youtube_url video_id captions
             false st _ Hurl Hid Hcap Htext).
  unfold pbind at 1.
  rewrite (run_known (generate_summary w (spaced_texts captions)) _
             (log (log st [transcript_request video_id])
                [model_request MODEL (PROMPT_SUMMARY ++ spaced_texts captions)])
             (Ok summary_text)
             [model_request MODEL (PROMPT_SUMMARY ++ spaced_texts captions)]);
    [|rewrite generate_summary_run, Hgen; cbn [resp_text];
      now rewrite (truthy_nonempty summary_text Hs)
     |reflexivity].
  unfold show_summary_page. rewrite (truthy_nonempty summary_text Hs).
  unfold pbind at 1.
  rewrite (run_known (set_summary summary_text) _ _ _ [] _ eq_refl)
    by (cbn; now rewrite app_nil_r).
  unfold pbind at 1. rewrite run_emit.
  unfold pbind at 1. rewrite run_emit.
  unfold pbind at 1.
  match goal with
  | |- context [run (generate_mind_map w summary_text) ?s ?o] =>
      rewrite (run_known (generate_mind_map w summary_text) s
                 (log s [model_request MODEL (mind_map_prompt summary_text)])
                 (Ok (Some data))
                 [model_request MODEL (mind_map_prompt summary_text)] o);
        [|rewrite generate_mind_map_run, Hmm; cbn [resp_text];
          replace (Py.truthy t) with true by (now destruct t);
          now rewrite extract_json_cases, (braces_found t Ho Hc), L
         |reflexivity]
  end.
  rewrite (show_mind_map_page_ok data m _ _ Hm), saved_summary_run.
  unfold saved_outputs, log, run_events, view_button.
  cbn [summary mind_map_data trace].
  rewrite (truthy_nonempty summary_text Hs).
  cbn [events_of flat_map map List.app].
  repeat (rewrite <- ?app_assoc; cbn [List.app]). reflexivity.
Qed.

Lemma script_shows_summary_twice_witness :
  exists st' page,
    script cats_world "https://www.youtube.com/watch?v=dQw4w9WgXcQ" true false
      fresh [] = (Ok tt, st', page)
    /\ summary st' = "- Cats are mammals
- Cats are popular pets"
    /\ List.length
         (filter (fun o =>
                    match o with
                    | inr (st_write (Msg s)) => String.eqb s (summary st')
                    | _ => false
                    end) page) = 2%nat
    /\ nth_error page 11 = Some view_button.
Proof.
  eexists _, _. split.
  - apply (script_shows_summary_twice cats_world _ _ _ _ _ _ fresh []
             cats_go_through).
  - repeat split; reflexivity.
Defined.

(** X23.  When the handler ends with an exception the script ends with
    it: what the handler did up to then is on the page, and the saved
    summary is not shown, stored or not. *)
Theorem script_stops_at_exception
    (w : World) (youtube_url video_id : string) (captions : list fragment)
    (e : exn) (view_clicked : bool) (st : session) (out : list output) :
  youtube_url <> "" -> get_video_id youtube_url = Some video_id ->
  get_transcript w video_id = Ok captions -> spaced_texts captions <> "" ->
  generate_content w MODEL (PROMPT_SUMMARY ++ spaced_texts captions) = Raise e ->
  script w youtube_url true view_clicked st out =
    (Raise e,
     log st [transcript_request video_id;
             model_request MODEL (PROMPT_SUMMARY ++ spaced_texts captions)],
     (out ++ page_head
        ++ [inl (st_image ("http://img.youtube.com/vi/" ++ video_id ++ "/0.jpg") true);
            generate_button;
            inr (transcript_request video_id);
            inr (model_request MODEL (PROMPT_SUMMARY ++ spaced_texts captions))])%list).
Proof.
  intros Hurl Hid Hcap Htext Hgen.
  rewrite script_run, (thumbnail_of_id youtube_url video_id Hurl Hid).
  cbn [events_of flat_map List.app]. rewrite log_nil.
  rewrite (on_generate_page_summary w youtube_url video_id captions
             view_clicked st _ Hurl Hid Hcap Htext).
  unfold pbind.
  rewrite (run_known (generate_summary w (spaced_texts captions)) _
             (log (log st [transcript_request video_id])
                [model_request MODEL (PROMPT_SUMMARY ++ spaced_texts captions)])
             (Raise e)
             [model_request MODEL (PROMPT_SUMMARY ++ spaced_texts captions)]);
    [|now rewrite generate_summary_run, Hgen|reflexivity].
  rewrite log_log.
  repeat (rewrite <- ?app_assoc; cbn [List.app map]). reflexivity.
Qed.

Lemma script_stops_at_exception_witness :
  script offline_model_world "https://youtu.be/dQw4w9WgXcQ" true false
    (mkSession "- An older summary" None []) [] =
  (Raise (OtherError "ServiceUnavailable" "503 Service Unavailable"),
   log (mkSession "- An older summary" None [])
     [transcript_request "dQw4w9WgXcQ";
      model_request MODEL
        (PROMPT_SUMMARY ++ "Cats are mammals. Cats are popular pets.")],
   (page_head
      ++ [inl (st_image "http://img.youtube.com/vi/dQw4w9WgXcQ/0.jpg" true);
          generate_button;
          inr (transcript_request "dQw4w9WgXcQ");
          inr (model_request MODEL
                 (PROMPT_SUMMARY ++ "Cats are mammals. Cats are popular pets."))])%list).
Proof.
  apply (script_stops_at_exception offline_model_world
           "https://youtu.be/dQw4w9WgXcQ" "dQw4w9WgXcQ" cats_captions
           (OtherError "ServiceUnavailable" "503 Service Unavailable") false
           (mkSession "- An older summary" None []) []);
    try discriminate; reflexivity.
Defined.
